(** * dynamodb-local: installation and process lifecycle manager

    A shallow embedding of [src/dynamodb-local.ts], [src/download-dynamodb.ts],
    [src/error.ts] and the parts of [src/shell.ts] they call, followed by the
    properties of the argument builder, the installation locator, the
    uninstaller, the archive fetcher and the process supervisor.

    Asynchronous functions are modelled by what they do up to the point where
    their promise settles: the list of effects they issue, in order, and the
    way the promise ends.  What the outside world answers (directory listings,
    removals, the line typed at a prompt, the events of the HTTPS request, the
    handle [spawn] returns) is read from a [World] record.  Standard output
    is taken to be a terminal, where [clearLine] and [cursorTo] exist. *)

From Stdlib Require Import String Ascii List ZArith Lia Bool DecimalString.
Import ListNotations.
Open Scope string_scope.
Set Warnings "-register-all".

(** ** JavaScript values *)

Module JS.

(** A Number, as far as the program observes one. *)
Inductive JSNumber : Type :=
| NInt (z : Z)
    (** the Number that the integer literal [z] denotes: [z] itself up to
        2^53 in magnitude, the double nearest to [z] beyond that, Infinity
        from 2^1024 - 2^970 on (-0 is [NInt 0]) *)
| NBig (negative : bool) (mantissa : Decimal.uint) (exponent : nat)
    (** an integral value of magnitude 10^21 or more, kept as the shortest
        decimal digits that identify it and its decimal exponent *)
| NFrac (num : Z) (den : positive)
    (** a finite value that is not integral, such as 3000.5 = 6001/2 *)
| NNaN
| NInfinity (negative : bool).

Inductive JSValue : Type :=
| JSUndefined
| JSNull
| JSBool (b : bool)
| JSNum (n : JSNumber)
| JSStr (s : string)
| JSArray (items : list JSValue)
| JSObject.   (** a plain object *)

(** ToBoolean: what [if (v)], [!v] and [v && ...] test. *)
Definition truthy (v : JSValue) : bool :=
  match v with
  | JSUndefined | JSNull => false
  | JSBool b => b
  | JSNum (NInt z) => negb (z =? 0)%Z
  | JSNum NNaN => false
  | JSNum _ => true
  | JSStr s => negb (s =? "")
  | JSArray _ | JSObject => true
  end.

(** [typeof v === 'string'] *)
Definition is_string (v : JSValue) : bool :=
  match v with JSStr _ => true | _ => false end.

(** Decimal digits of an integer, with a leading minus sign when negative. *)
Definition decimal (z : Z) : string := NilZero.string_of_int (Z.to_int z).

(** Decimal digits of a magnitude. *)
Definition unsigned (a : Z) : string :=
  NilZero.string_of_uint (N.to_uint (Z.to_N a)).

Fixpoint zeros (n : nat) : string :=
  match n with
  | O => EmptyString
  | S k => String "0" (zeros k)
  end.

(** [d.ddd] out of the digits [dddd]. *)
Definition dotted (digits : string) : string :=
  match digits with
  | String d EmptyString => digits
  | String d rest => String d ("." ++ rest)
  | EmptyString => digits
  end.

(** The double nearest to an integer [a] above 2^53, ties going to the even
    significand: the significand [m], 2^52 <= m < 2^53, and the exponent [e]
    of the value m * 2^e.  [None] when [a] rounds to Infinity. *)
Definition nearest_double (a : Z) : option (Z * Z) :=
  let e := (Z.log2 a - 52)%Z in
  let q := (a / 2 ^ e)%Z in
  let r := (a mod 2 ^ e)%Z in
  let half := (2 ^ (e - 1))%Z in
  let m :=
    if (half <? r)%Z || ((r =? half)%Z && Z.odd q) then (q + 1)%Z else q in
  let '(m, e) :=
    if (m =? 2 ^ 53)%Z then ((2 ^ 52)%Z, (e + 1)%Z) else (m, e) in
  if (e <=? 971)%Z then Some (m, e) else None.

(** Whether the integer [x] reads back as the double m * 2^e: it lies between
    the midpoints to the neighbouring doubles, which count when [m] is even. *)
Definition reads_back (m e x : Z) : bool :=
  let v4 := (4 * m * 2 ^ e)%Z in
  let below := if (m =? 2 ^ 52)%Z then (2 ^ e)%Z else (2 * 2 ^ e)%Z in
  let above := (2 * 2 ^ e)%Z in
  if Z.even m
  then ((v4 - below <=? 4 * x) && (4 * x <=? v4 + above))%Z
  else ((v4 - below <? 4 * x) && (4 * x <? v4 + above))%Z.

(** The fewest digits [s] such that s * 10^(n - k) reads back as m * 2^e, and
    among those the closest to it; [k] is the number of digits tried. *)
Fixpoint shortest (fuel : nat) (m e n k : Z) : Z :=
  let v := (m * 2 ^ e)%Z in
  match fuel with
  | O => v
  | S fuel' =>
      let p := (10 ^ (n - k))%Z in
      let lo := (v / p)%Z in
      let hi := (lo + 1)%Z in
      let near_lo := reads_back m e (lo * p) in
      let near_hi := reads_back m e (hi * p) in
      if near_lo && near_hi then
        if (v - lo * p <? hi * p - v)%Z then lo
        else if (hi * p - v <? v - lo * p)%Z then hi
        else if Z.even lo then lo else hi
      else if near_lo then lo
      else if near_hi then hi
      else shortest fuel' m e n (k + 1)%Z
  end.

(** The digits [s] and the position [n] of the decimal point of
    [Number::toString] for the double m * 2^e, an integer above 2^53. *)
Definition digits_of_double (m e : Z) : Z * Z :=
  let v := (m * 2 ^ e)%Z in
  let n := Z.of_nat (String.length (unsigned v)) in
  if reads_back m e (10 ^ n) then (1%Z, (n + 1)%Z)
  else (shortest (Z.to_nat n) m e n 1, n).

(** [Number::toString] from the digits: zeros fill up to the decimal point
    below 10^21, exponent notation from there on. *)
Definition render (negative : bool) (sn : Z * Z) : string :=
  let '(s, n) := sn in
  let digits := unsigned s in
  (if negative then "-" else "") ++
  (if (n <=? 21)%Z
   then digits ++ zeros (Z.to_nat n - String.length digits)
   else dotted digits ++ "e+" ++ unsigned (n - 1)).

(** [String(z)] for the Number an integer literal [z] denotes; [None] when
    that Number is Infinity. *)
Definition String_of_Z (z : Z) : option string :=
  if (Z.abs z <=? 2 ^ 53)%Z then Some (decimal z)
  else match nearest_double (Z.abs z) with
       | Some (m, e) => Some (render (z <? 0)%Z (digits_of_double m e))
       | None => None
       end.

(** [Number.isInteger(v)]: false for every value that is not a Number. *)
Definition Number_isInteger (v : JSValue) : bool :=
  match v with
  | JSNum (NInt z) =>
      match String_of_Z z with
      | Some _ => true
      | None => false
      end
  | JSNum (NBig _ _ _) => true
  | _ => false
  end.

(** [String(v)] for a value [v] with [Number.isInteger(v)]: the exact digits
    up to 2^53, beyond that the shortest digits that identify the double,
    filled with zeros below 10^21 and in exponent notation from there on.
    [None] for every other value, which the program never prints this way. *)
Definition String_of_integer (v : JSValue) : option string :=
  match v with
  | JSNum (NInt z) => String_of_Z z
  | JSNum (NBig negative mantissa exponent) =>
      Some ((if negative then "-" else "")
              ++ dotted (NilEmpty.string_of_uint mantissa)
              ++ "e+" ++ decimal (Z.of_nat exponent))
  | _ => None
  end.

(** [v !== undefined] *)
Definition defined (v : JSValue) : bool :=
  match v with JSUndefined => false | _ => true end.

(** [String(v)] where [v] is a pid: a number or [undefined]. *)
Definition String_of_pid (pid : option Z) : string :=
  match pid with
  | Some p => decimal p
  | None => "undefined"
  end.

(** [items.every(c => typeof c === 'string')], returning the strings. *)
Fixpoint every_string (items : list JSValue) : option (list string) :=
  match items with
  | [] => Some []
  | JSStr s :: rest => option_map (cons s) (every_string rest)
  | _ :: _ => None
  end.

(** Case mapping of the ASCII letters.  A string is its UTF-8 bytes, and the
    bytes of a character beyond ASCII are no ASCII letters. *)
Definition upper_char (c : ascii) : ascii :=
  let n := nat_of_ascii c in
  if (97 <=? n)%nat && (n <=? 122)%nat then ascii_of_nat (n - 32) else c.

Definition lower_char (c : ascii) : ascii :=
  let n := nat_of_ascii c in
  if (65 <=? n)%nat && (n <=? 90)%nat then ascii_of_nat (n + 32) else c.

Fixpoint map_chars (f : ascii -> ascii) (s : string) : string :=
  match s with
  | EmptyString => EmptyString
  | String c rest => String (f c) (map_chars f rest)
  end.

(** [toUpperCase], exact on ASCII text, which the names and messages that
    the program prints in upper case are. *)
Definition toUpperCase : string -> string := map_chars upper_char.

(** The Kelvin sign U+212A in UTF-8. *)
Definition kelvin (a b c : ascii) : bool :=
  (nat_of_ascii a =? 226)%nat && (nat_of_ascii b =? 132)%nat
    && (nat_of_ascii c =? 170)%nat.

(** [toLowerCase], exact on ASCII text.  Beyond ASCII the Kelvin sign becomes
    [k], being the one character there whose lower-case form is an ASCII
    letter; the other characters are left as they are, where JavaScript maps
    the capital letters among them to letters beyond ASCII. *)
Fixpoint toLowerCase (s : string) : string :=
  match s with
  | EmptyString => EmptyString
  | String a tail =>
      match tail with
      | String b (String c rest) =>
          if kelvin a b c then String "k" (toLowerCase rest)
          else String (lower_char a) (toLowerCase tail)
      | _ => String (lower_char a) (toLowerCase tail)
      end
  end.

(** Text made of ASCII characters only. *)
Fixpoint ascii_text (s : string) : bool :=
  match s with
  | EmptyString => true
  | String c rest => (nat_of_ascii c <? 128)%nat && ascii_text rest
  end.

(** [hay.includes(needle)] on strings; also [hay.match(/needle/)] for a
    pattern without metacharacters. *)
Fixpoint str_includes (needle hay : string) : bool :=
  prefix needle hay ||
  match hay with
  | EmptyString => false
  | String _ rest => str_includes needle rest
  end.

(** [list.includes(x)] on an array of strings. *)
Definition includes (l : list string) (x : string) : bool :=
  existsb (String.eqb x) l.

End JS.
Import JS.

(** ** node:path, POSIX flavour *)

Module Path.

Definition isAbsolute (p : string) : bool :=
  match p with
  | String "/" _ => true
  | _ => false
  end.

Fixpoint split (p : string) : list string :=
  match p with
  | EmptyString => [EmptyString]
  | String c rest =>
      if Ascii.eqb c "/" then EmptyString :: split rest
      else match split rest with
           | seg :: segs => String c seg :: segs
           | [] => [String c EmptyString]
           end
  end.

(** The segment walk of node's [normalizeString]: empty and [.] segments are
    dropped, [..] removes the segment before it, or stays when there is none
    and the path may climb above its root.  [acc] is the result so far, last
    segment first. *)
Fixpoint normalize_segments (allowAboveRoot : bool) (acc segs : list string)
  : list string :=
  match segs with
  | [] => rev acc
  | seg :: rest =>
      if (seg =? "") || (seg =? ".") then
        normalize_segments allowAboveRoot acc rest
      else if seg =? ".." then
        match acc with
        | top :: below =>
            if top =? ".." then
              normalize_segments allowAboveRoot
                (if allowAboveRoot then seg :: acc else acc) rest
            else normalize_segments allowAboveRoot below rest
        | [] =>
            normalize_segments allowAboveRoot
              (if allowAboveRoot then [seg] else []) rest
        end
      else normalize_segments allowAboveRoot (seg :: acc) rest
  end.

Definition normalizeString (p : string) (allowAboveRoot : bool) : string :=
  String.concat "/" (normalize_segments allowAboveRoot [] (split p)).

Fixpoint ends_with_slash (p : string) : bool :=
  match p with
  | EmptyString => false
  | String c EmptyString => Ascii.eqb c "/"
  | String _ rest => ends_with_slash rest
  end.

Definition normalize (p : string) : string :=
  if p =? "" then "."
  else
    let absolute := isAbsolute p in
    let trailing := ends_with_slash p in
    let q := normalizeString p (negb absolute) in
    if q =? "" then
      if absolute then "/" else if trailing then "./" else "."
    else
      let q := if trailing then q ++ "/" else q in
      if absolute then "/" ++ q else q.

(** [join(...parts)] *)
Definition join (parts : list string) : string :=
  match filter (fun a => negb (a =? "")) parts with
  | [] => "."
  | nonempty => normalize (String.concat "/" nonempty)
  end.

(** [resolve(p)] with one argument, [cwd] being [process.cwd()]. *)
Definition resolve (cwd p : string) : string :=
  let resolved := if p =? "" then "" else p ++ "/" in
  let absolute := isAbsolute p in
  let resolved :=
    if absolute || (cwd =? "") then resolved else cwd ++ "/" ++ resolved in
  let absolute := absolute || isAbsolute cwd in
  let q := normalizeString resolved (negb absolute) in
  if absolute then "/" ++ q
  else if q =? "" then "." else q.

(** Last non-empty segment: the [base] of [parse]. *)
Definition basename (p : string) : string :=
  last (filter (fun a => negb (a =? "")) (split p)) "".

(** Position of the last dot of [s], counted from the start. *)
Fixpoint last_dot (s : string) : option nat :=
  match s with
  | EmptyString => None
  | String c rest =>
      match last_dot rest with
      | Some i => Some (S i)
      | None => if Ascii.eqb c "." then Some 0%nat else None
      end
  end.

(** [parse(p).name]: the base name without its extension.  A dot that opens
    the base name starts no extension, and [..] has none. *)
Definition parse_name (p : string) : string :=
  let base := basename p in
  match last_dot base with
  | None | Some O => base
  | Some i => if base =? ".." then base else substring 0 i base
  end.

End Path.

(** ** src/shell.ts: styled console messages *)

Module Shell.

Definition ESC : string := String (ascii_of_nat 27) EmptyString.

Definition RESET : string := ESC ++ "[0m".
Definition BOLD : string := ESC ++ "[1m".
Definition UNDERLINE : string := ESC ++ "[4m".
Definition PURPLE : string := ESC ++ "[35m".
Definition RED_BOLD : string := ESC ++ "[1;31m".
Definition YELLOW_BOLD : string := ESC ++ "[1;33m".
Definition GREEN_BOLD : string := ESC ++ "[1;32m".

Definition print (text style : string) : string := style ++ text ++ RESET.

Definition underline (text : string) : string := print text UNDERLINE.
Definition bold (text : string) : string := print text BOLD.

Definition prefix : string := "[" ++ print "DynamoDBLocal" PURPLE ++ "] ".

Definition msg_error (name message : string) : string :=
  prefix ++ print (toUpperCase name ++ ": ") RED_BOLD ++ message.
Definition msg_warning (message : string) : string :=
  prefix ++ print "WARNING: " YELLOW_BOLD ++ message.
Definition msg_message (message : string) : string := prefix ++ message.
Definition msg_info (message : string) : string := prefix ++ bold message.
Definition msg_success (message : string) : string :=
  prefix ++ print (toUpperCase message) GREEN_BOLD.
Definition msg_fail (message : string) : string :=
  prefix ++ print (toUpperCase message) RED_BOLD.

End Shell.

(** ** Effects, errors and promises *)

(** An error raised by node itself: a rejected [rm] or [mkdir], a request or
    stream error, a spawn failure. *)
Record NodeError : Type := mkNodeError {
  node_name : string;
  node_message : string
}.

(** src/error.ts *)
Record DynamoDBLocalError : Type := mkError {
  name : string;
  message : string
}.

(** What a promise of this program is rejected with: one of its errors, or
    the value [false] the archive fetcher passes to [reject] when the stream
    fails after the request was destroyed. *)
Inductive Reason : Type :=
| Thrown (e : DynamoDBLocalError)
| RejectedFalse.

Inductive Effect : Type :=
| Mkdir (path : string)          (** [mkdir(path, {recursive: true})] *)
| Rm (path : string)             (** [rm(path, {recursive: true})] *)
| ConsoleLog (line : string)     (** [console.log(line)] *)
| StdoutWrite (text : string)    (** [process.stdout.write(text)] *)
| StdoutClearLine                (** [clearLine(0)] then [cursorTo(0)] *)
| StdoutProgress (written : Z) (length : string)
    (** the progress line of a download, with its percentage
        [Math.round(written * 100 / +length)] *)
| ConsoleSummary
    (** the seven lines that report the effective options once the service
        has started *)
| ConsoleSummaryLines (count : nat)
    (** the first [count] of those lines, when the next one throws *)
| Uncaught (error_name : string)
    (** an exception that escapes a timer callback *)
| Question (prompt : string)     (** [createInterface] and [question] *)
| CloseInput                     (** [input.close()] *)
| HttpsGet (host path : string)  (** [request(options, ...)] and [req.end()] *)
| DestroyRequest                 (** [req.destroy()] *)
| Untar (destination : string)   (** [pipeline(res, x({C: destination}))] *)
| Spawn (command : string) (args : list string)
    (** [spawn(command, args, {shell: true})] *)
| Kill (pid : option Z).         (** [child.kill()] *)

(** How an asynchronous call ends.  [Pending] is a promise that never
    settles. *)
Inductive Settled (A : Type) : Type :=
| Fulfilled (a : A)
| Rejected (r : Reason)
| Pending.
Arguments Fulfilled {A} a.
Arguments Rejected {A} r.
Arguments Pending {A}.

(** An asynchronous computation: the effects it issued and how it ended. *)
Definition M (A : Type) : Type := (list Effect * Settled A)%type.

Definition ret {A} (a : A) : M A := ([], Fulfilled a).

Definition bind {A B} (m : M A) (k : A -> M B) : M B :=
  match m with
  | (es, Fulfilled a) => let (es', r) := k a in ((es ++ es')%list, r)
  | (es, Rejected r) => (es, Rejected r)
  | (es, Pending) => (es, Pending)
  end.

Notation "x <- m ;; k" := (bind m (fun x => k))
  (at level 61, m at next level, right associativity).
Notation "m ;;; k" := (bind m (fun _ => k))
  (at level 61, right associativity).

Definition emit (e : Effect) : M unit := ([e], Fulfilled tt).

Definition when (b : bool) (m : M unit) : M unit := if b then m else ret tt.

(** [try { body } finally { cleanup }]: the cleanup runs once the body has
    ended, whichever way. *)
Definition finally {A} (body : M A) (cleanup : list Effect) : M A :=
  match body with
  | (es, Pending) => (es, Pending)
  | (es, r) => ((es ++ cleanup)%list, r)
  end.

(** [new DynamoDBLocalError(name, message, verbose)]: the constructor prints
    the error when [verbose]. *)
Definition new_error (name message : string) (verbose : bool)
  : list Effect * DynamoDBLocalError :=
  (if verbose then [ConsoleLog (Shell.msg_error name message)] else [],
   mkError name message).

(** [throw new DynamoDBLocalError(name, message, verbose)] *)
Definition throw {A} (name message : string) (verbose : bool) : M A :=
  let (es, e) := new_error name message verbose in (es, Rejected (Thrown e)).

Definition log_info (verbose : bool) (message : string) : M unit :=
  when verbose (emit (ConsoleLog (Shell.msg_info message))).
Definition log_warning (verbose : bool) (message : string) : M unit :=
  when verbose (emit (ConsoleLog (Shell.msg_warning message))).

(** State of a [Promise<void>] that listeners settle: the first settlement
    stays. *)
Inductive Promise : Type :=
| Unsettled
| Resolved
| RejectedWith (r : Reason).

Definition settle (p new : Promise) : Promise :=
  match p with
  | Unsettled => new
  | _ => p
  end.

(** ** The world outside the program *)

Inductive FileType : Type := RegularFile | Directory | OtherType.

(** A [Dirent] of [readdir(path, {withFileTypes: true})]. *)
Record Dirent : Type := mkDirent {
  d_name : string;
  d_type : FileType
}.

Definition isFile (d : Dirent) : bool :=
  match d_type d with RegularFile => true | _ => false end.
Definition isDirectory (d : Dirent) : bool :=
  match d_type d with Directory => true | _ => false end.

(** The [ChildProcess] handle of a spawned service. *)
Record ChildProcess : Type := mkChild {
  pid : option Z;        (** [undefined] when the spawn failed *)
  kill_result : bool     (** what [kill()] returns *)
}.

(** Events of the HTTPS request of the archive fetcher and of its response
    stream. *)
Inductive RequestEvent : Type :=
| GotResponse (content_length : option string) (mkdir_failure : option NodeError)
    (** the response callback runs; [content_length] is the header, and
        [mkdir_failure] is how creating the destination ends if it is tried *)
| RequestTimeout
| RequestError (e : NodeError)
| ResponseError (e : NodeError) (destroyed : bool)
    (** the response stream fails; [destroyed] tells whether node has marked
        the request destroyed by then, as it does when the socket closes *)
| ResponseData (byteLength : Z)
| ResponseEnd
| PipelineEnded (failure : option NodeError).

Record World : Type := mkWorld {
  cwd : string;                                 (** [process.cwd()] *)
  dirname : string;                             (** [__dirname] *)
  readdir : string -> option (list Dirent);     (** [None]: the call rejects *)
  rm : string -> option NodeError;              (** [None]: removed *)
  answer : string -> string;                    (** the line typed at a prompt *)
  network : list RequestEvent;                  (** what a download meets *)
  spawned : string -> list string -> ChildProcess
}.

(** ** Options and manager *)

(** [DynamoDBOptions]; an absent property is [JSUndefined]. *)
Record DynamoDBOptions : Type := mkOptions {
  cors : JSValue;
  dbPath : JSValue;
  delayTransientStatuses : JSValue;
  inMemory : JSValue;
  port : JSValue;
  sharedDB : JSValue
}.

(** [{}] *)
Definition no_options : DynamoDBOptions :=
  mkOptions JSUndefined JSUndefined JSUndefined JSUndefined JSUndefined
            JSUndefined.

(** The argument of [start]: the options and [install]. *)
Record StartArgs : Type := mkStartArgs {
  options : DynamoDBOptions;
  install_first : JSValue
}.

(** The private fields of a [DynamoDBLocalBuilder]. *)
Record Manager : Type := mkManager {
  path : string;
  verbose : bool;
  dynamodb : option ChildProcess
}.

(** The constructor; the hook it registers for the exit of the host process
    is left out. *)
Definition new_manager (w : World) (p : string) (verbose : bool) : Manager :=
  mkManager (Path.resolve (cwd w) (Path.normalize p)) verbose None.

Definition defaultPath (w : World) : string :=
  Path.join [dirname w; ".."; "dynamodb"].

(** ** src/download-dynamodb.ts: the archive fetcher *)

Definition download_host : string := "s3.us-west-2.amazonaws.com".
Definition download_path : string :=
  "/dynamodb-local/dynamodb_local_latest.tar.gz".

(** Where the response callback stands. *)
Inductive Stage : Type :=
| AwaitingResponse           (** no response yet *)
| Responded                  (** response seen, nothing is being extracted *)
| Streaming (length : string) (written : Z)
    (** the data listeners are attached and the pipeline runs *)
| Finished.                  (** the pipeline ended *)

Record Download : Type := mkDownload {
  dl_promise : Promise;
  dl_destroyed : bool;       (** [req.destroyed], once known to be set *)
  dl_stage : Stage
}.

Definition new_download : Download :=
  mkDownload Unsettled false AwaitingResponse.

(** [if (verbose) process.stdout.write('\n')] *)
Definition newline (verbose : bool) : list Effect :=
  if verbose then [StdoutWrite (String (ascii_of_nat 10) EmptyString)] else [].

(** The [catch (error: any)] block of the response callback. *)
Definition reject_caught (verbose : bool) (error_name error_message : string)
           (d : Download) (stage : Stage) : list Effect * Download :=
  let (es, e) := new_error error_name error_message verbose in
  ((newline verbose ++ es)%list,
   mkDownload (settle (dl_promise d) (RejectedWith (Thrown e)))
              (dl_destroyed d) stage).

(** One event of the request, handled by the listener registered for it, if
    any. *)
Definition on_request_event (destination : string) (verbose : bool)
           (d : Download) (ev : RequestEvent) : list Effect * Download :=
  match ev, dl_stage d with
  | GotResponse content_length mkdir_failure, AwaitingResponse =>
      match content_length with
      | Some (String c rest as length) =>
          match mkdir_failure with
          | None =>
              ([Mkdir destination; Untar destination],
               mkDownload (dl_promise d) (dl_destroyed d) (Streaming length 0))
          | Some e =>
              let (es, d') :=
                reject_caught verbose (node_name e) (node_message e) d
                              Responded in
              (Mkdir destination :: es, d')
          end
      | _ =>
          let (es, e) :=
            new_error "error" "Unable to determine response size" verbose in
          let (es', d') := reject_caught verbose (name e) (message e) d
                                         Responded in
          ((es ++ es')%list, d')
      end
  | RequestTimeout, _ =>
      let (es, e) := new_error "network error" "Request timed out" verbose in
      ((DestroyRequest :: newline verbose ++ es)%list,
       mkDownload (settle (dl_promise d) (RejectedWith (Thrown e))) true
                  (dl_stage d))
  | RequestError err, _ =>
      let (es, e) := new_error (node_name err) (node_message err) verbose in
      ((newline verbose ++ es)%list,
       mkDownload (settle (dl_promise d) (RejectedWith (Thrown e)))
                  (dl_destroyed d) (dl_stage d))
  | ResponseError err destroyed, (Responded | Streaming _ _ | Finished) =>
      if dl_destroyed d || destroyed then
        (newline verbose,
         mkDownload (settle (dl_promise d) (RejectedWith RejectedFalse))
                    true (dl_stage d))
      else
        let (es, e) := new_error "network error" (node_message err) verbose in
        ((newline verbose ++ es)%list,
         mkDownload (settle (dl_promise d) (RejectedWith (Thrown e)))
                    (dl_destroyed d) (dl_stage d))
  | ResponseData byteLength, Streaming length written =>
      if verbose then
        ([StdoutClearLine; StdoutProgress (written + byteLength) length],
         mkDownload (dl_promise d) (dl_destroyed d)
                    (Streaming length (written + byteLength)))
      else ([], d)
  | ResponseEnd, Streaming _ _ =>
      (if verbose then [StdoutClearLine] else [], d)
  | PipelineEnded None, Streaming _ _ =>
      (if verbose then [ConsoleLog (Shell.msg_success "installation complete")]
       else [],
       mkDownload (settle (dl_promise d) Resolved) (dl_destroyed d) Finished)
  | PipelineEnded (Some err), Streaming _ _ =>
      reject_caught verbose (node_name err) (node_message err) d Finished
  | _, _ => ([], d)
  end.

Fixpoint run_download (destination : string) (verbose : bool) (d : Download)
         (events : list RequestEvent) : list Effect * Download :=
  match events with
  | [] => ([], d)
  | ev :: rest =>
      let (es, d') := on_request_event destination verbose d ev in
      let (es', d'') := run_download destination verbose d' rest in
      ((es ++ es')%list, d'')
  end.

Definition promise_result (p : Promise) : Settled unit :=
  match p with
  | Unsettled => Pending
  | Resolved => Fulfilled tt
  | RejectedWith r => Rejected r
  end.

(** [downloadDynamoDB(destination, verbose)] against the events the request
    meets. *)
Definition downloadDynamoDB (events : list RequestEvent)
           (destination : string) (verbose : bool) : M unit :=
  let (es, d) := run_download destination verbose new_download events in
  (HttpsGet download_host download_path :: es, promise_result (dl_promise d)).

(** ** src/dynamodb-local.ts *)

(** [#generateArgs]: the message it throws when [inMemory] meets [dbPath]. *)
Definition conflict_message : string :=
  "When option " ++ Shell.underline "dbPath" ++ " is set, option "
    ++ Shell.underline "inMemory" ++ " cannot be used and must be omitted".

(** The six steps of [#generateArgs], in the order of the source; each takes
    the arguments pushed so far. *)

Definition base_args (m : Manager) : list string :=
  let libpath := Path.join [path m; "DynamoDBLocal_lib"] in
  let jarpath := Path.join [path m; "DynamoDBLocal.jar"] in
  ["-Djava.library.path=" ++ libpath; "-jar"; jarpath].

(** [if (Array.isArray(cors) && cors?.length && cors.every(...))] *)
Definition push_cors (o : DynamoDBOptions) (args : list string)
  : list string :=
  match cors o with
  | JSArray ((_ :: _) as items) =>
      match every_string items with
      | Some origins => (args ++ ["-cors"; String.concat ", " origins])%list
      | None => args
      end
  | _ => args
  end.

(** [if (port !== undefined)] *)
Definition push_port (verbose : bool) (o : DynamoDBOptions)
           (args : list string) : M (list string) :=
  if defined (port o) then
    match String_of_integer (port o) with
    | Some digits => ret (args ++ ["-port"; digits])%list
    | None => throw "config error" "Port must be an Integer" verbose
    end
  else ret args.

(** [if (inMemory)] *)
Definition push_inMemory (verbose : bool) (o : DynamoDBOptions)
           (args : list string) : M (list string) :=
  if truthy (inMemory o) then
    if negb (truthy (dbPath o)) then ret (args ++ ["-inMemory"])%list
    else throw "config error" conflict_message verbose
  else ret args.

(** [if (dbPath && typeof dbPath === 'string')] *)
Definition push_dbPath (w : World) (o : DynamoDBOptions)
           (args : list string) : M (list string) :=
  match dbPath o with
  | JSStr (String _ _ as dir) =>
      if negb (truthy (inMemory o)) then
        let p := Path.resolve (cwd w) (Path.normalize dir) in
        emit (Mkdir p) ;;;
        ret (args ++ ["-dbPath"; p; "-optimizeDbBeforeStartup"])%list
      else ret args
  | _ => ret args
  end.

(** [if (!dbPath && !inMemory)] *)
Definition push_default_dbPath (m : Manager) (o : DynamoDBOptions)
           (args : list string) : M (list string) :=
  if negb (truthy (dbPath o)) && negb (truthy (inMemory o)) then
    let p := Path.join [path m; "DynamoDBLocal_db"] in
    emit (Mkdir p) ;;;
    ret (args ++ ["-dbPath"; p])%list
  else ret args.

(** [if (delayTransientStatuses)] and [if (sharedDB)] *)
Definition push_flags (o : DynamoDBOptions) (args : list string)
  : list string :=
  let args :=
    if truthy (delayTransientStatuses o)
    then (args ++ ["-delayTransientStatuses"])%list else args in
  if truthy (sharedDB o) then (args ++ ["-sharedDb"])%list else args.

Definition generateArgs (w : World) (m : Manager) (o : DynamoDBOptions)
  : M (list string) :=
  args <- push_port (verbose m) o (push_cors o (base_args m)) ;;
  args <- push_inMemory (verbose m) o args ;;
  args <- push_dbPath w o args ;;
  args <- push_default_dbPath m o args ;;
  ret (push_flags o args).

(** What the steps append, named for the statements below. *)
Definition cors_args (o : DynamoDBOptions) : list string := push_cors o [].
Definition port_args (o : DynamoDBOptions) : list string :=
  match String_of_integer (port o) with
  | Some digits => if defined (port o) then ["-port"; digits] else []
  | None => []
  end.
Definition flag_args (o : DynamoDBOptions) : list string := push_flags o [].

(** What the three storage steps append together, and the directories they
    try to create. *)
Definition storage_args (w : World) (m : Manager) (o : DynamoDBOptions)
  : list string :=
  if truthy (inMemory o) then ["-inMemory"]
  else
    match dbPath o with
    | JSStr (String _ _ as dir) =>
        ["-dbPath"; Path.resolve (cwd w) (Path.normalize dir);
         "-optimizeDbBeforeStartup"]
    | v =>
        if truthy v then []
        else ["-dbPath"; Path.join [path m; "DynamoDBLocal_db"]]
    end.

Definition storage_mkdirs (w : World) (m : Manager) (o : DynamoDBOptions)
  : list Effect :=
  if truthy (inMemory o) then []
  else
    match dbPath o with
    | JSStr (String _ _ as dir) =>
        [Mkdir (Path.resolve (cwd w) (Path.normalize dir))]
    | v =>
        if truthy v then []
        else [Mkdir (Path.join [path m; "DynamoDBLocal_db"])]
    end.

(** The two errors of the argument builder. *)
Definition port_error : DynamoDBLocalError :=
  mkError "config error" "Port must be an Integer".
Definition conflict_error : DynamoDBLocalError :=
  mkError "config error" conflict_message.

(** What the constructor of an error prints. *)
Definition error_log (verbose : bool) (e : DynamoDBLocalError) : list Effect :=
  if verbose then [ConsoleLog (Shell.msg_error (name e) (message e))] else [].

(** [stop]: not an [async] function; it returns [undefined] or a rejected
    promise. *)
Inductive StopValue : Type :=
| ReturnsUndefined
| ReturnsRejected (r : Reason).

Definition stop (m : Manager)
  : list Effect * Manager * StopValue :=
  match dynamodb m with
  | Some child =>
      if kill_result child then
        ((Kill (pid child) ::
          if verbose m
          then [ConsoleLog (Shell.msg_info "DynamoDB process terminated")]
          else [])%list,
         mkManager (path m) (verbose m) None,
         ReturnsUndefined)
      else
        let (es, e) :=
          new_error "error"
            "Requested DynamoDB process not killed because it was not running"
            (verbose m) in
        ((Kill (pid child) :: es)%list, m, ReturnsRejected (Thrown e))
  | None =>
      let (es, e) :=
        new_error "error"
          "Requested DynamoDB process not killed because it was not running"
          (verbose m) in
      (es, m, ReturnsRejected (Thrown e))
  end.

(** The listeners [start] attaches to the spawned child, and the timers they
    set. *)
Inductive ChildEvent : Type :=
| ChildError (e : NodeError)     (** ['error'] on the child *)
| ChildExit                      (** ['exit'] on the child *)
| StdoutData (data : string)     (** ['data'] on its standard output *)
| StderrData (data : string)     (** ['data'] on its standard error *)
| TimerFires.                    (** a 2000 ms timer set by the listener *)

Record Watch : Type := mkWatch {
  start_promise : Promise;
  interval : bool;       (** the 200 ms dot printer is running *)
  timers : nat           (** readiness timers not yet fired *)
}.

(** [v === undefined || v === null], what [?.] and [??] test. *)
Definition nullish (v : JSValue) : bool :=
  match v with
  | JSUndefined | JSNull => true
  | _ => false
  end.

(** [Array.isArray(v)] *)
Definition is_array (v : JSValue) : bool :=
  match v with
  | JSArray _ => true
  | _ => false
  end.

(** Where the report of the effective options throws a [TypeError], as the
    number of lines printed before: the third line calls [path_resolve] on a
    [dbPath] that is neither absent nor a string, unless [inMemory] is
    truthy, and the sixth calls [join] on a [cors] that is neither absent nor
    an array.  [None] when the seven lines are printed. *)
Definition summary_stops (o : DynamoDBOptions) : option nat :=
  if negb (truthy (inMemory o)) && negb (nullish (dbPath o))
       && negb (is_string (dbPath o))
  then Some 2%nat
  else if negb (nullish (cors o)) && negb (is_array (cors o))
       then Some 5%nat
       else None.

(** One event of the child, handled by the listeners [start(args)] has
    attached; [o] is [args], or [{}] when [start] got none. *)
Definition on_child_event (verbose : bool) (o : DynamoDBOptions) (s : Watch)
           (ev : ChildEvent) : list Effect * Watch :=
  match ev with
  | ChildError err =>
      let (es1, e1) := new_error (node_name err) (node_message err) verbose in
      let (es2, e2) := new_error (node_name err) (node_message err) verbose in
      ((es1 ++ newline verbose ++ es2)%list,
       mkWatch (settle (settle (start_promise s) (RejectedWith (Thrown e1)))
                       (RejectedWith (Thrown e2)))
               false (timers s))
  | ChildExit =>
      (if verbose then [ConsoleLog (Shell.msg_fail "dynamodb terminated")]
       else [], s)
  | StdoutData data =>
      if str_includes "CorsParams" data
      then ([], mkWatch (start_promise s) (interval s) (S (timers s)))
      else ([], s)
  | StderrData _ => ([], s)
  | TimerFires =>
      match timers s with
      | O => ([], s)
      | S n =>
          if verbose then
            match summary_stops o with
            | Some lines =>
                ([StdoutClearLine;
                  StdoutWrite (Shell.msg_success "dynamodb started"
                                 ++ String (ascii_of_nat 10) EmptyString);
                  ConsoleSummaryLines lines;
                  Uncaught "TypeError"],
                 mkWatch (start_promise s) false n)
            | None =>
                ([StdoutClearLine;
                  StdoutWrite (Shell.msg_success "dynamodb started"
                                 ++ String (ascii_of_nat 10) EmptyString);
                  ConsoleSummary],
                 mkWatch (settle (start_promise s) Resolved) false n)
            end
          else ([], mkWatch (settle (start_promise s) Resolved) false n)
      end
  end.

Fixpoint watch (verbose : bool) (o : DynamoDBOptions) (s : Watch)
         (events : list ChildEvent) : list Effect * Watch :=
  match events with
  | [] => ([], s)
  | ev :: rest =>
      let (es, s') := on_child_event verbose o s ev in
      let (es', s'') := watch verbose o s' rest in
      ((es ++ es')%list, s'')
  end.

Section Installation.

(** The manifest of [src/lib-index], which is not part of the sources at
    hand: the names every installation keeps in [DynamoDBLocal_lib]. *)
Variable libIndex : list string.

(** [#find] *)
Definition find (w : World) (p : string) : bool :=
  let p := Path.resolve (cwd w) (Path.normalize p) in
  match readdir w p with
  | Some files =>
      let jar :=
        existsb (fun file => (d_name file =? "DynamoDBLocal.jar")
                               && isFile file) files in
      let lib :=
        existsb (fun file => (d_name file =? "DynamoDBLocal_lib")
                               && isDirectory file) files in
      if jar && lib then
        match readdir w (Path.join [p; "DynamoDBLocal_lib"]) with
        | Some libFiles =>
            forallb (fun file => includes (map d_name libFiles) file) libIndex
        | None => false
        end
      else false
  | None => false
  end.

(** The entries [uninstall] removes from a custom installation path. *)
Definition uninstall_files (m : Manager) : list string :=
  [ Path.join [path m; "DynamoDBLocal_lib"];
    Path.join [path m; "DynamoDBLocal.jar"];
    Path.join [path m; "LICENSE.txt"];
    Path.join [path m; "README.txt"];
    Path.join [path m; "THIRD-PARTY-LICENSES.txt"] ].

(** The names [uninstall] collects for the removals that were rejected. *)
Definition rejected_names (w : World) (files : list string) : list string :=
  map Path.parse_name
      (filter (fun file => match rm w file with Some _ => true | None => false end)
              files).

(** [uninstall] *)
Definition uninstall (w : World) (m : Manager) : M unit :=
  if negb (find w (path m)) then
    throw "error" ("DynamoDB is not installed at " ++ Shell.underline (path m))
          (verbose m)
  else if path m =? defaultPath w then
    emit (Rm (path m)) ;;;
    match rm w (path m) with
    | None => log_info (verbose m) "DYNAMODB UNINSTALLED"
    | Some error => throw (node_name error) (node_message error) (verbose m)
    end
  else
    let files := uninstall_files m in
    (map Rm files, Fulfilled tt) ;;;
    let rejected := rejected_names w files in
    match rejected with
    | _ :: _ =>
        if includes rejected "DynamoDBLocal_lib"
           || includes rejected "DynamoDBLocal.jar"
        then
          throw "uninstall error"
                ("The following files could not be removed: ["
                   ++ String.concat ", " rejected ++ "]")
                (verbose m)
        else
          log_warning (verbose m)
            ("DynamoDB was successfully uninstalled but the following files were not removed: ["
               ++ String.concat ", " rejected ++ "]")
    | [] => log_info (verbose m) "DYNAMODB UNINSTALLED"
    end.

(** [['yes', 'y', 'ok'].includes(answer.toLowerCase())] *)
Definition accepted (reply : string) : bool :=
  includes ["yes"; "y"; "ok"] (toLowerCase reply).

(** [install] *)
Definition install (w : World) (m : Manager) (update : JSValue) : M unit :=
  let download := downloadDynamoDB (network w) (path m) (verbose m) in
  if find w (path m) then
    if verbose m then
      let question :=
        Shell.msg_warning ("DynamoDB is already installed at: "
                             ++ Shell.underline (path m))
          ++ String (ascii_of_nat 10) EmptyString
          ++ Shell.msg_info "Overwrite current installation? (Y/N): " in
      go_on <-
        finally
          (emit (Question question) ;;;
           if negb (accepted (answer w question)) then
             emit (ConsoleLog (Shell.msg_fail "installation canceled")) ;;;
             ret false
           else ret true)
          [CloseInput] ;;
      if go_on : bool then download else ret tt
    else if negb (truthy update) then ret tt
    else download
  else download.

(** What [start] leaves behind. *)
Inductive StartResult : Type :=
| Ended (result : Settled unit)
    (** nothing was spawned and the promise ended this way *)
| Spawned (m' : Manager) (s : Watch).
    (** the handle is stored and the promise waits for the listeners *)

(** The part of [start] before the spawn; [None] is the early [return]. *)
Definition prepare (w : World) (m : Manager) (args : option StartArgs)
  : M (option (list string)) :=
  go_on <-
    (if negb (find w (path m)) then
       if verbose m then
         log_warning true ("DynamoDB not found at " ++ Shell.underline (path m)) ;;;
         let question :=
           Shell.msg_info "Do you want to download and install now? (Y/N): " in
         finally
           (emit (Question question) ;;;
            if negb (accepted (answer w question)) then ret false
            else install w m JSUndefined ;;; ret true)
           [CloseInput]
       else if match args with
               | Some a => truthy (install_first a)
               | None => false
               end
       then install w m JSUndefined ;;; ret true
       else throw "error" ("DynamoDB not found at " ++ Shell.underline (path m))
                  (verbose m)
     else ret true) ;;
  if go_on : bool then
    args <- generateArgs w m (match args with
                              | Some a => options a
                              | None => no_options
                              end) ;;
    ret (Some args)
  else ret None.

(** [start] *)
Definition start (w : World) (m : Manager) (args : option StartArgs)
  : list Effect * StartResult :=
  match dynamodb m with
  | None =>
      match prepare w m args with
      | (es, Fulfilled (Some args)) =>
          let child := spawned w "java" args in
          ((es ++ (if verbose m
                   then [StdoutWrite (Shell.msg_info "Initializing DynamoDB")]
                   else [])
               ++ [Spawn "java" args])%list,
           Spawned (mkManager (path m) (verbose m) (Some child))
                   (mkWatch Unsettled (verbose m) 0))
      | (es, Fulfilled None) => (es, Ended (Fulfilled tt))
      | (es, Rejected r) => (es, Ended (Rejected r))
      | (es, Pending) => (es, Ended Pending)
      end
  | Some child =>
      let (es, e) :=
        new_error "error"
          ("DynamoDB process is already running with pid: "
             ++ Shell.underline (String_of_pid (pid child)))
          (verbose m) in
      (es, Ended (Rejected (Thrown e)))
  end.

(** The manager once [start] has returned. *)
Definition manager_after (m : Manager) (r : StartResult) : Manager :=
  match r with
  | Spawned m' _ => m'
  | Ended _ => m
  end.

End Installation.

(** ** Statement vocabulary and sample inputs *)

(** The options with [cors] left out. *)
Definition without_cors (o : DynamoDBOptions) : DynamoDBOptions :=
  mkOptions JSUndefined (dbPath o) (delayTransientStatuses o) (inMemory o)
            (port o) (sharedDB o).

(** A [cors] value that is absent, not an array, an empty array, or an array
    with an element that is not a string. *)
Definition cors_ignored (v : JSValue) : Prop :=
  v = JSUndefined
  \/ (forall items, v <> JSArray items)
  \/ v = JSArray []
  \/ (exists items x, v = JSArray items /\ In x items /\ is_string x = false).

(** A header that is absent, or present and empty. *)
Definition no_length (content_length : option string) : bool :=
  match content_length with
  | Some (String _ _) => false
  | _ => true
  end.

Definition response_with_length (ev : RequestEvent) : bool :=
  match ev with
  | GotResponse content_length _ => negb (no_length content_length)
  | _ => false
  end.

(** Effects that touch the destination of a download. *)
Definition extracts (e : Effect) : bool :=
  match e with
  | Mkdir _ | Untar _ => true
  | _ => false
  end.

Definition is_child_error (ev : ChildEvent) : bool :=
  match ev with ChildError _ => true | _ => false end.

Definition spawns_or_kills (e : Effect) : bool :=
  match e with Spawn _ _ | Kill _ => true | _ => false end.

(** A machine where nothing is installed: every listing fails. *)
Definition sample_world : World :=
  mkWorld "/home/user" "/opt/dynamodb-local/lib"
          (fun _ => None) (fun _ => None) (fun _ => "n") []
          (fun _ _ => mkChild (Some 4242%Z) true).

Definition sample_manager : Manager :=
  new_manager sample_world "/srv/ddb" false.

Definition sample_cli_manager : Manager :=
  new_manager sample_world "/srv/ddb" true.

Definition with_port (v : JSValue) : DynamoDBOptions :=
  mkOptions JSUndefined JSUndefined JSUndefined JSUndefined v JSUndefined.

Definition with_cors (v : JSValue) : DynamoDBOptions :=
  mkOptions v JSUndefined JSUndefined JSUndefined JSUndefined JSUndefined.

(** The error of [stop] when nothing runs, and the one of a download whose
    response has no length. *)
Definition stop_error : DynamoDBLocalError :=
  mkError "error"
          "Requested DynamoDB process not killed because it was not running".

Definition size_error : DynamoDBLocalError :=
  mkError "error" "Unable to determine response size".

(** A path segment that [normalize] keeps as it is. *)
Definition plain (seg : string) : Prop :=
  Path.split seg = [seg] /\ Path.ends_with_slash seg = false
  /\ seg <> "" /\ seg <> "." /\ seg <> "..".

(** Whether the removal of [file] is rejected. *)
Definition failed (w : World) (file : string) : bool :=
  match rm w file with Some _ => true | None => false end.

(** The error and the warning of [uninstall] for the names it collected. *)
Definition removal_error (rejected : list string) : DynamoDBLocalError :=
  mkError "uninstall error"
          ("The following files could not be removed: ["
             ++ String.concat ", " rejected ++ "]").

Definition removal_warning (rejected : list string) : string :=
  Shell.msg_warning
    ("DynamoDB was successfully uninstalled but the following files were not removed: ["
       ++ String.concat ", " rejected ++ "]").

(** An installation under [/srv/ddb] whose jar cannot be removed, and a
    manifest of two names for it. *)
Definition sample_libIndex : list string :=
  ["sqlite4java.jar"; "libsqlite4java-linux-amd64.so"].

Definition locked_jar_world : World :=
  mkWorld "/home/user" "/opt/dynamodb-local/lib"
          (fun p =>
             if p =? "/srv/ddb" then
               Some [mkDirent "DynamoDBLocal.jar" RegularFile;
                     mkDirent "DynamoDBLocal_lib" Directory;
                     mkDirent "LICENSE.txt" RegularFile;
                     mkDirent "README.txt" RegularFile;
                     mkDirent "THIRD-PARTY-LICENSES.txt" RegularFile]
             else if p =? "/srv/ddb/DynamoDBLocal_lib" then
               Some [mkDirent "libsqlite4java-linux-amd64.so" RegularFile;
                     mkDirent "sqlite4java.jar" RegularFile;
                     mkDirent "log4j-core.jar" RegularFile]
             else None)
          (fun p =>
             if p =? "/srv/ddb/DynamoDBLocal.jar"
             then Some (mkNodeError "Error" "EBUSY: resource busy or locked")
             else None)
          (fun _ => "n") []
          (fun _ _ => mkChild (Some 4242%Z) true).

(** ** The exported classes *)

(** [new DynamoDBLocalCLI(path)] and [new DynamoDBLocal(path)]: the verbose
    and the silent manager. *)
Definition DynamoDBLocalCLI (w : World) (p : string) : Manager :=
  new_manager w p true.
Definition DynamoDBLocal (w : World) (p : string) : Manager :=
  new_manager w p false.

(** [static readonly #default = new this(defaultPath)], the instance behind
    the static methods of either class. *)
Definition default_instance (w : World) (verbose : bool) : Manager :=
  new_manager w (defaultPath w) verbose.

(** ** Further vocabulary *)

(** Effects on the console and on standard input. *)
Definition prints (e : Effect) : bool :=
  match e with
  | ConsoleLog _ | StdoutWrite _ | StdoutClearLine | StdoutProgress _ _
  | ConsoleSummary | ConsoleSummaryLines _ | Uncaught _
  | Question _ | CloseInput => true
  | _ => false
  end.

Definition silent (es : list Effect) : Prop :=
  forall e, In e es -> prints e = false.

(** Effects on processes and on installed files. *)
Definition is_spawn (e : Effect) : bool :=
  match e with Spawn _ _ => true | _ => false end.
Definition is_rm (e : Effect) : bool :=
  match e with Rm _ => true | _ => false end.
Definition is_request (e : Effect) : bool :=
  match e with HttpsGet _ _ => true | _ => false end.

(** What [prepare] may issue: console and prompt effects, the request and
    the effects of a download, and the [mkdir] of the argument builder. *)
Definition preparation (e : Effect) : bool :=
  match e with
  | Spawn _ _ | Kill _ | Rm _ => false
  | _ => true
  end.

(** The error of [start] on a manager that holds [child]. *)
Definition running_error (child : ChildProcess) : DynamoDBLocalError :=
  mkError "error"
          ("DynamoDB process is already running with pid: "
             ++ Shell.underline (String_of_pid (pid child))).

(** The error of [start] and the one of [uninstall] when nothing is
    installed at the path of the manager. *)
Definition not_found_error (m : Manager) : DynamoDBLocalError :=
  mkError "error" ("DynamoDB not found at " ++ Shell.underline (path m)).
Definition not_installed_error (m : Manager) : DynamoDBLocalError :=
  mkError "error" ("DynamoDB is not installed at " ++ Shell.underline (path m)).

Definition timeout_error : DynamoDBLocalError :=
  mkError "network error" "Request timed out".

(** The listeners right after the spawn. *)
Definition fresh_watch (verbose : bool) : Watch := mkWatch Unsettled verbose 0.

(** Output of the service that carries the readiness marker. *)
Definition ready_data (ev : ChildEvent) : bool :=
  match ev with
  | StdoutData data => str_includes "CorsParams" data
  | _ => false
  end.

Definition is_timer (ev : ChildEvent) : bool :=
  match ev with TimerFires => true | _ => false end.

(** The options [start] hands to the argument builder: [args ?? {}]. *)
Definition options_of (args : option StartArgs) : DynamoDBOptions :=
  match args with
  | Some a => options a
  | None => no_options
  end.

(** A segment that [normalize] leaves in an absolute path: not empty, not
    [.] or [..], and without a slash. *)
Definition clean (seg : string) : Prop :=
  Path.split seg = [seg] /\ seg <> "" /\ seg <> "." /\ seg <> "..".

(** An absolute path in normal form: a slash, then clean segments separated
    by slashes. *)
Definition canonical (p : string) : Prop :=
  exists segs, Forall clean segs /\ p = "/" ++ String.concat "/" segs.

(** The bytes a response stream has delivered. *)
Fixpoint received (events : list RequestEvent) : Z :=
  match events with
  | [] => 0
  | ResponseData n :: rest => n + received rest
  | _ :: rest => received rest
  end.

Definition is_data (ev : RequestEvent) : bool :=
  match ev with ResponseData _ => true | _ => false end.

(** A machine with a complete installation at the default path, whose
    removal fails. *)
Definition default_installed_world : World :=
  mkWorld "/home/user" "/opt/dynamodb-local/lib"
          (fun p =>
             if p =? "/opt/dynamodb-local/dynamodb" then
               Some [mkDirent "DynamoDBLocal_lib" Directory;
                     mkDirent "DynamoDBLocal.jar" RegularFile]
             else if p =? "/opt/dynamodb-local/dynamodb/DynamoDBLocal_lib" then
               Some [mkDirent "sqlite4java.jar" RegularFile;
                     mkDirent "libsqlite4java-linux-amd64.so" RegularFile]
             else None)
          (fun _ => Some (mkNodeError "Error" "EACCES: permission denied"))
          (fun _ => "Yes")
          [GotResponse (Some "1024") None; ResponseData 1024; ResponseEnd;
           PipelineEnded None]
          (fun _ _ => mkChild (Some 4242%Z) true).

(** An installation directory that lacks the jar. *)
Definition jarless_world : World :=
  mkWorld "/home/user" "/opt/dynamodb-local/lib"
          (fun p =>
             if p =? "/srv/ddb" then
               Some [mkDirent "DynamoDBLocal_lib" Directory;
                     mkDirent "DynamoDBLocal.jar" Directory;
                     mkDirent "LICENSE.txt" RegularFile]
             else None)
          (fun _ => None) (fun _ => "n") []
          (fun _ _ => mkChild (Some 4242%Z) true).

(** A response with a length whose destination could be created, and the
    end of a pipeline without failure. *)
Definition good_response (ev : RequestEvent) : bool :=
  match ev with
  | GotResponse (Some (String _ _)) None => true
  | _ => false
  end.

Definition pipeline_done (ev : RequestEvent) : bool :=
  match ev with PipelineEnded None => true | _ => false end.

Definition streaming (d : Download) : bool :=
  match dl_stage d with Streaming _ _ => true | _ => false end.

Definition is_untar (e : Effect) : bool :=
  match e with Untar _ => true | _ => false end.

(** Every effect of a computation satisfies [P]. *)
Definition all_effects (P : Effect -> bool) {A} (m : M A) : Prop :=
  forall e, In e (fst m) -> P e = true.

(** The two questions of the verbose variant, and what [start] writes
    before it spawns. *)
Definition overwrite_question (m : Manager) : string :=
  Shell.msg_warning ("DynamoDB is already installed at: "
                       ++ Shell.underline (path m))
    ++ String (ascii_of_nat 10) EmptyString
    ++ Shell.msg_info "Overwrite current installation? (Y/N): ".

Definition install_question : string :=
  Shell.msg_info "Do you want to download and install now? (Y/N): ".

Definition announce (verbose : bool) : list Effect :=
  if verbose then [StdoutWrite (Shell.msg_info "Initializing DynamoDB")]
  else [].

Definition quiet (e : Effect) : bool := negb (prints e).

(** The options with [dbPath] left out. *)
Definition without_dbPath (o : DynamoDBOptions) : DynamoDBOptions :=
  mkOptions (cors o) JSUndefined (delayTransientStatuses o) (inMemory o)
            (port o) (sharedDB o).

(** A port the argument builder lets pass: absent, or an integer. *)
Definition port_passes (o : DynamoDBOptions) : bool :=
  negb (defined (port o)) || Number_isInteger (port o).

(** The totals after each chunk of a stream that starts at [from]. *)
Fixpoint running_totals (from : Z) (chunks : list Z) : list Z :=
  match chunks with
  | [] => []
  | n :: rest => (from + n)%Z :: running_totals (from + n) rest
  end.

Definition progress_lines (length : string) (totals : list Z) : list Effect :=
  flat_map (fun total => [StdoutClearLine; StdoutProgress total length]) totals.

(** * Properties *)

(** ** Values and paths *)

Lemma String_of_integer_isInteger (v : JSValue) :
  Number_isInteger v = true <-> exists digits, String_of_integer v = Some digits.
Proof.
  destruct v as [| | b | n | s | items |]; simpl;
    try (split; [discriminate | intros [d H]; discriminate]).
  destruct n as [z | neg u e | | |]; simpl;
    try (split; [discriminate | intros [d H]; discriminate]).
  - destruct (String_of_Z z) as [digits |].
    + split; intros; [eexists |]; reflexivity.
    + split; [discriminate | intros [d H]; discriminate].
  - split; intros; [eexists |]; reflexivity.
Qed.

Lemma String_of_integer_None (v : JSValue) :
  String_of_integer v = None <-> Number_isInteger v = false.
Proof.
  destruct v as [| | b | n | s | items |]; simpl; try tauto.
  destruct n as [z | neg u e | | |]; simpl;
    try (split; intros H; try reflexivity; discriminate).
  destruct (String_of_Z z); split; intros H; try reflexivity; discriminate.
Qed.

(** Up to 2^53 in magnitude an integer is printed digit for digit. *)
Lemma String_of_Z_safe (z : Z) :
  (Z.abs z <= 2 ^ 53)%Z -> String_of_Z z = Some (decimal z).
Proof.
  intros Hz. unfold String_of_Z.
  apply Z.leb_le in Hz. rewrite Hz. reflexivity.
Qed.

(** The digits of an integer are no command-line flag: they start with a
    digit, or with a minus sign and a digit. *)
Lemma NilZero_uint_head (u : Decimal.uint) :
  exists c rest, NilZero.string_of_uint u = String c rest /\ c <> "-"%char
                 /\ c <> "/"%char.
Proof.
  destruct u; simpl; eexists; eexists; (split; [reflexivity |]);
    split; discriminate.
Qed.

Lemma unsigned_head (a : Z) :
  exists c rest, unsigned a = String c rest
                 /\ (nat_of_ascii c <=? 57)%nat = true /\ c <> "-"%char.
Proof.
  unfold unsigned.
  destruct (N.to_uint (Z.to_N a)); simpl; eexists; eexists;
    (split; [reflexivity |]); split; (reflexivity || discriminate).
Qed.

Lemma dotted_head (c : ascii) (rest : string) :
  exists rest', dotted (String c rest) = String c rest'.
Proof.
  destruct rest; simpl; eexists; reflexivity.
Qed.

Lemma render_head (negative : bool) (sn : Z * Z) :
  exists c rest,
    render negative sn = (if negative then "-" else "") ++ String c rest
    /\ (nat_of_ascii c <=? 57)%nat = true /\ c <> "-"%char.
Proof.
  destruct sn as [s n]. unfold render.
  destruct (unsigned_head s) as (c & rest & -> & Hc & Hm).
  destruct (n <=? 21)%Z.
  - exists c. eexists. split; [| split; assumption]. reflexivity.
  - destruct (dotted_head c rest) as [rest' ->].
    exists c. eexists. split; [| split; assumption]. reflexivity.
Qed.

Lemma decimal_not_flag (z : Z) (c : ascii) (rest : string) :
  (nat_of_ascii c >= 65)%nat -> decimal z <> String "-" (String c rest).
Proof.
  intros Hc. unfold decimal.
  destruct (Z.to_int z) as [u | u]; simpl.
  - destruct (NilZero_uint_head u) as (c' & r & -> & Hd & _).
    intros [= E _]. congruence.
  - destruct u; simpl; intros [= E _]; subst c;
      apply Nat.leb_le in Hc; discriminate.
Qed.

Lemma String_of_Z_not_flag (z : Z) (digits : string)
      (c : ascii) (rest : string) :
  String_of_Z z = Some digits ->
  (nat_of_ascii c >= 65)%nat -> digits <> String "-" (String c rest).
Proof.
  unfold String_of_Z. intros H Hc.
  destruct (Z.abs z <=? 2 ^ 53)%Z.
  - injection H as <-. apply decimal_not_flag. exact Hc.
  - destruct (nearest_double (Z.abs z)) as [[m e] |]; [| discriminate].
    injection H as <-.
    destruct (render_head (z <? 0)%Z (digits_of_double m e))
      as (c' & rest' & -> & Hdigit & Hminus).
    destruct (z <? 0)%Z; simpl.
    + intros [= E _]. subst c'.
      apply Nat.leb_le in Hdigit. lia.
    + intros [= E _]. congruence.
Qed.

Lemma String_of_integer_not_flag (v : JSValue) (digits : string)
      (c : ascii) (rest : string) :
  String_of_integer v = Some digits ->
  (nat_of_ascii c >= 97)%nat -> (nat_of_ascii c <> 101)%nat ->
  digits <> String "-" (String c rest).
Proof.
  intros H Hc He.
  destruct v as [| | b | n | s | items |]; try discriminate.
  destruct n as [z | neg u e | | |]; try discriminate; simpl in H.
  - eapply String_of_Z_not_flag; [exact H | lia].
  - injection H as <-. destruct neg; simpl.
    + destruct u; simpl;
        try (match goal with
             | |- context [NilEmpty.string_of_uint ?x] =>
                 destruct (NilEmpty.string_of_uint x)
             end; simpl; intros [= E _]; subst c; apply Nat.leb_le in Hc; discriminate).
      intros [= E _]. subst c. apply He. reflexivity.
    + destruct u; simpl;
        try (match goal with
             | |- context [NilEmpty.string_of_uint ?x] =>
                 destruct (NilEmpty.string_of_uint x)
             end; simpl; discriminate).
      discriminate.
Qed.

Lemma absolute_head (p : string) :
  Path.isAbsolute p = true <-> exists rest, p = String "/" rest.
Proof.
  split.
  - destruct p as [| c rest]; [discriminate |].
    unfold Path.isAbsolute.
    destruct c as [[] [] [] [] [] [] [] []]; try discriminate.
    intros _. eexists. reflexivity.
  - intros [rest ->]. reflexivity.
Qed.

Lemma normalize_absolute (p : string) :
  Path.isAbsolute p = true -> Path.isAbsolute (Path.normalize p) = true.
Proof.
  intros H. apply absolute_head in H as [rest ->].
  unfold Path.normalize. simpl.
  destruct (Path.normalizeString _ _ =? ""); [reflexivity |].
  destruct (Path.ends_with_slash _); reflexivity.
Qed.

Lemma join_absolute (dir entry : string) :
  Path.isAbsolute dir = true ->
  Path.isAbsolute (Path.join [dir; entry]) = true.
Proof.
  intros H. apply absolute_head in H as [rest ->].
  unfold Path.join. simpl.
  destruct (negb (entry =? "")); apply normalize_absolute; reflexivity.
Qed.

Lemma resolve_absolute (cwd p : string) :
  Path.isAbsolute cwd = true -> Path.isAbsolute (Path.resolve cwd p) = true.
Proof.
  intros H. unfold Path.resolve. rewrite H, orb_true_r. reflexivity.
Qed.

(** ** The argument builder, step by step *)

Lemma push_cors_app (o : DynamoDBOptions) (args : list string) :
  push_cors o args = (args ++ cors_args o)%list.
Proof.
  unfold cors_args, push_cors.
  destruct (cors o) as [| | b | n | s | [| item items] |];
    try (symmetry; apply app_nil_r).
  destruct (every_string (item :: items));
    [reflexivity | symmetry; apply app_nil_r].
Qed.

Lemma push_flags_app (o : DynamoDBOptions) (args : list string) :
  push_flags o args = (args ++ flag_args o)%list.
Proof.
  unfold flag_args, push_flags.
  destruct (truthy (delayTransientStatuses o)), (truthy (sharedDB o)); simpl;
    rewrite <- ?app_assoc, ?app_nil_r; reflexivity.
Qed.

Ltac args_done :=
  simpl; rewrite ?push_flags_app; rewrite <- ?app_assoc; simpl; reflexivity.

(** The whole of [#generateArgs]: the port check comes first, the
    [inMemory]/[dbPath] conflict second, and directories are created only
    once both have passed. *)
Lemma generateArgs_cases (w : World) (m : Manager) (o : DynamoDBOptions) :
  generateArgs w m o =
  if defined (port o) && negb (Number_isInteger (port o)) then
    (error_log (verbose m) port_error, Rejected (Thrown port_error))
  else if truthy (inMemory o) && truthy (dbPath o) then
    (error_log (verbose m) conflict_error, Rejected (Thrown conflict_error))
  else
    (storage_mkdirs w m o,
     Fulfilled (base_args m ++ cors_args o ++ port_args o
                  ++ storage_args w m o ++ flag_args o)%list).
Proof.
  unfold generateArgs, push_port, push_inMemory, push_dbPath,
    push_default_dbPath, port_args, storage_args, storage_mkdirs.
  rewrite push_cors_app.
  generalize (base_args m) (cors_args o). intros base origins.
  destruct (defined (port o)) eqn:Hdef; simpl.
  - destruct (String_of_integer (port o)) as [digits |] eqn:Hint.
    + assert (Number_isInteger (port o) = true) as ->
          by (apply String_of_integer_isInteger; eauto).
      simpl.
      destruct (truthy (inMemory o)) eqn:Hmem;
        destruct (dbPath o) as [| | [] | [z | | | |] | [| c s] | items |];
        simpl; try destruct (z =? 0)%Z; args_done.
    + apply String_of_integer_None in Hint. rewrite Hint. reflexivity.
  - destruct (String_of_integer (port o)) as [digits |];
      destruct (truthy (inMemory o)) eqn:Hmem;
      destruct (dbPath o) as [| | [] | [z | | | |] | [| c s] | items |];
      simpl; try destruct (z =? 0)%Z; args_done.
Qed.

(** C1. With [inMemory] true and [dbPath] a non-empty string, [#generateArgs]
    is rejected with a config error (the conflict error, or the port error
    when the port is not an integer), the only effect is the console line of
    the error in verbose mode, so no directory is created, and no argument
    list comes back. *)
Theorem generateArgs_rejects_inMemory_with_dbPath
        (w : World) (m : Manager) (o : DynamoDBOptions) (dir : string) :
  inMemory o = JSBool true ->
  dbPath o = JSStr dir ->
  dir <> "" ->
  exists e,
    generateArgs w m o = (error_log (verbose m) e, Rejected (Thrown e))
    /\ name e = "config error"
    /\ e = (if defined (port o) && negb (Number_isInteger (port o))
            then port_error else conflict_error)
    /\ (forall p, ~ In (Mkdir p) (fst (generateArgs w m o)))
    /\ (forall args, snd (generateArgs w m o) <> Fulfilled args).
Proof.
  intros Hmem Hdb Hdir.
  assert (Hconflict : truthy (inMemory o) && truthy (dbPath o) = true).
  { rewrite Hmem, Hdb. simpl. destruct dir; [contradiction | reflexivity]. }
  rewrite generateArgs_cases, Hconflict.
  exists (if defined (port o) && negb (Number_isInteger (port o))
          then port_error else conflict_error).
  destruct (defined (port o) && negb (Number_isInteger (port o)));
    (split; [reflexivity |]); (split; [reflexivity |]);
    (split; [reflexivity |]); split;
    try (intros args; simpl; discriminate);
    intros p Hin; simpl in Hin;
    destruct (verbose m); simpl in Hin; intuition discriminate.
Qed.

Lemma generateArgs_rejects_inMemory_with_dbPath_witness :
  exists e,
    generateArgs sample_world sample_manager
      (mkOptions JSUndefined (JSStr "/tmp/x") JSUndefined (JSBool true)
                 (JSNum (NInt 3000)) JSUndefined)
    = ([], Rejected (Thrown e))
    /\ e = conflict_error.
Proof.
  destruct (generateArgs_rejects_inMemory_with_dbPath
              sample_world sample_manager
              (mkOptions JSUndefined (JSStr "/tmp/x") JSUndefined (JSBool true)
                         (JSNum (NInt 3000)) JSUndefined)
              "/tmp/x" eq_refl eq_refl)
    as (e & Hrun & _ & He & _).
  - discriminate.
  - exists e. split; [exact Hrun | exact He].
Defined.

Lemma conflict_is_not_port_error : conflict_error <> port_error.
Proof. discriminate. Qed.

(** C3, as the code has it.  A port that is present is accepted exactly when
    [Number.isInteger] holds of it, zero and negative integers included: the
    builder then is never rejected with the port error, it pushes [-port] and
    [String(port)] right after the CORS arguments, and it returns its list
    unless [inMemory] and [dbPath] conflict.  [String(port)] is the integer
    digit for digit as long as its magnitude is at most 2^53.  Every other
    present value, a fraction or a value that is not a number, is rejected
    with the config error "Port must be an Integer" and is not coerced. *)
Theorem generateArgs_port_integer
        (w : World) (m : Manager) (o : DynamoDBOptions) :
  port o <> JSUndefined ->
  (Number_isInteger (port o) = false ->
     generateArgs w m o
     = (error_log (verbose m) port_error, Rejected (Thrown port_error)))
  /\ (Number_isInteger (port o) = true ->
        (exists digits,
            String_of_integer (port o) = Some digits
            /\ port_args o = ["-port"; digits])
        /\ snd (generateArgs w m o) <> Rejected (Thrown port_error)
        /\ (forall args,
               snd (generateArgs w m o) = Fulfilled args ->
               args = (base_args m ++ cors_args o ++ port_args o
                         ++ storage_args w m o ++ flag_args o)%list)
        /\ (truthy (inMemory o) && truthy (dbPath o) = false ->
            exists args, snd (generateArgs w m o) = Fulfilled args))
  /\ (forall z,
         port o = JSNum (NInt z) -> (Z.abs z <= 2 ^ 53)%Z ->
         port_args o = ["-port"; decimal z]).
Proof.
  intros Hpresent.
  assert (Hdef : defined (port o) = true)
    by (destruct (port o); [contradiction | reflexivity ..]).
  rewrite generateArgs_cases, Hdef. simpl.
  split; [| split].
  - intros ->. reflexivity.
  - intros Hint. rewrite Hint. simpl.
    split; [| split; [| split]].
    + apply String_of_integer_isInteger in Hint as [digits Hd].
      exists digits. unfold port_args. rewrite Hd, Hdef. auto.
    + destruct (truthy (inMemory o) && truthy (dbPath o)); simpl;
        [| discriminate].
      intros E. apply conflict_is_not_port_error. congruence.
    + destruct (truthy (inMemory o) && truthy (dbPath o)); simpl;
        [discriminate |].
      intros args [= <-]. reflexivity.
    + intros ->. eexists. reflexivity.
  - intros z Hz Hsafe. unfold port_args. rewrite Hz. simpl.
    rewrite (String_of_Z_safe z Hsafe). reflexivity.
Qed.

Lemma generateArgs_port_integer_witness :
  snd (generateArgs sample_world sample_manager (with_port (JSNum (NInt 3000))))
  = Fulfilled ["-Djava.library.path=/srv/ddb/DynamoDBLocal_lib"; "-jar";
               "/srv/ddb/DynamoDBLocal.jar"; "-port"; "3000";
               "-dbPath"; "/srv/ddb/DynamoDBLocal_db"].
Proof.
  assert (Hpresent : port (with_port (JSNum (NInt 3000))) <> JSUndefined)
    by discriminate.
  destruct (generateArgs_port_integer sample_world sample_manager
              (with_port (JSNum (NInt 3000))) Hpresent)
    as (_ & Hint & _).
  destruct (Hint eq_refl) as (_ & _ & Hshape & Hbuilt).
  destruct (Hbuilt eq_refl) as [args Hargs].
  rewrite Hargs. f_equal. rewrite (Hshape args Hargs). reflexivity.
Defined.

(** C3 as stated fails: the ports 0 and -1 are not positive, yet the builder
    accepts them and passes them on. *)
Lemma generateArgs_port_counterexample :
  (0 <=? 0)%Z = true /\ (-1 <=? 0)%Z = true
  /\ generateArgs sample_world sample_manager (with_port (JSNum (NInt 0)))
     = ([Mkdir "/srv/ddb/DynamoDBLocal_db"],
        Fulfilled ["-Djava.library.path=/srv/ddb/DynamoDBLocal_lib"; "-jar";
                   "/srv/ddb/DynamoDBLocal.jar"; "-port"; "0";
                   "-dbPath"; "/srv/ddb/DynamoDBLocal_db"])
  /\ generateArgs sample_world sample_manager (with_port (JSNum (NInt (-1))))
     = ([Mkdir "/srv/ddb/DynamoDBLocal_db"],
        Fulfilled ["-Djava.library.path=/srv/ddb/DynamoDBLocal_lib"; "-jar";
                   "/srv/ddb/DynamoDBLocal.jar"; "-port"; "-1";
                   "-dbPath"; "/srv/ddb/DynamoDBLocal_db"]).
Proof. repeat split; reflexivity. Qed.

(** Beyond 2^53 [String(port)] is no longer the integer that was written:
    2^64 is passed on with its last digits zeroed, 10^21 in exponent
    notation, and an integer that rounds to Infinity is rejected. *)
Lemma port_beyond_safe_integers :
  port_args (with_port (JSNum (NInt (2 ^ 64))))
  = ["-port"; "18446744073709552000"]
  /\ port_args (with_port (JSNum (NInt (10 ^ 21)))) = ["-port"; "1e+21"]
  /\ port_args (with_port (JSNum (NInt (- (2 ^ 70)))))
     = ["-port"; "-1.1805916207174113e+21"]
  /\ Number_isInteger (JSNum (NInt (2 ^ 1024))) = false.
Proof. repeat split; vm_compute; reflexivity. Qed.

(** ** Where an argument of the built list can come from *)

Lemma cors_args_shape (o : DynamoDBOptions) :
  cors_args o = []
  \/ exists item items origins,
       cors o = JSArray (item :: items)
       /\ every_string (item :: items) = Some origins
       /\ cors_args o = ["-cors"; String.concat ", " origins].
Proof.
  unfold cors_args, push_cors.
  destruct (cors o) as [| | b | n | s | [| item items] |]; auto.
  destruct (every_string (item :: items)) as [origins |] eqn:E; auto.
  right. exists item, items, origins. auto.
Qed.

Lemma base_args_flags (m : Manager) (x : string) (c : ascii) (rest : string) :
  Path.isAbsolute (path m) = true ->
  In x (base_args m) ->
  x = String "-" (String c rest) ->
  (97 <=? nat_of_ascii c)%nat = true ->
  x = "-jar".
Proof.
  intros Habs Hin Hx Hc. unfold base_args in Hin.
  destruct Hin as [H | [H | [H | []]]].
  - rewrite Hx in H. simpl in H. injection H as <- _. discriminate.
  - auto.
  - apply (join_absolute _ "DynamoDBLocal.jar") in Habs.
    rewrite H, Hx in Habs. discriminate.
Qed.

Lemma port_args_flags (o : DynamoDBOptions) (x : string) (c : ascii)
      (rest : string) :
  In x (port_args o) ->
  x = String "-" (String c rest) ->
  (97 <=? nat_of_ascii c)%nat = true ->
  nat_of_ascii c <> 101%nat ->
  x = "-port".
Proof.
  unfold port_args. intros Hin Hx Hc He.
  destruct (String_of_integer (port o)) as [digits |] eqn:Hd; [| contradiction].
  destruct (defined (port o)); [| contradiction].
  destruct Hin as [H | [H | []]]; auto.
  exfalso. rewrite Hx in H.
  apply Nat.leb_le in Hc.
  eapply String_of_integer_not_flag; eauto.
Qed.

Lemma flag_args_flags (o : DynamoDBOptions) (x : string) :
  In x (flag_args o) -> x = "-delayTransientStatuses" \/ x = "-sharedDb".
Proof.
  unfold flag_args, push_flags.
  destruct (truthy (delayTransientStatuses o)), (truthy (sharedDB o)); simpl;
    intuition.
Qed.

Lemma storage_args_flags (w : World) (m : Manager) (o : DynamoDBOptions)
      (x rest : string) :
  Path.isAbsolute (cwd w) = true ->
  Path.isAbsolute (path m) = true ->
  In x (storage_args w m o) ->
  x = String "-" rest ->
  x = "-inMemory" \/ x = "-dbPath" \/ x = "-optimizeDbBeforeStartup".
Proof.
  intros Hcwd Hpath Hin Hx. unfold storage_args in Hin.
  destruct (truthy (inMemory o)).
  - destruct Hin as [H | []]; auto.
  - assert (Hdefault :
      In x ["-dbPath"; Path.join [path m; "DynamoDBLocal_db"]] ->
      x = "-inMemory" \/ x = "-dbPath" \/ x = "-optimizeDbBeforeStartup").
    { intros [H | [H | []]]; auto.
      apply (join_absolute _ "DynamoDBLocal_db") in Hpath.
      rewrite H, Hx in Hpath. discriminate. }
    destruct (dbPath o) as [| | [] | [z | | | |] | [| ch s] | items |];
      simpl in Hin; try destruct (z =? 0)%Z; simpl in Hin;
      try contradiction; auto.
    destruct Hin as [H | [H | [H | []]]]; auto.
    exfalso.
    pose proof (resolve_absolute (cwd w) (Path.normalize (String ch s)) Hcwd)
      as Habs.
    rewrite H, Hx in Habs. discriminate.
Qed.

Lemma every_string_None (items : list JSValue) (x : JSValue) :
  In x items -> is_string x = false -> every_string items = None.
Proof.
  induction items as [| y items IH]; intros Hin Hx; [contradiction |].
  destruct Hin as [-> | Hin].
  - destruct x; try reflexivity. discriminate.
  - simpl. destruct y; try reflexivity.
    rewrite (IH Hin Hx). reflexivity.
Qed.

Lemma cors_ignored_args (o : DynamoDBOptions) :
  cors_ignored (cors o) -> cors_args o = [].
Proof.
  unfold cors_args, push_cors.
  intros [H | [H | [H | (items & x & H & Hin & Hx)]]].
  - rewrite H. reflexivity.
  - destruct (cors o) as [| | b | n | s | items |]; try reflexivity.
    exfalso. apply (H items). reflexivity.
  - rewrite H. reflexivity.
  - rewrite H. destruct items as [| y items]; [reflexivity |].
    rewrite (every_string_None _ _ Hin Hx). reflexivity.
Qed.

(** The converse: the CORS step pushes nothing only for such values. *)
Lemma cors_args_ignored (o : DynamoDBOptions) :
  cors_args o = [] -> cors_ignored (cors o).
Proof.
  unfold cors_args, push_cors, cors_ignored.
  destruct (cors o) as [| | b | n | s | [| y items] |]; auto;
    try (intros _; right; left; intros items; discriminate).
  destruct (every_string (y :: items)) as [origins |] eqn:E; [discriminate |].
  intros _. right. right. right.
  exists (y :: items).
  revert E. generalize (y :: items) as l. clear.
  induction l as [| v l IH]; [discriminate |].
  simpl. destruct v;
    try (intros _; eexists; split; [reflexivity |];
         split; [left; reflexivity | reflexivity]).
  destruct (every_string l) eqn:E; [discriminate |].
  intros _. destruct (IH eq_refl) as (x & _ & Hin & Hx).
  exists x. split; [reflexivity |]. split; [right; exact Hin | exact Hx].
Qed.

(** C4, as the code has it.  With [inMemory] unset the builder returns a list
    exactly when the port is absent or an integer.  If [dbPath] is a non-empty
    string, the list is the base, CORS and port arguments, then [-dbPath], the
    resolved and normalized directory and [-optimizeDbBeforeStartup], then the
    two optional flags, and one recursive [mkdir] is issued for that
    directory.  If [dbPath] is unset too, [-dbPath] is followed by
    [DynamoDBLocal_db] under the installation path, one recursive [mkdir] is
    issued for it, and the builder pushes no [-optimizeDbBeforeStartup]: that
    string is in the list only when it is the value the caller gave for
    [-cors]. *)
Theorem generateArgs_dbPath_arguments
        (w : World) (m : Manager) (o : DynamoDBOptions) :
  inMemory o = JSUndefined ->
  (defined (port o) = false \/ Number_isInteger (port o) = true
   <-> exists args, snd (generateArgs w m o) = Fulfilled args)
  /\ (forall args,
         snd (generateArgs w m o) = Fulfilled args ->
         (forall dir,
             dbPath o = JSStr dir -> dir <> "" ->
             let p := Path.resolve (cwd w) (Path.normalize dir) in
             args = (base_args m ++ cors_args o ++ port_args o
                       ++ ["-dbPath"; p; "-optimizeDbBeforeStartup"]
                       ++ flag_args o)%list
             /\ fst (generateArgs w m o) = [Mkdir p])
         /\ (dbPath o = JSUndefined ->
             let p := Path.join [path m; "DynamoDBLocal_db"] in
             args = (base_args m ++ cors_args o ++ port_args o
                       ++ ["-dbPath"; p] ++ flag_args o)%list
             /\ fst (generateArgs w m o) = [Mkdir p]
             /\ (Path.isAbsolute (path m) = true ->
                 In "-optimizeDbBeforeStartup" args ->
                 cors_args o = ["-cors"; "-optimizeDbBeforeStartup"]))).
Proof.
  intros Hmem.
  rewrite generateArgs_cases.
  unfold storage_args, storage_mkdirs. rewrite Hmem.
  generalize (base_args_flags m). generalize (base_args m).
  intros base Hbase. simpl.
  destruct (defined (port o)) eqn:Hdef;
    destruct (Number_isInteger (port o)) eqn:Hint; simpl.
  2: { split.
       - split; [intros [H | H]; discriminate | intros [args H]; discriminate].
       - intros args H. discriminate. }
  all: split; [split; [intros _; eexists; reflexivity | auto] |].
  all: intros args [= <-]; split.
  all: try (intros dir Hdb Hdir; rewrite Hdb;
            destruct dir; [contradiction |]; simpl; auto).
  all: intros Hdb; rewrite Hdb; simpl;
    (split; [reflexivity |]); (split; [reflexivity |]);
    intros Habs Hin.
  all: apply in_app_or in Hin as [Hin | Hin];
    [ apply (Hbase _ "o"%char "ptimizeDbBeforeStartup" Habs) in Hin;
      [discriminate | reflexivity | reflexivity] |].
  all: apply in_app_or in Hin as [Hin | Hin].
  all: try (destruct (cors_args_shape o) as [E | (i & l & origins & _ & _ & E)];
            rewrite E in Hin;
            [ contradiction
            | destruct Hin as [H | [H | []]];
              [discriminate | rewrite E, H; reflexivity] ]).
  all: apply in_app_or in Hin as [Hin | Hin];
    [ apply (port_args_flags o _ "o" "ptimizeDbBeforeStartup") in Hin;
      [discriminate | reflexivity | reflexivity | discriminate] |].
  all: destruct Hin as [H | [H | Hin]]; [discriminate | |].
  all: try (apply (join_absolute _ "DynamoDBLocal_db") in Habs;
            rewrite H in Habs; discriminate).
  all: apply flag_args_flags in Hin as [H | H]; discriminate.
Qed.

Lemma generateArgs_dbPath_arguments_witness :
  generateArgs sample_world sample_manager
    (mkOptions JSUndefined (JSStr "/tmp/x") JSUndefined JSUndefined
               JSUndefined JSUndefined)
  = ([Mkdir "/tmp/x"],
     Fulfilled ["-Djava.library.path=/srv/ddb/DynamoDBLocal_lib"; "-jar";
                "/srv/ddb/DynamoDBLocal.jar";
                "-dbPath"; "/tmp/x"; "-optimizeDbBeforeStartup"]).
Proof.
  destruct (generateArgs_dbPath_arguments sample_world sample_manager
              (mkOptions JSUndefined (JSStr "/tmp/x") JSUndefined JSUndefined
                         JSUndefined JSUndefined) eq_refl)
    as [[Hbuilt _] Hshape].
  destruct (Hbuilt (or_introl eq_refl)) as [args Hargs].
  destruct (Hshape args Hargs) as [Hdir _].
  assert (Hne : "/tmp/x" <> "") by discriminate.
  destruct (Hdir "/tmp/x" eq_refl Hne) as [Hlist Hmkdir].
  rewrite (surjective_pairing (generateArgs _ _ _)), Hmkdir, Hargs, Hlist.
  reflexivity.
Defined.

(** C4 as stated fails in its last part: with [inMemory] and [dbPath] unset
    the list does contain [-optimizeDbBeforeStartup] when that is the CORS
    origin the caller passed. *)
Lemma generateArgs_dbPath_counterexample :
  inMemory (with_cors (JSArray [JSStr "-optimizeDbBeforeStartup"]))
  = JSUndefined
  /\ dbPath (with_cors (JSArray [JSStr "-optimizeDbBeforeStartup"]))
     = JSUndefined
  /\ snd (generateArgs sample_world sample_manager
            (with_cors (JSArray [JSStr "-optimizeDbBeforeStartup"])))
     = Fulfilled ["-Djava.library.path=/srv/ddb/DynamoDBLocal_lib"; "-jar";
                  "/srv/ddb/DynamoDBLocal.jar";
                  "-cors"; "-optimizeDbBeforeStartup";
                  "-dbPath"; "/srv/ddb/DynamoDBLocal_db"]
  /\ In "-optimizeDbBeforeStartup"
        ["-Djava.library.path=/srv/ddb/DynamoDBLocal_lib"; "-jar";
         "/srv/ddb/DynamoDBLocal.jar";
         "-cors"; "-optimizeDbBeforeStartup";
         "-dbPath"; "/srv/ddb/DynamoDBLocal_db"].
Proof.
  repeat split; try reflexivity. simpl. tauto.
Qed.

Lemma generateArgs_without_cors (w : World) (m : Manager)
      (o : DynamoDBOptions) :
  cors_args o = [] -> generateArgs w m o = generateArgs w m (without_cors o).
Proof.
  intros E. rewrite !generateArgs_cases, E. reflexivity.
Qed.

(** C10, as the code has it.  A [cors] value that is absent, not an array,
    empty, or holding an element that is not a string is ignored: the builder
    does exactly what it does for the same options without [cors], so the
    value itself raises no error and the call returns a list whenever the port
    is absent or an integer and [inMemory] and [dbPath] do not conflict; with
    absolute installation and working directories that list has no [-cors]
    entry.  A non-empty array of strings is pushed as [-cors] followed by the
    origins joined with a comma and a space. *)
Theorem generateArgs_cors
        (w : World) (m : Manager) (o : DynamoDBOptions) :
  (cors_ignored (cors o) ->
     generateArgs w m o = generateArgs w m (without_cors o)
     /\ (Path.isAbsolute (cwd w) = true ->
         Path.isAbsolute (path m) = true ->
         forall args,
           snd (generateArgs w m o) = Fulfilled args -> ~ In "-cors" args)
     /\ (defined (port o) = false \/ Number_isInteger (port o) = true ->
         truthy (inMemory o) && truthy (dbPath o) = false ->
         exists args, snd (generateArgs w m o) = Fulfilled args))
  /\ (forall item items origins,
         cors o = JSArray (item :: items) ->
         every_string (item :: items) = Some origins ->
         forall args,
           snd (generateArgs w m o) = Fulfilled args ->
           args = (base_args m ++ ["-cors"; String.concat ", " origins]
                     ++ port_args o ++ storage_args w m o ++ flag_args o)%list).
Proof.
  split.
  - intros Hcors. apply cors_ignored_args in Hcors.
    split; [apply generateArgs_without_cors; exact Hcors |].
    rewrite generateArgs_cases, Hcors.
    split.
    + intros Hcwd Hpath args.
      destruct (defined (port o) && negb (Number_isInteger (port o)));
        [discriminate |].
      destruct (truthy (inMemory o) && truthy (dbPath o)); [discriminate |].
      generalize (base_args_flags m). generalize (base_args m).
      intros base Hbase.
      cbn [snd app]. intros [= <-] Hin.
      apply in_app_or in Hin as [Hin | Hin];
        [ apply (Hbase _ "c"%char "ors" Hpath) in Hin;
          [discriminate | reflexivity | reflexivity] |].
      apply in_app_or in Hin as [Hin | Hin];
        [ apply (port_args_flags o _ "c" "ors") in Hin;
          [discriminate | reflexivity | reflexivity | discriminate] |].
      apply in_app_or in Hin as [Hin | Hin].
      * apply (storage_args_flags w m o _ "cors" Hcwd Hpath) in Hin;
          [| reflexivity].
        destruct Hin as [H | [H | H]]; discriminate.
      * apply flag_args_flags in Hin as [H | H]; discriminate.
    + intros Hport ->.
      assert (defined (port o) && negb (Number_isInteger (port o)) = false)
        as -> by (destruct Hport as [-> | ->];
                  [reflexivity | apply andb_false_r]).
      eexists. reflexivity.
  - intros item items origins Hcors Hevery args.
    rewrite generateArgs_cases.
    assert (cors_args o = ["-cors"; String.concat ", " origins]) as ->.
    { unfold cors_args, push_cors. rewrite Hcors, Hevery. reflexivity. }
    destruct (defined (port o) && negb (Number_isInteger (port o)));
      [discriminate |].
    destruct (truthy (inMemory o) && truthy (dbPath o)); [discriminate |].
    cbn [snd]. intros [= <-]. reflexivity.
Qed.

Lemma generateArgs_cors_witness :
  generateArgs sample_world sample_manager
    (with_cors (JSArray [JSStr "a.com"; JSNum (NInt 1)]))
  = generateArgs sample_world sample_manager
      (without_cors (with_cors (JSArray [JSStr "a.com"; JSNum (NInt 1)])))
  /\ snd (generateArgs sample_world sample_manager
            (with_cors (JSArray [JSStr "a.com"; JSStr "b.com"])))
     = Fulfilled ["-Djava.library.path=/srv/ddb/DynamoDBLocal_lib"; "-jar";
                  "/srv/ddb/DynamoDBLocal.jar"; "-cors"; "a.com, b.com";
                  "-dbPath"; "/srv/ddb/DynamoDBLocal_db"].
Proof.
  split.
  - assert (Hcors : cors_ignored
                      (cors (with_cors (JSArray [JSStr "a.com";
                                                 JSNum (NInt 1)])))).
    { right. right. right.
      exists [JSStr "a.com"; JSNum (NInt 1)], (JSNum (NInt 1)).
      split; [reflexivity |]. split; [right; left |]; reflexivity. }
    exact (proj1 (proj1 (generateArgs_cors sample_world sample_manager _)
                        Hcors)).
  - destruct (snd (generateArgs sample_world sample_manager
                     (with_cors (JSArray [JSStr "a.com"; JSStr "b.com"]))))
      as [args | r |] eqn:Hrun; try discriminate.
    rewrite (proj2 (generateArgs_cors sample_world sample_manager
                      (with_cors (JSArray [JSStr "a.com"; JSStr "b.com"])))
                   (JSStr "a.com") [JSStr "b.com"] ["a.com"; "b.com"]
                   eq_refl eq_refl args Hrun).
    reflexivity.
Defined.

(** C10 as stated fails: with [cors] absent the builder still raises an
    error when the port is not an integer, or when [inMemory] and [dbPath]
    are both given. *)
Lemma generateArgs_cors_counterexample :
  cors_ignored (cors (with_port (JSNum (NFrac 6001 2))))
  /\ generateArgs sample_world sample_manager
       (with_port (JSNum (NFrac 6001 2)))
     = ([], Rejected (Thrown port_error))
  /\ cors_ignored
       (cors (mkOptions (JSArray []) (JSStr "/tmp/x") JSUndefined (JSBool true)
                        JSUndefined JSUndefined))
  /\ generateArgs sample_world sample_manager
       (mkOptions (JSArray []) (JSStr "/tmp/x") JSUndefined (JSBool true)
                  JSUndefined JSUndefined)
     = ([], Rejected (Thrown conflict_error)).
Proof.
  split; [left; reflexivity |]. split; [reflexivity |].
  split; [right; right; left; reflexivity | reflexivity].
Qed.

(** ** The process supervisor *)

(** C2. On a manager that holds a child-process handle, [start] is rejected
    with the error that names the pid of that child; nothing is looked up,
    spawned or killed, the only effect is the console line of the error in
    verbose mode, and the manager keeps its handle.  In particular a second
    [start] right after one that spawned is rejected with the pid of the
    first child. *)
Theorem start_already_running
        (libIndex : list string) (w : World) (m : Manager)
        (args : option StartArgs) (child : ChildProcess) :
  dynamodb m = Some child ->
  let e := mkError "error"
             ("DynamoDB process is already running with pid: "
                ++ Shell.underline (String_of_pid (pid child))) in
  start libIndex w m args = (error_log (verbose m) e, Ended (Rejected (Thrown e)))
  /\ manager_after m (snd (start libIndex w m args)) = m
  /\ forallb (fun x => negb (spawns_or_kills x))
             (fst (start libIndex w m args)) = true
  /\ (forall m0 args0 m' s,
         snd (start libIndex w m0 args0) = Spawned m' s ->
         exists first,
           dynamodb m' = Some first
           /\ snd (start libIndex w m' args)
              = Ended (Rejected (Thrown
                  (mkError "error"
                     ("DynamoDB process is already running with pid: "
                        ++ Shell.underline (String_of_pid (pid first))))))
           /\ manager_after m' (snd (start libIndex w m' args)) = m').
Proof.
  intros Hchild e.
  assert (Hrun : start libIndex w m args
                 = (error_log (verbose m) e, Ended (Rejected (Thrown e)))).
  { unfold start. rewrite Hchild. reflexivity. }
  rewrite Hrun. split; [reflexivity |]. split; [reflexivity |].
  split; [destruct (verbose m); reflexivity |].
  intros m0 args0 m' s Hfirst.
  unfold start in Hfirst.
  destruct (dynamodb m0) as [c |]; [discriminate |].
  destruct (prepare libIndex w m0 args0) as [es [[built |] | r |]];
    try discriminate.
  injection Hfirst as <- _.
  eexists. split; [reflexivity |].
  unfold start. simpl. split; reflexivity.
Qed.

Lemma start_already_running_witness :
  start [] sample_world
        (mkManager "/srv/ddb" false (Some (mkChild (Some 4242%Z) true))) None
  = ([], Ended (Rejected (Thrown
       (mkError "error"
          ("DynamoDB process is already running with pid: "
             ++ Shell.underline "4242"))))).
Proof.
  exact (proj1 (start_already_running [] sample_world
                  (mkManager "/srv/ddb" false
                             (Some (mkChild (Some 4242%Z) true)))
                  None (mkChild (Some 4242%Z) true) eq_refl)).
Defined.

(** C6, as the code has it.  On a manager without a child-process handle
    [stop] returns a promise rejected with the not-running error, in the
    library variant and in the CLI variant alike; the CLI variant also prints
    that error.  Nothing is thrown and the manager is unchanged. *)
Theorem stop_without_process (m : Manager) :
  dynamodb m = None ->
  stop m = (error_log (verbose m) stop_error, m,
            ReturnsRejected (Thrown stop_error)).
Proof.
  intros H. unfold stop. rewrite H. reflexivity.
Qed.

Lemma stop_without_process_witness :
  stop sample_manager
  = ([], sample_manager, ReturnsRejected (Thrown stop_error)).
Proof.
  exact (stop_without_process sample_manager eq_refl).
Defined.

(** C6 as stated fails for the CLI variant: the verbose manager without a
    process gets a rejected promise too, and what it prints is the error line,
    not a warning. *)
Lemma stop_without_process_counterexample :
  verbose sample_cli_manager = true
  /\ dynamodb sample_cli_manager = None
  /\ stop sample_cli_manager
     = ([ConsoleLog
           (Shell.msg_error "error"
              "Requested DynamoDB process not killed because it was not running")],
        sample_cli_manager,
        ReturnsRejected (Thrown stop_error))
  /\ snd (stop sample_cli_manager) <> ReturnsUndefined.
Proof.
  repeat split; try reflexivity. discriminate.
Qed.

Lemma event_rejection (verbose : bool) (o : DynamoDBOptions) (s : Watch)
      (ev : ChildEvent) (r : Reason) :
  start_promise (snd (on_child_event verbose o s ev)) = RejectedWith r ->
  start_promise s = RejectedWith r \/ is_child_error ev = true.
Proof.
  destruct ev as [err | | data | data |]; simpl; auto.
  - destruct (str_includes "CorsParams" data); auto.
  - destruct (timers s); simpl; auto.
    destruct verbose; [destruct (summary_stops o) |]; simpl; auto;
      destruct (start_promise s); simpl; auto; discriminate.
Qed.

Lemma watch_rejection (verbose : bool) (o : DynamoDBOptions)
      (events : list ChildEvent) (s : Watch) (r : Reason) :
  start_promise (snd (watch verbose o s events)) = RejectedWith r ->
  start_promise s = RejectedWith r \/ existsb is_child_error events = true.
Proof.
  revert s. induction events as [| ev rest IH]; intros s; simpl; auto.
  pose proof (event_rejection verbose o s ev r) as Hev.
  destruct (on_child_event verbose o s ev) as [es s'].
  specialize (IH s').
  destruct (watch verbose o s' rest) as [es' s''].
  simpl in *. intros H.
  destruct (IH H) as [H' | H']; [| rewrite H'; auto using orb_true_r].
  destruct (Hev H') as [H'' | H'']; [auto | rewrite H''; auto].
Qed.

(** C7, against the code.  No listener is attached to the standard error of
    the child: data arriving there changes nothing and prints nothing, so
    the promise of [start] stays unsettled, also when the child exits after
    it.  The listeners reject that promise on an ['error'] event of the
    child and on nothing else. *)
Theorem stderr_data_is_ignored
        (verbose : bool) (o : DynamoDBOptions) (s : Watch) (data : string) :
  on_child_event verbose o s (StderrData data) = ([], s)
  /\ start_promise
       (snd (watch verbose o (mkWatch Unsettled verbose 0)
                   [StderrData data; ChildExit]))
     = Unsettled
  /\ (forall events r,
         start_promise
           (snd (watch verbose o (mkWatch Unsettled verbose 0) events))
         = RejectedWith r ->
         existsb is_child_error events = true).
Proof.
  split; [reflexivity |]. split; [destruct verbose; reflexivity |].
  intros events r H.
  apply watch_rejection in H as [H | H]; [discriminate | exact H].
Qed.

(** ** The installation locator *)

Lemma includes_In (l : list string) (x : string) :
  includes l x = true <-> In x l.
Proof.
  unfold includes. rewrite existsb_exists. split.
  - intros (y & Hin & E). apply String.eqb_eq in E. subst. exact Hin.
  - intros Hin. exists x. split; [exact Hin | apply String.eqb_refl].
Qed.

Lemma some_entry (files : list Dirent) (wanted : string) (t : FileType)
      (test : Dirent -> bool) :
  (forall d, test d = true <-> d_type d = t) ->
  existsb (fun file => (d_name file =? wanted) && test file) files = true
  <-> exists file, In file files /\ d_name file = wanted /\ d_type file = t.
Proof.
  intros Htest. rewrite existsb_exists. split.
  - intros (d & Hin & H). apply andb_prop in H as [Hn Ht].
    exists d. rewrite <- Htest. apply String.eqb_eq in Hn. auto.
  - intros (d & Hin & Hn & Ht). exists d. split; [exact Hin |].
    apply andb_true_intro. split; [apply String.eqb_eq | apply Htest]; auto.
Qed.

Lemma isFile_type (d : Dirent) : isFile d = true <-> d_type d = RegularFile.
Proof. unfold isFile. destruct (d_type d); split; congruence. Qed.

Lemma isDirectory_type (d : Dirent) :
  isDirectory d = true <-> d_type d = Directory.
Proof. unfold isDirectory. destruct (d_type d); split; congruence. Qed.

(** C5. [#find] answers true exactly when the listing of the resolved
    installation path succeeds and has a regular file [DynamoDBLocal.jar] and a
    directory [DynamoDBLocal_lib], and the listing of that directory succeeds
    and has every name of the manifest, in any order and among any other
    names.  When either listing fails the answer is false and nothing is
    raised. *)
Theorem find_true_iff (libIndex : list string) (w : World) (p : string) :
  let dir := Path.resolve (cwd w) (Path.normalize p) in
  (find libIndex w p = true
   <-> exists files libFiles,
         readdir w dir = Some files
         /\ (exists jar, In jar files /\ d_name jar = "DynamoDBLocal.jar"
                         /\ d_type jar = RegularFile)
         /\ (exists lib, In lib files /\ d_name lib = "DynamoDBLocal_lib"
                         /\ d_type lib = Directory)
         /\ readdir w (Path.join [dir; "DynamoDBLocal_lib"]) = Some libFiles
         /\ (forall file, In file libIndex -> In file (map d_name libFiles)))
  /\ (readdir w dir = None -> find libIndex w p = false)
  /\ (readdir w (Path.join [dir; "DynamoDBLocal_lib"]) = None ->
      find libIndex w p = false).
Proof.
  intros dir. unfold find. fold dir.
  split; [| split].
  - destruct (readdir w dir) as [files |].
    + split.
      * intros H.
        destruct (existsb _ files) eqn:Hjar; [| discriminate].
        destruct (existsb (fun file => (d_name file =? "DynamoDBLocal_lib")
                                         && isDirectory file) files) eqn:Hlib;
          [| discriminate].
        simpl in H.
        destruct (readdir w (Path.join [dir; "DynamoDBLocal_lib"]))
          as [libFiles |]; [| discriminate].
        exists files, libFiles.
        split; [reflexivity |].
        split; [apply (some_entry _ _ _ _ isFile_type); exact Hjar |].
        split; [apply (some_entry _ _ _ _ isDirectory_type); exact Hlib |].
        split; [reflexivity |].
        intros file Hin. apply includes_In.
        rewrite forallb_forall in H. apply H. exact Hin.
      * intros (files' & libFiles & [= <-] & Hjar & Hlib & Hread & Hall).
        apply (some_entry _ _ _ _ isFile_type) in Hjar.
        apply (some_entry _ _ _ _ isDirectory_type) in Hlib.
        rewrite Hjar, Hlib, Hread. simpl.
        apply forallb_forall. intros file Hin.
        apply includes_In, Hall, Hin.
    + split; [discriminate |].
      intros (files & libFiles & H & _). discriminate.
  - intros ->. reflexivity.
  - intros Hlib. destruct (readdir w dir) as [files |]; [| reflexivity].
    rewrite Hlib. destruct (_ && _); reflexivity.
Qed.

(** ** The archive fetcher *)

(** Only the response callback, and only for a response with a length,
    touches the destination. *)
Lemma event_extracts (destination : string) (verbose : bool) (d : Download)
      (ev : RequestEvent) (e : Effect) :
  In e (fst (on_request_event destination verbose d ev)) ->
  extracts e = true ->
  response_with_length ev = true /\ dl_stage d = AwaitingResponse.
Proof.
  intros Hin He.
  unfold on_request_event, reject_caught, new_error, newline in Hin.
  destruct ev as [[[| c rest] |] [mk |] | | err | err [] | n | | [err |]];
    destruct (dl_stage d) eqn:Hstage; destruct verbose;
    destruct (dl_destroyed d); simpl in Hin;
    repeat match goal with
           | H : _ \/ _ |- _ => destruct H as [H | H]
           end;
    try contradiction; subst e; try discriminate; split; reflexivity.
Qed.

Lemma stage_never_rewinds (destination : string) (verbose : bool)
      (d : Download) (ev : RequestEvent) :
  dl_stage (snd (on_request_event destination verbose d ev)) = AwaitingResponse ->
  dl_stage d = AwaitingResponse.
Proof.
  unfold on_request_event, reject_caught, new_error.
  destruct ev as [[[| c rest] |] [mk |] | | err | err [] | n | | [err |]];
    destruct (dl_stage d) eqn:Hstage; destruct verbose;
    destruct (dl_destroyed d); simpl; congruence.
Qed.

Lemma settle_settled (p new : Promise) : p <> Unsettled -> settle p new = p.
Proof. destruct p; [contradiction | reflexivity ..]. Qed.

Lemma promise_stays (destination : string) (verbose : bool)
      (d : Download) (ev : RequestEvent) :
  dl_promise d <> Unsettled ->
  dl_promise (snd (on_request_event destination verbose d ev)) = dl_promise d.
Proof.
  intros H.
  unfold on_request_event, reject_caught, new_error.
  destruct ev as [[[| c rest] |] [mk |] | | err | err [] | n | | [err |]];
    destruct (dl_stage d) eqn:Hstage; destruct verbose;
    destruct (dl_destroyed d); simpl; rewrite ?settle_settled by exact H;
    reflexivity.
Qed.

Lemma run_promise_stays (destination : string) (verbose : bool)
      (events : list RequestEvent) (d : Download) :
  dl_promise d <> Unsettled ->
  dl_promise (snd (run_download destination verbose d events)) = dl_promise d.
Proof.
  revert d. induction events as [| ev rest IH]; intros d H; [reflexivity |].
  simpl.
  pose proof (promise_stays destination verbose d ev H) as Hstep.
  destruct (on_request_event destination verbose d ev) as [es d'].
  simpl in Hstep.
  specialize (IH d'). rewrite Hstep in IH. specialize (IH H).
  destruct (run_download destination verbose d' rest) as [es' d''].
  exact IH.
Qed.

Lemma run_extracts (destination : string) (verbose : bool)
      (events : list RequestEvent) (d : Download) (e : Effect) :
  In e (fst (run_download destination verbose d events)) ->
  extracts e = true ->
  dl_stage d = AwaitingResponse
  /\ exists ev, In ev events /\ response_with_length ev = true.
Proof.
  revert d. induction events as [| ev rest IH]; intros d Hin He;
    [contradiction |].
  simpl in Hin.
  pose proof (event_extracts destination verbose d ev e) as Hev.
  pose proof (stage_never_rewinds destination verbose d ev) as Hstage.
  destruct (on_request_event destination verbose d ev) as [es d'].
  specialize (IH d').
  destruct (run_download destination verbose d' rest) as [es' d''].
  simpl in *.
  apply in_app_or in Hin as [Hin | Hin].
  - destruct (Hev Hin He) as [Hresp Hst].
    split; [exact Hst |]. exists ev. auto.
  - destruct (IH Hin He) as [Hst (ev' & Hin' & Hresp)].
    split; [apply Hstage; exact Hst |]. exists ev'. auto.
Qed.

(** C9. When the response has no [content-length] header (or an empty one),
    the promise of [downloadDynamoDB] is rejected with the error "Unable to
    determine response size" whatever happens afterwards, and the download
    issues no effect on the destination: no directory is created and no
    extraction pipeline starts.  Whenever a download does create the
    destination or start the pipeline, some response carried a non-empty
    [content-length]. *)
Theorem download_requires_content_length
        (destination : string) (verbose : bool)
        (content_length : option string) (mkdir_failure : option NodeError)
        (later : list RequestEvent) :
  no_length content_length = true ->
  let events := GotResponse content_length mkdir_failure :: later in
  snd (downloadDynamoDB events destination verbose)
  = Rejected (Thrown size_error)
  /\ (forall e, In e (fst (downloadDynamoDB events destination verbose)) ->
                extracts e = false)
  /\ (forall all_events e,
         In e (fst (downloadDynamoDB all_events destination verbose)) ->
         extracts e = true ->
         exists ev, In ev all_events /\ response_with_length ev = true).
Proof.
  intros Hlen events.
  assert (Hgeneral :
    forall all_events e,
      In e (fst (downloadDynamoDB all_events destination verbose)) ->
      extracts e = true ->
      exists ev, In ev all_events /\ response_with_length ev = true).
  { intros all_events e Hin He. unfold downloadDynamoDB in Hin.
    pose proof (run_extracts destination verbose all_events new_download e)
      as Hrun.
    destruct (run_download destination verbose new_download all_events)
      as [es d].
    simpl in Hin. destruct Hin as [<- | Hin]; [discriminate |].
    apply (Hrun Hin He). }
  split; [| split; [| exact Hgeneral]].
  - unfold downloadDynamoDB, events. cbn [run_download].
    set (first := on_request_event destination verbose new_download
                    (GotResponse content_length mkdir_failure)).
    assert (Hfirst : dl_promise (snd first) = RejectedWith (Thrown size_error)).
    { subst first. unfold on_request_event, reject_caught, new_error.
      destruct content_length as [[| c rest] |]; try discriminate;
        destruct verbose; reflexivity. }
    destruct first as [es d'] eqn:Efirst. simpl in Hfirst.
    pose proof (run_promise_stays destination verbose later d') as Hstay.
    destruct (run_download destination verbose d' later) as [es' d''].
    simpl in *. rewrite Hstay; rewrite Hfirst; [reflexivity | discriminate].
  - intros e Hin.
    destruct (extracts e) eqn:He; [| reflexivity].
    exfalso.
    unfold downloadDynamoDB, events in Hin. cbn [run_download] in Hin.
    set (first := on_request_event destination verbose new_download
                    (GotResponse content_length mkdir_failure)) in Hin.
    assert (Hfirst : dl_stage (snd first) = Responded
                     /\ forall x, In x (fst first) -> extracts x = false).
    { subst first. unfold on_request_event, reject_caught, new_error.
      destruct content_length as [[| c rest] |]; try discriminate;
        destruct verbose; simpl; (split; [reflexivity |]);
        intros x H; repeat (destruct H as [<- | H]; [reflexivity |]);
        contradiction. }
    destruct first as [es d'] eqn:Efirst. simpl in Hfirst.
    destruct Hfirst as [Hstage Hes].
    pose proof (run_extracts destination verbose later d' e) as Hrun.
    destruct (run_download destination verbose d' later) as [es' d''].
    simpl in Hin. destruct Hin as [<- | Hin]; [discriminate |].
    apply in_app_or in Hin as [Hin | Hin].
    + rewrite (Hes e Hin) in He. discriminate.
    + destruct (Hrun Hin He) as [Hst _]. congruence.
Qed.

Lemma download_requires_content_length_witness :
  downloadDynamoDB [GotResponse None None; ResponseData 1024; ResponseEnd]
                   "/srv/ddb" false
  = ([HttpsGet download_host download_path], Rejected (Thrown size_error)).
Proof.
  pose proof (download_requires_content_length
                "/srv/ddb" false None None [ResponseData 1024; ResponseEnd]
                eq_refl) as [Hend _].
  rewrite (surjective_pairing (downloadDynamoDB _ _ _)), Hend.
  reflexivity.
Defined.

(** ** Names of the entries of an installation *)

Lemma split_nonempty (p : string) : Path.split p <> [].
Proof.
  destruct p as [| c rest]; simpl; [discriminate |].
  destruct (Ascii.eqb c "/"); [discriminate |].
  destruct (Path.split rest); discriminate.
Qed.

Lemma split_app_slash (a b : string) :
  Path.split (a ++ String "/" b) = (Path.split a ++ Path.split b)%list.
Proof.
  induction a as [| c a IH]; simpl; [reflexivity |].
  destruct (Ascii.eqb c "/"); rewrite IH; [reflexivity |].
  pose proof (split_nonempty a) as Hne.
  destruct (Path.split a) as [| seg segs]; [contradiction | reflexivity].
Qed.

Lemma normalize_segments_last (allow : bool) (segs acc : list string)
      (seg : string) :
  plain seg ->
  exists acc', Path.normalize_segments allow acc (segs ++ [seg])
               = (rev acc' ++ [seg])%list.
Proof.
  intros (_ & _ & Hne & Hdot & Hdots).
  revert acc. induction segs as [| s segs IH]; intros acc; simpl.
  - apply String.eqb_neq in Hne, Hdot, Hdots. rewrite Hne, Hdot, Hdots.
    simpl. exists acc. reflexivity.
  - destruct ((s =? "") || (s =? ".")); [apply IH |].
    destruct (s =? ".."); [| apply IH].
    destruct acc as [| top below]; [apply IH |].
    destruct (top =? ".."); apply IH.
Qed.

Lemma concat_split_last (segs : list string) (seg : string) :
  Path.split seg = [seg] ->
  exists l, Path.split (String.concat "/" (segs ++ [seg])) = (l ++ [seg])%list.
Proof.
  intros Hseg. induction segs as [| s segs IH]; simpl.
  - exists []. exact Hseg.
  - destruct IH as [l IH].
    destruct (segs ++ [seg])%list as [| y ys] eqn:E.
    + destruct segs; discriminate.
    + change (s ++ "/" ++ String.concat "/" (y :: ys))
        with (s ++ String "/" (String.concat "/" (y :: ys))).
      rewrite split_app_slash, IH.
      exists (Path.split s ++ l)%list. apply app_assoc.
Qed.

Lemma basename_last (p : string) (l : list string) (seg : string) :
  Path.split p = (l ++ [seg])%list -> seg <> "" -> Path.basename p = seg.
Proof.
  intros Hsplit Hne. unfold Path.basename.
  rewrite Hsplit, filter_app. simpl.
  apply String.eqb_neq in Hne. rewrite Hne. simpl.
  apply last_last.
Qed.

Lemma split_last_not_empty (p : string) (l : list string) (seg : string) :
  Path.split p = (l ++ [seg])%list -> seg <> "" -> p <> "".
Proof.
  intros Hsplit Hne ->. simpl in Hsplit.
  destruct l as [| x [| y l]]; simpl in Hsplit; try discriminate.
  injection Hsplit as <-. contradiction.
Qed.

Lemma normalize_basename (p : string) (l : list string) (seg : string) :
  Path.split p = (l ++ [seg])%list ->
  Path.ends_with_slash p = false ->
  plain seg ->
  Path.basename (Path.normalize p) = seg.
Proof.
  intros Hsplit Htrail Hplain.
  pose proof Hplain as (Hseg & _ & Hne & _).
  unfold Path.normalize, Path.normalizeString.
  pose proof (split_last_not_empty _ _ _ Hsplit Hne) as Hp.
  apply String.eqb_neq in Hp. rewrite Hp, Htrail, Hsplit.
  destruct (normalize_segments_last (negb (Path.isAbsolute p)) l [] seg Hplain)
    as [acc' ->].
  destruct (concat_split_last (rev acc') seg Hseg) as [l' Hq].
  pose proof (split_last_not_empty _ _ _ Hq Hne) as Hqne.
  apply String.eqb_neq in Hqne. rewrite Hqne.
  destruct (Path.isAbsolute p).
  - apply (basename_last _ (EmptyString :: l')); [| exact Hne].
    simpl. rewrite Hq. reflexivity.
  - apply (basename_last _ l'); assumption.
Qed.

Lemma ends_with_slash_app (a seg : string) :
  seg <> "" ->
  Path.ends_with_slash (a ++ seg) = Path.ends_with_slash seg.
Proof.
  intros Hne. induction a as [| c a IH]; [reflexivity |].
  simpl. rewrite IH.
  destruct (a ++ seg) eqn:E; [| reflexivity].
  destruct a; simpl in E; [contradiction | discriminate].
Qed.

(** The base name of an entry joined to a directory is the entry. *)
Lemma join_basename (dir seg : string) :
  plain seg -> Path.basename (Path.join [dir; seg]) = seg.
Proof.
  intros Hplain. pose proof Hplain as (Hseg & Htrail & Hne & _).
  unfold Path.join. simpl.
  apply String.eqb_neq in Hne as Hne'. rewrite Hne'. simpl.
  destruct (dir =? ""); simpl.
  - apply (normalize_basename _ []); assumption.
  - change (dir ++ "/" ++ seg) with (dir ++ String "/" seg).
    apply (normalize_basename _ (Path.split dir)).
    + rewrite split_app_slash, Hseg. reflexivity.
    + rewrite (ends_with_slash_app dir (String "/" seg)) by discriminate.
      simpl. destruct seg; [contradiction | exact Htrail].
    + exact Hplain.
Qed.

Lemma join_parse_name (dir seg : string) :
  plain seg ->
  Path.parse_name (Path.join [dir; seg])
  = match Path.last_dot seg with
    | None | Some O => seg
    | Some i => if seg =? ".." then seg else substring 0 i seg
    end.
Proof.
  intros Hplain. unfold Path.parse_name.
  rewrite (join_basename dir seg Hplain). reflexivity.
Qed.

Ltac plain_name := repeat split; try reflexivity; discriminate.

Lemma uninstall_names (dir : string) :
  Path.parse_name (Path.join [dir; "DynamoDBLocal_lib"]) = "DynamoDBLocal_lib"
  /\ Path.parse_name (Path.join [dir; "DynamoDBLocal.jar"]) = "DynamoDBLocal"
  /\ Path.parse_name (Path.join [dir; "LICENSE.txt"]) = "LICENSE"
  /\ Path.parse_name (Path.join [dir; "README.txt"]) = "README"
  /\ Path.parse_name (Path.join [dir; "THIRD-PARTY-LICENSES.txt"])
     = "THIRD-PARTY-LICENSES".
Proof.
  repeat split; rewrite join_parse_name by plain_name; reflexivity.
Qed.

(** ** The uninstaller *)

(** The names collected for the five entries: the jar is listed without its
    extension. *)
Lemma rejected_names_eq (w : World) (m : Manager) :
  rejected_names w (uninstall_files m)
  = ((if failed w (Path.join [path m; "DynamoDBLocal_lib"])
      then ["DynamoDBLocal_lib"] else [])
       ++ (if failed w (Path.join [path m; "DynamoDBLocal.jar"])
           then ["DynamoDBLocal"] else [])
       ++ (if failed w (Path.join [path m; "LICENSE.txt"])
           then ["LICENSE"] else [])
       ++ (if failed w (Path.join [path m; "README.txt"])
           then ["README"] else [])
       ++ (if failed w (Path.join [path m; "THIRD-PARTY-LICENSES.txt"])
           then ["THIRD-PARTY-LICENSES"] else []))%list.
Proof.
  destruct (uninstall_names (path m)) as (Hlib & Hjar & Hlic & Hread & Hthird).
  unfold rejected_names, uninstall_files, failed. cbn [filter].
  destruct (rm w (Path.join [path m; "DynamoDBLocal_lib"]));
    destruct (rm w (Path.join [path m; "DynamoDBLocal.jar"]));
    destruct (rm w (Path.join [path m; "LICENSE.txt"]));
    destruct (rm w (Path.join [path m; "README.txt"]));
    destruct (rm w (Path.join [path m; "THIRD-PARTY-LICENSES.txt"]));
    cbn [map app]; rewrite ?Hlib, ?Hjar, ?Hlic, ?Hread, ?Hthird; reflexivity.
Qed.

Lemma rejected_names_required (w : World) (m : Manager) :
  includes (rejected_names w (uninstall_files m)) "DynamoDBLocal.jar" = false
  /\ includes (rejected_names w (uninstall_files m)) "DynamoDBLocal_lib"
     = failed w (Path.join [path m; "DynamoDBLocal_lib"]).
Proof.
  rewrite rejected_names_eq.
  destruct (failed w (Path.join [path m; "DynamoDBLocal_lib"]));
    destruct (failed w (Path.join [path m; "DynamoDBLocal.jar"]));
    destruct (failed w (Path.join [path m; "LICENSE.txt"]));
    destruct (failed w (Path.join [path m; "README.txt"]));
    destruct (failed w (Path.join [path m; "THIRD-PARTY-LICENSES.txt"]));
    split; reflexivity.
Qed.

(** C8, against the code.  On an installed, non-default path the five entries
    are removed one by one.  The call is rejected with the uninstall error,
    whose message lists the collected names, exactly when the removal of
    [DynamoDBLocal_lib] failed.  When that removal succeeded, every other
    failure, the one of [DynamoDBLocal.jar] included, only yields a warning in
    verbose mode and the call is fulfilled: the jar is collected under the
    name [DynamoDBLocal], which the test for [DynamoDBLocal.jar] never
    matches. *)
Theorem uninstall_outcome
        (libIndex : list string) (w : World) (m : Manager) :
  find libIndex w (path m) = true ->
  path m <> defaultPath w ->
  let files := uninstall_files m in
  let rejected := rejected_names w files in
  (failed w (Path.join [path m; "DynamoDBLocal_lib"]) = true ->
     uninstall libIndex w m
     = ((map Rm files ++ error_log (verbose m) (removal_error rejected))%list,
        Rejected (Thrown (removal_error rejected))))
  /\ (failed w (Path.join [path m; "DynamoDBLocal_lib"]) = false ->
      snd (uninstall libIndex w m) = Fulfilled tt
      /\ fst (uninstall libIndex w m)
         = (map Rm files
              ++ if verbose m
                 then [ConsoleLog
                         (match rejected with
                          | [] => Shell.msg_info "DYNAMODB UNINSTALLED"
                          | _ :: _ => removal_warning rejected
                          end)]
                 else [])%list)
  /\ (failed w (Path.join [path m; "DynamoDBLocal_lib"]) = false ->
      failed w (Path.join [path m; "DynamoDBLocal.jar"]) = true ->
      In "DynamoDBLocal" rejected
      /\ snd (uninstall libIndex w m) = Fulfilled tt).
Proof.
  intros Hfind Hpath files rejected.
  destruct (rejected_names_required w m) as [Hjar Hlib].
  fold files in Hjar, Hlib. fold rejected in Hjar, Hlib.
  assert (Hrun :
    uninstall libIndex w m
    = if failed w (Path.join [path m; "DynamoDBLocal_lib"]) then
        ((map Rm files ++ error_log (verbose m) (removal_error rejected))%list,
         Rejected (Thrown (removal_error rejected)))
      else
        ((map Rm files
            ++ if verbose m
               then [ConsoleLog
                       (match rejected with
                        | [] => Shell.msg_info "DYNAMODB UNINSTALLED"
                        | _ :: _ => removal_warning rejected
                        end)]
               else [])%list,
         Fulfilled tt)).
  { unfold uninstall. rewrite Hfind.
    apply String.eqb_neq in Hpath. rewrite Hpath.
    fold files. fold rejected. cbn [negb bind].
    destruct rejected as [| r rs] eqn:Hrej.
    - simpl in Hlib. rewrite <- Hlib.
      unfold log_info, when, emit, ret. destruct (verbose m); reflexivity.
    - rewrite Hjar, Hlib, orb_false_r.
      destruct (failed w (Path.join [path m; "DynamoDBLocal_lib"])).
      + unfold throw, new_error, error_log, removal_error.
        destruct (verbose m); reflexivity.
      + unfold log_warning, when, emit, ret, removal_warning.
        destruct (verbose m); reflexivity. }
  rewrite Hrun.
  split; [intros ->; reflexivity |].
  split; [intros ->; split; reflexivity |].
  intros -> Hjarfail. split; [| reflexivity].
  unfold rejected, files. rewrite rejected_names_eq, Hjarfail.
  apply in_or_app. right. left. reflexivity.
Qed.

Lemma uninstall_outcome_witness :
  find sample_libIndex locked_jar_world "/srv/ddb" = true
  /\ failed locked_jar_world "/srv/ddb/DynamoDBLocal.jar" = true
  /\ uninstall sample_libIndex locked_jar_world sample_manager
     = ([Rm "/srv/ddb/DynamoDBLocal_lib"; Rm "/srv/ddb/DynamoDBLocal.jar";
         Rm "/srv/ddb/LICENSE.txt"; Rm "/srv/ddb/README.txt";
         Rm "/srv/ddb/THIRD-PARTY-LICENSES.txt"],
        Fulfilled tt).
Proof.
  split; [reflexivity |]. split; [reflexivity |].
  assert (Hpath : path sample_manager <> defaultPath locked_jar_world)
    by (intros H; vm_compute in H; discriminate).
  destruct (uninstall_outcome sample_libIndex locked_jar_world sample_manager
              eq_refl Hpath) as (_ & Hkept & _).
  destruct (Hkept eq_refl) as [Hend Heffects].
  rewrite (surjective_pairing (uninstall _ _ _)), Hend, Heffects.
  reflexivity.
Defined.

(** * Further properties *)

(** ** Stopping *)

(** X1. When the manager holds a child and [kill()] succeeds, [stop] sends
    the signal once, drops the handle and returns [undefined], keeping path
    and verbosity; a second [stop] then finds nothing to kill and returns a
    promise rejected with the not-running error. *)
Theorem stop_then_stop (m : Manager) (child : ChildProcess) :
  dynamodb m = Some child ->
  kill_result child = true ->
  let m' := snd (fst (stop m)) in
  snd (stop m) = ReturnsUndefined
  /\ m' = mkManager (path m) (verbose m) None
  /\ filter (fun e => match e with Kill _ => true | _ => false end)
            (fst (fst (stop m))) = [Kill (pid child)]
  /\ stop m' = (error_log (verbose m) stop_error, m',
                ReturnsRejected (Thrown stop_error)).
Proof.
  intros Hchild Hkill m'.
  assert (Hstop :
    stop m
    = ((Kill (pid child)
          :: if verbose m
             then [ConsoleLog (Shell.msg_info "DynamoDB process terminated")]
             else [])%list,
       mkManager (path m) (verbose m) None, ReturnsUndefined)).
  { unfold stop. rewrite Hchild, Hkill. reflexivity. }
  subst m'. rewrite Hstop. simpl.
  split; [reflexivity |]. split; [reflexivity |].
  split; [destruct (verbose m); reflexivity | reflexivity].
Qed.

Lemma stop_then_stop_witness :
  stop (mkManager "/srv/ddb" false (Some (mkChild (Some 4242%Z) true)))
  = ([Kill (Some 4242%Z)], mkManager "/srv/ddb" false None, ReturnsUndefined).
Proof.
  pose proof (stop_then_stop
                (mkManager "/srv/ddb" false (Some (mkChild (Some 4242%Z) true)))
                (mkChild (Some 4242%Z) true) eq_refl eq_refl)
    as (Hvalue & Hmanager & _).
  rewrite (surjective_pairing (stop _)).
  rewrite (surjective_pairing (fst (stop _))).
  rewrite Hvalue, Hmanager. reflexivity.
Defined.

(** X2. When [kill()] reports failure, as for a child that has already
    exited, [stop] is rejected with the not-running error but keeps the
    handle: the manager is unchanged, so the next [start] is still rejected
    as already running, with the pid of that child. *)
Theorem stop_keeps_dead_child
        (libIndex : list string) (w : World) (m : Manager)
        (child : ChildProcess) (args : option StartArgs) :
  dynamodb m = Some child ->
  kill_result child = false ->
  stop m = ((Kill (pid child) :: error_log (verbose m) stop_error)%list, m,
            ReturnsRejected (Thrown stop_error))
  /\ snd (start libIndex w (snd (fst (stop m))) args)
     = Ended (Rejected (Thrown (running_error child))).
Proof.
  intros Hchild Hkill.
  assert (Hstop : stop m
                  = ((Kill (pid child) :: error_log (verbose m) stop_error)%list,
                     m, ReturnsRejected (Thrown stop_error))).
  { unfold stop. rewrite Hchild, Hkill. reflexivity. }
  rewrite Hstop. split; [reflexivity |].
  simpl. unfold start. rewrite Hchild. reflexivity.
Qed.

Lemma stop_keeps_dead_child_witness :
  snd (start [] sample_world
         (snd (fst (stop (mkManager "/srv/ddb" false
                                    (Some (mkChild (Some 7%Z) false))))))
         None)
  = Ended (Rejected (Thrown (running_error (mkChild (Some 7%Z) false)))).
Proof.
  exact (proj2 (stop_keeps_dead_child [] sample_world
                  (mkManager "/srv/ddb" false (Some (mkChild (Some 7%Z) false)))
                  (mkChild (Some 7%Z) false) None eq_refl eq_refl)).
Defined.

(** ** Paths of managers *)

Lemma split_segments (p : string) :
  Forall (fun seg => Path.split seg = [seg]) (Path.split p).
Proof.
  induction p as [| c rest IH]; simpl.
  - constructor; [reflexivity | constructor].
  - destruct (Ascii.eqb c "/") eqn:Hc.
    + constructor; [reflexivity | exact IH].
    + destruct (Path.split rest) as [| seg segs]; [repeat constructor |].
      * simpl. rewrite Hc. reflexivity.
      * inversion IH as [| ? ? Hseg Hsegs]. subst.
        constructor; [| exact Hsegs].
        simpl. rewrite Hc, Hseg. reflexivity.
Qed.

Lemma normalize_segments_clean (segs acc : list string) :
  Forall (fun seg => Path.split seg = [seg]) segs ->
  Forall clean acc ->
  Forall clean (Path.normalize_segments false acc segs).
Proof.
  revert acc. induction segs as [| seg segs IH]; intros acc Hsegs Hacc; simpl.
  - apply Forall_rev. exact Hacc.
  - inversion Hsegs as [| ? ? Hseg Hrest]. subst.
    destruct (seg =? "") eqn:E1; simpl; [apply IH; assumption |].
    destruct (seg =? ".") eqn:E2; simpl; [apply IH; assumption |].
    destruct (seg =? "..") eqn:E3.
    + destruct acc as [| top below]; [apply IH; assumption |].
      destruct (top =? ".."); apply IH; try assumption.
      inversion Hacc. assumption.
    + apply IH; [assumption |].
      constructor; [| exact Hacc].
      apply String.eqb_neq in E1, E2, E3. repeat split; assumption.
Qed.

Lemma normalize_segments_pass (allow : bool) (segs acc rest : list string) :
  Forall clean segs ->
  Path.normalize_segments allow acc (segs ++ rest)
  = Path.normalize_segments allow (rev segs ++ acc) rest.
Proof.
  revert acc. induction segs as [| seg segs IH]; intros acc Hsegs;
    [reflexivity |].
  inversion Hsegs as [| ? ? (_ & H1 & H2 & H3) Hrest]. subst.
  simpl. apply String.eqb_neq in H1, H2, H3. rewrite H1, H2, H3. simpl.
  rewrite IH by assumption. rewrite <- app_assoc. reflexivity.
Qed.

Lemma clean_no_trailing_slash (seg : string) :
  Path.split seg = [seg] -> Path.ends_with_slash seg = false.
Proof.
  induction seg as [| c rest IH]; [reflexivity |].
  simpl. destruct (Ascii.eqb c "/") eqn:Hc; [discriminate |].
  destruct (Path.split rest) as [| h t] eqn:E; [intros _ |].
  - exfalso. exact (split_nonempty rest E).
  - intros [= -> ->]. destruct rest; [reflexivity | apply IH; reflexivity].
Qed.

Lemma concat_clean (segs : list string) :
  Forall clean segs -> segs <> [] ->
  Path.split (String.concat "/" segs) = segs
  /\ String.concat "/" segs <> ""
  /\ Path.ends_with_slash (String.concat "/" segs) = false.
Proof.
  induction segs as [| x [| y l] IH]; intros Hall Hne; [contradiction | |].
  - inversion Hall as [| ? ? (Hx & Hne' & _) _]. subst. simpl.
    auto using clean_no_trailing_slash.
  - inversion Hall as [| ? ? (Hx & _) Hrest]. subst.
    destruct (IH Hrest) as (Hsplit & Hnonempty & Htrail); [discriminate |].
    assert (Hcons : String.concat "/" (x :: y :: l)
                    = x ++ String "/" (String.concat "/" (y :: l)))
      by reflexivity.
    rewrite Hcons. clear Hcons IH.
    generalize dependent (String.concat "/" (y :: l)). intros t Hsplit Hne' Ht.
    rewrite split_app_slash, Hx, Hsplit.
    split; [reflexivity |]. split.
    + destruct x; discriminate.
    + rewrite (ends_with_slash_app x) by discriminate.
      simpl. destruct t; [contradiction | exact Ht].
Qed.

(** A path in normal form is left alone by [normalize] and by [resolve]. *)
Lemma canonical_fixed (cwd p : string) :
  canonical p -> Path.resolve cwd (Path.normalize p) = p.
Proof.
  intros (segs & Hsegs & ->).
  destruct segs as [| x l]; [reflexivity |].
  destruct (concat_clean (x :: l) Hsegs) as (Hsplit & Hne & Htrail);
    [discriminate |].
  remember (String.concat "/" (x :: l)) as q eqn:Hq.
  change ("/" ++ q) with (String "/" q).
  assert (Hwalk : forall rest,
             Path.normalize_segments false [] ((x :: l) ++ rest)
             = Path.normalize_segments false (rev (x :: l)) rest).
  { intros rest. rewrite normalize_segments_pass by exact Hsegs.
    rewrite app_nil_r. reflexivity. }
  assert (A3 : Path.ends_with_slash (String "/" q) = false)
    by (simpl; destruct q; [contradiction | exact Htrail]).
  assert (A4 : Path.normalizeString (String "/" q) false = q).
  { unfold Path.normalizeString.
    change (Path.split (String "/" q)) with (EmptyString :: Path.split q).
    rewrite Hsplit.
    change (Path.normalize_segments false [] (EmptyString :: x :: l))
      with (Path.normalize_segments false [] (x :: l)).
    rewrite <- (app_nil_r (x :: l)) at 1. rewrite Hwalk.
    cbn [Path.normalize_segments]. rewrite rev_involutive.
    symmetry. exact Hq. }
  assert (A5 : Path.normalizeString (String "/" q ++ "/") false = q).
  { unfold Path.normalizeString.
    change (String "/" q ++ "/") with (String "/" (q ++ String "/" "")).
    change (Path.split (String "/" (q ++ String "/" "")))
      with (EmptyString :: Path.split (q ++ String "/" "")).
    rewrite split_app_slash, Hsplit.
    change (Path.normalize_segments false []
              (EmptyString :: (x :: l) ++ Path.split ""))
      with (Path.normalize_segments false [] ((x :: l) ++ [EmptyString])).
    rewrite Hwalk.
    change (Path.normalize_segments false (rev (x :: l)) [EmptyString])
      with (rev (rev (x :: l))).
    rewrite rev_involutive. symmetry. exact Hq. }
  assert (Hq' : (q =? "") = false) by (apply String.eqb_neq; exact Hne).
  assert (Hnorm : Path.normalize (String "/" q) = String "/" q).
  { unfold Path.normalize.
    change (String "/" q =? "") with false.
    change (Path.isAbsolute (String "/" q)) with true.
    rewrite A3. cbn [negb]. rewrite A4, Hq'. reflexivity. }
  rewrite Hnorm. unfold Path.resolve.
  change (String "/" q =? "") with false.
  change (Path.isAbsolute (String "/" q)) with true.
  cbn [orb negb]. rewrite A5. reflexivity.
Qed.

Lemma resolve_canonical (cwd p : string) :
  Path.isAbsolute cwd = true -> canonical (Path.resolve cwd p).
Proof.
  intros Hcwd. unfold Path.resolve. rewrite Hcwd, orb_true_r.
  unfold Path.normalizeString. simpl.
  eexists. split; [| reflexivity].
  apply normalize_segments_clean; [apply split_segments | constructor].
Qed.

Lemma normalize_canonical (p : string) :
  Path.isAbsolute p = true -> Path.ends_with_slash p = false ->
  canonical (Path.normalize p).
Proof.
  intros Habs Htrail. unfold Path.normalize.
  destruct (p =? "") eqn:Hp; [apply String.eqb_eq in Hp; subst; discriminate |].
  rewrite Habs, Htrail. simpl.
  destruct (Path.normalizeString p false =? "") eqn:Hq.
  - exists []. split; [constructor | reflexivity].
  - unfold Path.normalizeString. eexists. split; [| reflexivity].
    apply normalize_segments_clean; [apply split_segments | constructor].
Qed.

Lemma defaultPath_canonical (w : World) :
  Path.isAbsolute (dirname w) = true -> canonical (defaultPath w).
Proof.
  intros Habs. unfold defaultPath, Path.join.
  apply absolute_head in Habs as [rest Hd]. rewrite Hd.
  assert (E : filter (fun a => negb (a =? ""))
                     [String "/" rest; ".."; "dynamodb"]
              = [String "/" rest; ".."; "dynamodb"]) by reflexivity.
  rewrite E.
  assert (E' : String.concat "/" [String "/" rest; ".."; "dynamodb"]
               = String "/" rest ++ "/../dynamodb") by reflexivity.
  rewrite E'.
  apply normalize_canonical; [reflexivity |].
  rewrite ends_with_slash_app by discriminate. reflexivity.
Qed.

(** X3. With an absolute working directory the constructor stores an
    absolute path in normal form: constructing a manager on the stored path
    gives the same path again, and [#find], which resolves and normalizes its
    argument once more, lists exactly the stored path and so answers for the
    stored path what it answers for the path the caller gave. *)
Theorem constructor_path_is_stable
        (libIndex : list string) (w : World) (p : string) (verbose : bool) :
  Path.isAbsolute (cwd w) = true ->
  let m := new_manager w p verbose in
  Path.isAbsolute (path m) = true
  /\ new_manager w (path m) verbose = m
  /\ Path.resolve (cwd w) (Path.normalize (path m)) = path m
  /\ find libIndex w (path m) = find libIndex w p.
Proof.
  intros Hcwd m.
  assert (Hfixed : Path.resolve (cwd w) (Path.normalize (path m)) = path m)
    by (apply canonical_fixed, resolve_canonical; exact Hcwd).
  split; [apply resolve_absolute; exact Hcwd |].
  split; [unfold new_manager at 1; rewrite Hfixed; reflexivity |].
  split; [exact Hfixed |].
  unfold find. rewrite Hfixed. reflexivity.
Qed.

Lemma constructor_path_is_stable_witness :
  path (new_manager sample_world "ddb/../data/./local/" false)
  = "/home/user/data/local"
  /\ new_manager sample_world "/home/user/data/local" false
     = new_manager sample_world "ddb/../data/./local/" false.
Proof.
  split; [reflexivity |].
  exact (proj1 (proj2 (constructor_path_is_stable
                         [] sample_world "ddb/../data/./local/" false
                         eq_refl))).
Defined.

Lemma default_path_fixed (w : World) (v : bool) :
  Path.isAbsolute (dirname w) = true ->
  path (default_instance w v) = defaultPath w.
Proof.
  intros Habs. apply canonical_fixed, defaultPath_canonical. exact Habs.
Qed.

(** X4. With an absolute [__dirname], the instance behind the static methods
    has exactly [defaultPath] as its path, whatever the working directory, so
    [uninstall] on it takes the branch that removes the whole directory. *)
Theorem default_instance_path (w : World) (verbose : bool) :
  Path.isAbsolute (dirname w) = true ->
  path (default_instance w verbose) = defaultPath w
  /\ (path (default_instance w verbose) =? defaultPath w) = true.
Proof.
  intros Habs.
  pose proof (default_path_fixed w verbose Habs) as H.
  split; [exact H | rewrite H; apply String.eqb_refl].
Qed.

Lemma default_instance_path_witness :
  path (default_instance sample_world true) = "/opt/dynamodb-local/dynamodb".
Proof.
  rewrite (proj1 (default_instance_path sample_world true eq_refl)).
  reflexivity.
Defined.

(** ** Uninstalling *)

(** X5. On the instance behind the static methods, with a complete
    installation at [defaultPath], [uninstall] issues one recursive removal,
    of the whole directory, and none for the single entries; it is fulfilled
    when that removal succeeds, and rejected with the name and message of the
    removal's error otherwise. *)
Theorem static_uninstall_removes_tree
        (libIndex : list string) (w : World) (v : bool) :
  Path.isAbsolute (dirname w) = true ->
  find libIndex w (defaultPath w) = true ->
  let m := default_instance w v in
  filter is_rm (fst (uninstall libIndex w m)) = [Rm (defaultPath w)]
  /\ (rm w (defaultPath w) = None ->
      uninstall libIndex w m
      = ((Rm (defaultPath w)
            :: if v
               then [ConsoleLog (Shell.msg_info "DYNAMODB UNINSTALLED")]
               else [])%list,
         Fulfilled tt))
  /\ (forall err,
         rm w (defaultPath w) = Some err ->
         let e := mkError (node_name err) (node_message err) in
         uninstall libIndex w m
         = ((Rm (defaultPath w) :: error_log v e)%list,
            Rejected (Thrown e))).
Proof.
  intros Habs Hfind m.
  pose proof (default_path_fixed w v Habs) as Hpath.
  fold m in Hpath.
  unfold uninstall. rewrite Hpath, Hfind, String.eqb_refl.
  change (verbose m) with v. cbn [negb].
  destruct (rm w (defaultPath w)) as [err |].
  - split; [| split; [discriminate |]].
    + unfold throw, new_error, emit, bind. destruct v; reflexivity.
    + intros err' [= <-]. unfold throw, new_error, emit, bind, error_log.
      destruct v; reflexivity.
  - split; [| split; [| discriminate]].
    + unfold log_info, when, emit, bind, ret. destruct v; reflexivity.
    + intros _. unfold log_info, when, emit, bind, ret.
      destruct v; reflexivity.
Qed.

Lemma static_uninstall_removes_tree_witness :
  uninstall sample_libIndex default_installed_world
            (default_instance default_installed_world false)
  = ([Rm "/opt/dynamodb-local/dynamodb"],
     Rejected (Thrown (mkError "Error" "EACCES: permission denied"))).
Proof.
  destruct (static_uninstall_removes_tree
              sample_libIndex default_installed_world false eq_refl eq_refl)
    as (_ & _ & Hfail).
  rewrite (Hfail (mkNodeError "Error" "EACCES: permission denied") eq_refl).
  reflexivity.
Defined.

(** X6. When the listing of the installation path has no regular file
    [DynamoDBLocal.jar], or fails, [uninstall] is rejected with the
    not-installed error and issues no removal at all. *)
Theorem uninstall_without_jar
        (libIndex : list string) (w : World) (m : Manager) :
  (forall files file,
      readdir w (Path.resolve (cwd w) (Path.normalize (path m))) = Some files ->
      In file files -> d_name file = "DynamoDBLocal.jar" ->
      d_type file <> RegularFile) ->
  uninstall libIndex w m
  = (error_log (verbose m) (not_installed_error m),
     Rejected (Thrown (not_installed_error m)))
  /\ filter is_rm (fst (uninstall libIndex w m)) = [].
Proof.
  intros Hjar.
  assert (Hfind : find libIndex w (path m) = false).
  { unfold find.
    destruct (readdir w (Path.resolve (cwd w) (Path.normalize (path m))))
      as [files |] eqn:Hread; [| reflexivity].
    destruct (existsb (fun file => (d_name file =? "DynamoDBLocal.jar")
                                     && isFile file) files) eqn:E;
      [| reflexivity].
    apply (some_entry _ _ _ _ isFile_type) in E as (file & Hin & Hname & Htype).
    exfalso. exact (Hjar files file eq_refl Hin Hname Htype). }
  unfold uninstall. rewrite Hfind. cbn [negb].
  unfold throw, new_error, error_log, not_installed_error.
  destruct (verbose m); split; reflexivity.
Qed.

Lemma uninstall_without_jar_witness :
  uninstall sample_libIndex jarless_world sample_manager
  = ([], Rejected (Thrown (not_installed_error sample_manager))).
Proof.
  refine (proj1 (uninstall_without_jar sample_libIndex jarless_world
                   sample_manager _)).
  intros files file [= <-] Hin Hname.
  destruct Hin as [<- | [<- | [<- | []]]]; discriminate.
Defined.

(** ** Downloading *)

Lemma run_download_app (destination : string) (verbose : bool)
      (events later : list RequestEvent) (d : Download) :
  run_download destination verbose d (events ++ later)
  = let (es, d') := run_download destination verbose d events in
    let (es', d'') := run_download destination verbose d' later in
    ((es ++ es')%list, d'').
Proof.
  revert d. induction events as [| ev rest IH]; intros d; simpl.
  - destruct (run_download destination verbose d later). reflexivity.
  - destruct (on_request_event destination verbose d ev) as [es d'].
    rewrite IH.
    destruct (run_download destination verbose d' rest) as [es' d''].
    destruct (run_download destination verbose d'' later) as [es'' d'''].
    rewrite app_assoc. reflexivity.
Qed.

(** X7. The first settlement of a download stays: once the promise of
    [downloadDynamoDB] is fulfilled or rejected, no later event of the request
    changes how it ended.  In particular a timeout of the request that
    precedes everything else destroys the request and rejects with the
    network error "Request timed out", and an error of the request rejects
    with that error's name and message. *)
Theorem download_first_settlement
        (destination : string) (verbose : bool)
        (events later : list RequestEvent) :
  snd (downloadDynamoDB events destination verbose) <> Pending ->
  snd (downloadDynamoDB (events ++ later) destination verbose)
  = snd (downloadDynamoDB events destination verbose)
  /\ snd (downloadDynamoDB (RequestTimeout :: later) destination verbose)
     = Rejected (Thrown timeout_error)
  /\ In DestroyRequest
        (fst (downloadDynamoDB (RequestTimeout :: later) destination verbose))
  /\ (forall err,
         snd (downloadDynamoDB (RequestError err :: later) destination verbose)
         = Rejected (Thrown (mkError (node_name err) (node_message err)))).
Proof.
  intros Hsettled.
  split; [| split; [| split]].
  - unfold downloadDynamoDB in *. rewrite run_download_app.
    destruct (run_download destination verbose new_download events)
      as [es d] eqn:Hrun.
    pose proof (run_promise_stays destination verbose later d) as Hstay.
    destruct (run_download destination verbose d later) as [es' d'].
    simpl in *. rewrite Hstay; [reflexivity |].
    intros E. rewrite E in Hsettled. apply Hsettled. reflexivity.
  - unfold downloadDynamoDB. cbn [run_download].
    assert (Hfirst :
      on_request_event destination verbose new_download RequestTimeout
      = ((DestroyRequest :: newline verbose
            ++ error_log verbose timeout_error)%list,
         mkDownload (RejectedWith (Thrown timeout_error)) true
                    AwaitingResponse))
      by (destruct verbose; reflexivity).
    rewrite Hfirst.
    pose proof (run_promise_stays destination verbose later
                  (mkDownload (RejectedWith (Thrown timeout_error)) true
                              AwaitingResponse)) as Hstay.
    destruct (run_download destination verbose _ later) as [es' d'].
    simpl in *. rewrite Hstay; [reflexivity | discriminate].
  - unfold downloadDynamoDB. cbn [run_download].
    destruct (on_request_event destination verbose new_download RequestTimeout)
      as [es d] eqn:Hfirst.
    assert (Hin : In DestroyRequest es).
    { unfold on_request_event, new_error in Hfirst. simpl in Hfirst.
      injection Hfirst as <- _. left. reflexivity. }
    destruct (run_download destination verbose d later) as [es' d'].
    simpl. right. apply in_or_app. left. exact Hin.
  - intros err. unfold downloadDynamoDB. cbn [run_download].
    assert (Hfirst :
      on_request_event destination verbose new_download (RequestError err)
      = ((newline verbose
            ++ error_log verbose
                 (mkError (node_name err) (node_message err)))%list,
         mkDownload
           (RejectedWith (Thrown (mkError (node_name err) (node_message err))))
           false AwaitingResponse))
      by (destruct verbose; reflexivity).
    rewrite Hfirst.
    pose proof (run_promise_stays destination verbose later
                  (mkDownload
                     (RejectedWith
                        (Thrown (mkError (node_name err) (node_message err))))
                     false AwaitingResponse)) as Hstay.
    destruct (run_download destination verbose _ later) as [es' d'].
    simpl in *. rewrite Hstay; [reflexivity | discriminate].
Qed.

Lemma download_first_settlement_witness :
  snd (downloadDynamoDB
         ([RequestTimeout] ++ [GotResponse (Some "10") None;
                               PipelineEnded None])
         "/srv/ddb" true)
  = Rejected (Thrown timeout_error).
Proof.
  assert (Hsettled : snd (downloadDynamoDB [RequestTimeout] "/srv/ddb" true)
                     <> Pending) by discriminate.
  rewrite (proj1 (download_first_settlement
                    "/srv/ddb" true [RequestTimeout]
                    [GotResponse (Some "10") None; PipelineEnded None]
                    Hsettled)).
  reflexivity.
Defined.

Ltac request_cases d ev :=
  unfold on_request_event, reject_caught, new_error;
  destruct ev as [[[| ? ?] |] [? |] | | ? | ? [] | ? | | [? |]];
  destruct d as [[| | [? |]] [] []]; simpl.





Lemma event_resolves (destination : string) (verbose : bool)
      (d : Download) (ev : RequestEvent) :
  let d' := snd (on_request_event destination verbose d ev) in
  (dl_promise d' = Resolved ->
   dl_promise d = Resolved \/ (pipeline_done ev = true /\ streaming d = true))
  /\ (streaming d' = true -> streaming d = true \/ good_response ev = true).
Proof.
  unfold streaming. request_cases d ev; destruct verbose; simpl;
    split; intros H; try discriminate; auto.
Qed.

Lemma run_resolves (destination : string) (verbose : bool)
      (events : list RequestEvent) (d : Download) :
  dl_promise (snd (run_download destination verbose d events)) = Resolved ->
  dl_promise d = Resolved
  \/ (existsb pipeline_done events = true
      /\ (streaming d = true \/ existsb good_response events = true)).
Proof.
  revert d. induction events as [| ev rest IH]; intros d; simpl; auto.
  pose proof (event_resolves destination verbose d ev) as [Hres Hstream].
  destruct (on_request_event destination verbose d ev) as [es d'].
  specialize (IH d').
  destruct (run_download destination verbose d' rest) as [es' d''].
  simpl in *. intros H.
  destruct (IH H) as [H' | [Hdone [H' | H']]].
  - destruct (Hres H') as [H'' | [Hev Hs]]; [auto |].
    right. rewrite Hev. auto.
  - right. rewrite Hdone, orb_true_r. split; [reflexivity |].
    destruct (Hstream H') as [H'' | H'']; [auto | rewrite H''; auto].
  - right. rewrite Hdone, H', !orb_true_r. auto.
Qed.

Lemma run_quiet_stream (destination length : string) (chunks : list Z)
      (p : Promise) (written : Z) (rest : list RequestEvent) :
  run_download destination false
               (mkDownload p false (Streaming length written))
               (map ResponseData chunks ++ rest)
  = run_download destination false
                 (mkDownload p false (Streaming length written)) rest.
Proof.
  induction chunks as [| n chunks IH]; [reflexivity |].
  simpl. rewrite IH.
  destruct (run_download destination false _ rest). reflexivity.
Qed.

(** X9. A download is fulfilled only if a response carried a non-empty
    [content-length], the destination could be created, and the extraction
    pipeline ended without failure.  Conversely, in the silent variant such a
    response followed by any data, the end of the stream and the end of the
    pipeline fulfils the promise, the only effects being the request, the
    creation of the destination and the extraction, in that order. *)
Theorem download_fulfilled
        (destination : string) (verbose : bool) (events : list RequestEvent) :
  (snd (downloadDynamoDB events destination verbose) = Fulfilled tt ->
   existsb good_response events = true /\ existsb pipeline_done events = true)
  /\ (forall c length chunks,
         downloadDynamoDB
           (GotResponse (Some (String c length)) None
              :: map ResponseData chunks ++ [ResponseEnd; PipelineEnded None])
           destination false
         = ([HttpsGet download_host download_path;
             Mkdir destination; Untar destination],
            Fulfilled tt)).
Proof.
  split.
  - unfold downloadDynamoDB.
    pose proof (run_resolves destination verbose events new_download) as H.
    destruct (run_download destination verbose new_download events) as [es d].
    simpl in *. intros Hend.
    destruct (dl_promise d); try discriminate.
    destruct (H eq_refl) as [H' | [Hdone [H' | H']]]; try discriminate; auto.
  - intros c length chunks. unfold downloadDynamoDB.
    cbn [run_download on_request_event new_download dl_stage dl_promise
         dl_destroyed].
    rewrite run_quiet_stream. reflexivity.
Qed.

Lemma download_fulfilled_witness :
  existsb good_response (network default_installed_world) = true
  /\ existsb pipeline_done (network default_installed_world) = true.
Proof.
  exact (proj1 (download_fulfilled "/srv/ddb" false
                  (network default_installed_world)) eq_refl).
Defined.

(** X10. When the destination cannot be created, the download is rejected
    with the name and message of that failure and the extraction pipeline is
    never started, whatever the request does afterwards. *)
Theorem download_mkdir_failure
        (destination : string) (verbose : bool) (c : ascii) (length : string)
        (err : NodeError) (later : list RequestEvent) :
  let events := GotResponse (Some (String c length)) (Some err) :: later in
  snd (downloadDynamoDB events destination verbose)
  = Rejected (Thrown (mkError (node_name err) (node_message err)))
  /\ In (Mkdir destination) (fst (downloadDynamoDB events destination verbose))
  /\ filter is_untar (fst (downloadDynamoDB events destination verbose)) = [].
Proof.
  intros events. unfold downloadDynamoDB, events. cbn [run_download].
  assert (Hfirst :
    on_request_event destination verbose new_download
                     (GotResponse (Some (String c length)) (Some err))
    = ((Mkdir destination :: newline verbose
          ++ error_log verbose (mkError (node_name err) (node_message err)))%list,
       mkDownload
         (RejectedWith (Thrown (mkError (node_name err) (node_message err))))
         false Responded))
    by (destruct verbose; reflexivity).
  rewrite Hfirst.
  set (d := mkDownload _ false Responded).
  pose proof (run_promise_stays destination verbose later d) as Hstay.
  pose proof (fun e => run_extracts destination verbose later d e) as Hext.
  destruct (run_download destination verbose d later) as [es' d'].
  simpl in *.
  split; [rewrite Hstay; [reflexivity | discriminate] |].
  split; [right; left; reflexivity |].
  assert (Hnone : forall l, (forall e, In e l -> is_untar e = false) ->
                            filter is_untar l = []).
  { induction l as [| x l IH]; intros Hl; [reflexivity |].
    simpl. rewrite (Hl x (or_introl eq_refl)). apply IH.
    intros e Hin. apply Hl. right. exact Hin. }
  apply Hnone. intros e Hin.
  rewrite <- app_assoc in Hin.
  apply in_app_or in Hin as [Hin | Hin]; [| apply in_app_or in Hin as [Hin | Hin]];
    [ destruct verbose; simpl in Hin; [| contradiction];
      destruct Hin as [<- | []]; reflexivity
    | destruct verbose; simpl in Hin; [| contradiction];
      destruct Hin as [<- | []]; reflexivity
    | ].
  destruct (is_untar e) eqn:He; [| reflexivity].
  assert (Hx : extracts e = true)
    by (destruct e; try discriminate; reflexivity).
  destruct (Hext e Hin Hx) as [Hstage _]. discriminate.
Qed.


(** ** Waiting for the service *)

Lemma watch_app (verbose : bool) (o : DynamoDBOptions)
      (events later : list ChildEvent) (s : Watch) :
  snd (watch verbose o s (events ++ later))
  = snd (watch verbose o (snd (watch verbose o s events)) later).
Proof.
  revert s. induction events as [| ev rest IH]; intros s; simpl.
  - reflexivity.
  - destruct (on_child_event verbose o s ev) as [es s'].
    specialize (IH s').
    destruct (watch verbose o s' (rest ++ later)) as [es1 s1].
    destruct (watch verbose o s' rest) as [es2 s2].
    simpl in *. exact IH.
Qed.

Lemma watch_cons (verbose : bool) (o : DynamoDBOptions) (ev : ChildEvent)
      (rest : list ChildEvent) (s : Watch) :
  snd (watch verbose o s (ev :: rest))
  = snd (watch verbose o (snd (on_child_event verbose o s ev)) rest).
Proof.
  simpl. destruct (on_child_event verbose o s ev) as [es s'].
  cbn [snd]. destruct (watch verbose o s' rest). reflexivity.
Qed.

Lemma event_settled (verbose : bool) (o : DynamoDBOptions) (s : Watch)
      (ev : ChildEvent) :
  start_promise s <> Unsettled ->
  start_promise (snd (on_child_event verbose o s ev)) = start_promise s.
Proof.
  intros H. destruct ev as [err | | data | data |]; simpl; try reflexivity.
  - rewrite !settle_settled; [reflexivity | exact H |].
    rewrite settle_settled; exact H.
  - destruct (str_includes "CorsParams" data); reflexivity.
  - destruct (timers s); simpl; [reflexivity |].
    destruct verbose; [destruct (summary_stops o) |]; simpl;
      try reflexivity; apply settle_settled; exact H.
Qed.

Lemma watch_settled (verbose : bool) (o : DynamoDBOptions)
      (events : list ChildEvent) (s : Watch) :
  start_promise s <> Unsettled ->
  start_promise (snd (watch verbose o s events)) = start_promise s.
Proof.
  revert s. induction events as [| ev rest IH]; intros s H; [reflexivity |].
  rewrite watch_cons.
  pose proof (event_settled verbose o s ev H) as Hstep.
  rewrite IH; [exact Hstep |]. rewrite Hstep. exact H.
Qed.

(** X11. The first settlement of the promise of [start] stays: once the
    listeners have resolved or rejected it, no later event of the child, be
    it an error, further output, a timer or its exit, changes it.  So an
    error of the child after readiness no longer rejects, and readiness
    after an error no longer resolves. *)
Theorem watch_first_settlement
        (verbose : bool) (o : DynamoDBOptions) (s : Watch)
        (events : list ChildEvent) :
  start_promise s <> Unsettled ->
  start_promise (snd (watch verbose o s events)) = start_promise s.
Proof.
  apply watch_settled.
Qed.

Lemma watch_first_settlement_witness :
  start_promise
    (snd (watch false no_options
                (snd (watch false no_options (fresh_watch false)
                            [StdoutData "CorsParams: *"; TimerFires]))
                [ChildError (mkNodeError "Error" "spawn java ENOENT");
                 ChildExit]))
  = Resolved.
Proof.
  rewrite watch_first_settlement; [reflexivity | discriminate].
Defined.

Lemma event_ready (verbose : bool) (o : DynamoDBOptions) (s : Watch)
      (ev : ChildEvent) :
  let s' := snd (on_child_event verbose o s ev) in
  (start_promise s' = Resolved ->
   start_promise s = Resolved \/ (is_timer ev = true /\ timers s <> O))
  /\ (timers s' <> O -> timers s <> O \/ ready_data ev = true).
Proof.
  destruct ev as [err | | data | data |]; simpl.
  - split; [| auto].
    destruct (start_promise s); simpl; intros H; auto; discriminate.
  - auto.
  - destruct (str_includes "CorsParams" data); simpl; auto.
  - auto.
  - destruct (timers s) as [| n] eqn:Hn; simpl; [auto |].
    split.
    + intros _. right. split; [reflexivity | intros E; discriminate E].
    + intros _. left. intros E. discriminate E.
Qed.

Lemma watch_ready (verbose : bool) (o : DynamoDBOptions)
      (events : list ChildEvent) (s : Watch) :
  start_promise (snd (watch verbose o s events)) = Resolved ->
  start_promise s = Resolved
  \/ (timers s <> O /\ In TimerFires events)
  \/ exists before data after,
       events = (before ++ StdoutData data :: after)%list
       /\ str_includes "CorsParams" data = true
       /\ In TimerFires after.
Proof.
  revert s. induction events as [| ev rest IH]; intros s; [simpl; auto |].
  rewrite watch_cons. intros H.
  pose proof (event_ready verbose o s ev) as [Hres Htimers].
  destruct (IH _ H) as [H' | [[Hn Hin] | (before & data & after & -> & Hd & Hin)]].
  - destruct (Hres H') as [H'' | [Hev Hn]]; [auto |].
    right. left. split; [exact Hn |].
    destruct ev; try discriminate. left. reflexivity.
  - destruct (Htimers Hn) as [Hn' | Hev].
    + right. left. split; [exact Hn' | right; exact Hin].
    + right. right. destruct ev as [| | data | |]; try discriminate.
      exists [], data, rest. auto.
  - right. right. exists (ev :: before), data, after. auto.
Qed.

Lemma watch_fires (verbose : bool) (o : DynamoDBOptions)
      (events : list ChildEvent) (s : Watch) :
  verbose = false \/ summary_stops o = None ->
  existsb is_child_error events = false ->
  (forall r, start_promise s <> RejectedWith r) ->
  timers s <> O ->
  In TimerFires events ->
  start_promise (snd (watch verbose o s events)) = Resolved.
Proof.
  intros Hreport.
  revert s. induction events as [| ev rest IH]; intros s Herr Hp Hn Hin;
    [contradiction |].
  rewrite watch_cons. simpl in Herr.
  apply orb_false_iff in Herr as [Hev Herr].
  destruct ev as [err | | data | data |]; try discriminate; simpl;
    try (destruct Hin as [Hin | Hin]; [discriminate |]).
  - apply IH; assumption.
  - destruct (str_includes "CorsParams" data); simpl;
      apply IH; simpl; auto.
  - apply IH; assumption.
  - destruct (timers s) as [| n]; [congruence |]. simpl.
    assert (Hnow : settle (start_promise s) Resolved = Resolved).
    { destruct (start_promise s) as [| | r]; try reflexivity.
      exfalso. exact (Hp r eq_refl). }
    destruct Hreport as [-> | ->]; [| destruct verbose];
      rewrite watch_settled; simpl; rewrite Hnow;
      (reflexivity || discriminate).
Qed.

Lemma watch_unrejected (verbose : bool) (o : DynamoDBOptions)
      (events : list ChildEvent) (s : Watch) :
  existsb is_child_error events = false ->
  (forall r, start_promise s <> RejectedWith r) ->
  forall r, start_promise (snd (watch verbose o s events)) <> RejectedWith r.
Proof.
  intros Herr Hp r H.
  destruct (watch_rejection verbose o events s r H) as [H' | H'].
  - exact (Hp r H').
  - rewrite H' in Herr. discriminate.
Qed.

Lemma event_unresolved (o : DynamoDBOptions) (s : Watch) (ev : ChildEvent) :
  summary_stops o <> None ->
  start_promise s <> Resolved ->
  start_promise (snd (on_child_event true o s ev)) <> Resolved.
Proof.
  intros Hstops H.
  destruct ev as [err | | data | data |]; simpl; try exact H.
  - destruct (start_promise s); simpl; [discriminate | exact H | exact H].
  - destruct (str_includes "CorsParams" data); exact H.
  - destruct (timers s); simpl; [exact H |].
    destruct (summary_stops o); [exact H | contradiction].
Qed.

Lemma watch_unresolved (o : DynamoDBOptions) (events : list ChildEvent)
      (s : Watch) :
  summary_stops o <> None ->
  start_promise s <> Resolved ->
  start_promise (snd (watch true o s events)) <> Resolved.
Proof.
  intros Hstops. revert s.
  induction events as [| ev rest IH]; intros s H; [exact H |].
  rewrite watch_cons. apply IH. apply event_unresolved; assumption.
Qed.

(** When the report of the options is printed in full. *)
Lemma summary_stops_None (o : DynamoDBOptions) :
  summary_stops o = None
  <-> (truthy (inMemory o) = true \/ nullish (dbPath o) = true
       \/ is_string (dbPath o) = true)
      /\ (nullish (cors o) = true \/ is_array (cors o) = true).
Proof.
  unfold summary_stops.
  destruct (truthy (inMemory o)), (nullish (dbPath o)), (is_string (dbPath o)),
    (nullish (cors o)), (is_array (cors o)); simpl;
    split; try discriminate; try reflexivity; auto;
    intros [[H | [H | H]] [H' | H']]; discriminate.
Qed.

(** X12. The promise of [start] is resolved only by a readiness timer: if
    the listeners resolve it, the child has printed output containing
    [CorsParams] and a timer has fired after that output.  Conversely, when
    the child raises no ['error'] event, such output followed by the firing
    of a timer resolves the promise, provided the timer's callback gets as
    far as [resolve()]: the manager is silent, or the report of the options
    it prints first does not throw.  A verbose manager whose report throws,
    on a [dbPath] that is not a string or a [cors] that is not an array,
    never resolves the promise. *)
Theorem start_resolves_when_ready
        (verbose : bool) (o : DynamoDBOptions) (events : list ChildEvent) :
  (start_promise (snd (watch verbose o (fresh_watch verbose) events))
   = Resolved ->
   exists before data after,
     events = (before ++ StdoutData data :: after)%list
     /\ str_includes "CorsParams" data = true
     /\ In TimerFires after)
  /\ (verbose = false \/ summary_stops o = None ->
      forall before data after,
        events = (before ++ StdoutData data :: after)%list ->
        str_includes "CorsParams" data = true ->
        In TimerFires after ->
        existsb is_child_error events = false ->
        start_promise (snd (watch verbose o (fresh_watch verbose) events))
        = Resolved)
  /\ (verbose = true -> summary_stops o <> None ->
      start_promise (snd (watch verbose o (fresh_watch verbose) events))
      <> Resolved).
Proof.
  split; [| split].
  - intros H. apply watch_ready in H as [H | [[Hn _] | H]].
    + discriminate.
    + exfalso. apply Hn. reflexivity.
    + exact H.
  - intros Hreport before data after -> Hd Hin Herr.
    rewrite existsb_app in Herr. apply orb_false_iff in Herr as [Hb Ha].
    simpl in Ha.
    rewrite watch_app, watch_cons.
    set (s := snd (watch verbose o (fresh_watch verbose) before)).
    assert (Hs : forall r, start_promise s <> RejectedWith r).
    { apply watch_unrejected; [exact Hb |]. intros r. discriminate. }
    simpl. rewrite Hd. simpl.
    apply watch_fires; simpl; auto.
  - intros -> Hstops. apply watch_unresolved; [exact Hstops | discriminate].
Qed.

Lemma start_resolves_when_ready_witness :
  start_promise
    (snd (watch true no_options (fresh_watch true)
                ([StdoutData "Initializing DynamoDB Local"]
                   ++ StdoutData "CorsParams: *" :: [ChildExit; TimerFires])))
  = Resolved
  /\ start_promise
       (snd (watch true
                   (mkOptions (JSStr "*") JSUndefined JSUndefined JSUndefined
                              JSUndefined JSUndefined)
                   (fresh_watch true)
                   [StdoutData "CorsParams: *"; TimerFires]))
     <> Resolved.
Proof.
  split.
  - exact (proj1 (proj2 (start_resolves_when_ready true no_options _))
                 (or_intror eq_refl)
                 [StdoutData "Initializing DynamoDB Local"]
                 "CorsParams: *" [ChildExit; TimerFires]
                 eq_refl eq_refl (or_intror (or_introl eq_refl)) eq_refl).
  - apply (proj2 (proj2 (start_resolves_when_ready
                           true
                           (mkOptions (JSStr "*") JSUndefined JSUndefined
                                      JSUndefined JSUndefined JSUndefined)
                           [StdoutData "CorsParams: *"; TimerFires]))
                 eq_refl).
    discriminate.
Defined.

(** A verbose [start({cors: '*'})] on an installed path spawns the service;
    when the service is ready, the timer callback throws on the sixth line
    of its report and the promise stays unsettled. *)
Lemma verbose_start_with_cors_string :
  snd (start sample_libIndex locked_jar_world (mkManager "/srv/ddb" true None)
             (Some (mkStartArgs (with_cors (JSStr "*")) JSUndefined)))
  = Spawned (mkManager "/srv/ddb" true (Some (mkChild (Some 4242%Z) true)))
            (fresh_watch true)
  /\ watch true (with_cors (JSStr "*")) (fresh_watch true)
           [StdoutData "CorsParams: *"; TimerFires]
     = ([StdoutClearLine;
         StdoutWrite (Shell.msg_success "dynamodb started"
                        ++ String (ascii_of_nat 10) EmptyString);
         ConsoleSummaryLines 5;
         Uncaught "TypeError"],
        mkWatch Unsettled false 0).
Proof. split; reflexivity. Qed.

(** ** Effects of composed computations *)

Lemma all_ret (P : Effect -> bool) {A} (a : A) : all_effects P (ret a).
Proof. intros e []. Qed.

Lemma all_bind (P : Effect -> bool) {A B} (m : M A) (k : A -> M B) :
  all_effects P m ->
  (forall a, snd m = Fulfilled a -> all_effects P (k a)) ->
  all_effects P (bind m k).
Proof.
  intros Hm Hk e. unfold bind. destruct m as [es [a | r |]]; simpl.
  - specialize (Hk a eq_refl). destruct (k a) as [es' r']. simpl.
    intros Hin. apply in_app_or in Hin as [Hin | Hin].
    + apply Hm. exact Hin.
    + apply Hk. exact Hin.
  - apply Hm.
  - apply Hm.
Qed.

Lemma all_finally (P : Effect -> bool) {A} (body : M A)
      (cleanup : list Effect) :
  all_effects P body -> (forall e, In e cleanup -> P e = true) ->
  all_effects P (finally body cleanup).
Proof.
  intros Hb Hc e. unfold finally. destruct body as [es [a | r |]]; simpl;
    try (intros Hin; apply in_app_or in Hin as [Hin | Hin];
         [apply Hb | apply Hc]; exact Hin).
  apply Hb.
Qed.

Lemma all_run_download (P : Effect -> bool) (destination : string)
      (verbose : bool) (events : list RequestEvent) (d : Download) :
  (forall d' ev e,
      In e (fst (on_request_event destination verbose d' ev)) -> P e = true) ->
  forall e, In e (fst (run_download destination verbose d events)) ->
            P e = true.
Proof.
  intros Hstep. revert d.
  induction events as [| ev rest IH]; intros d e; simpl; [intros [] |].
  pose proof (Hstep d ev) as Hev.
  destruct (on_request_event destination verbose d ev) as [es d'].
  specialize (IH d').
  destruct (run_download destination verbose d' rest) as [es' d''].
  simpl in *. intros Hin. apply in_app_or in Hin as [Hin | Hin]; auto.
Qed.

Lemma bind_rejected {A B} (m : M A) (k : A -> M B) (r : Reason) :
  snd (bind m k) = Rejected r ->
  snd m = Rejected r \/ exists a, snd m = Fulfilled a /\ snd (k a) = Rejected r.
Proof.
  unfold bind. destruct m as [es [a | r' |]]; simpl.
  - destruct (k a) as [es' r'] eqn:E. simpl. intros Hr.
    right. exists a. rewrite E. split; [reflexivity | exact Hr].
  - intros [= ->]. left. reflexivity.
  - discriminate.
Qed.

Lemma finally_snd {A} (body : M A) (cleanup : list Effect) :
  snd (finally body cleanup) = snd body.
Proof. destruct body as [es [a | r |]]; reflexivity. Qed.

Lemma request_event_preparation (destination : string) (verbose : bool)
      (d : Download) (ev : RequestEvent) (e : Effect) :
  In e (fst (on_request_event destination verbose d ev)) ->
  preparation e = true /\ is_request e = false.
Proof.
  request_cases d ev; destruct verbose; simpl; intros Hin;
    repeat match goal with
           | H : _ \/ _ |- _ => destruct H as [H | H]
           end;
    try contradiction; subst e; split; reflexivity.
Qed.

Lemma download_preparation (events : list RequestEvent)
      (destination : string) (verbose : bool) :
  all_effects preparation (downloadDynamoDB events destination verbose)
  /\ filter is_request (fst (downloadDynamoDB events destination verbose))
     = [HttpsGet download_host download_path].
Proof.
  unfold downloadDynamoDB.
  pose proof (all_run_download preparation destination verbose events
                new_download) as Hprep.
  pose proof (all_run_download (fun e => negb (is_request e)) destination
                verbose events new_download) as Hreq.
  destruct (run_download destination verbose new_download events) as [es d].
  simpl in *. split.
  - intros e [<- | Hin]; [reflexivity |].
    apply Hprep; [| exact Hin].
    intros d' ev e' H. apply (request_event_preparation _ _ _ _ _ H).
  - f_equal.
    assert (Hall : forall e, In e es -> negb (is_request e) = true).
    { apply Hreq. intros d' ev e' H.
      rewrite (proj2 (request_event_preparation _ _ _ _ _ H)). reflexivity. }
    clear - Hall. induction es as [| x es IH]; [reflexivity |].
    simpl. pose proof (Hall x (or_introl eq_refl)) as Hx.
    destruct (is_request x); [discriminate |].
    apply IH. intros e Hin. apply Hall. right. exact Hin.
Qed.

(** ** Prompts and installing *)

Lemma lower_upper_char (c : ascii) : lower_char (upper_char c) = lower_char c.
Proof.
  destruct c as [[] [] [] [] [] [] [] []]; vm_compute; reflexivity.
Qed.

Lemma upper_char_ascii (c : ascii) :
  (nat_of_ascii c <? 128)%nat = true ->
  (nat_of_ascii (upper_char c) <? 128)%nat = true.
Proof.
  destruct c as [[] [] [] [] [] [] [] []]; vm_compute; auto.
Qed.

Lemma toUpperCase_ascii (s : string) :
  ascii_text s = true -> ascii_text (toUpperCase s) = true.
Proof.
  induction s as [| c s IH]; [reflexivity |].
  cbn [ascii_text toUpperCase map_chars]. intros H.
  apply andb_prop in H as [Hc Hs].
  fold (toUpperCase s).
  rewrite (upper_char_ascii c Hc), (IH Hs). reflexivity.
Qed.

Lemma kelvin_not_ascii (a b c : ascii) :
  (nat_of_ascii a <? 128)%nat = true -> kelvin a b c = false.
Proof.
  intros Ha. unfold kelvin.
  destruct (Nat.eqb_spec (nat_of_ascii a) 226) as [E |]; [| reflexivity].
  rewrite E in Ha. discriminate Ha.
Qed.

(** On ASCII text [toLowerCase] maps character by character. *)
Lemma toLowerCase_ascii (s : string) :
  ascii_text s = true -> toLowerCase s = map_chars lower_char s.
Proof.
  induction s as [| a tail IH]; [reflexivity |].
  cbn [ascii_text]. intros H. apply andb_prop in H as [Ha Htail].
  specialize (IH Htail).
  destruct tail as [| b [| c rest]];
    cbn [toLowerCase map_chars] in *;
    rewrite ?(kelvin_not_ascii a _ _ Ha); rewrite ?IH; reflexivity.
Qed.

Lemma toLowerCase_toUpperCase (s : string) :
  ascii_text s = true -> toLowerCase (toUpperCase s) = toLowerCase s.
Proof.
  intros H.
  rewrite (toLowerCase_ascii _ (toUpperCase_ascii s H)),
    (toLowerCase_ascii s H).
  clear H. induction s as [| c s IH]; [reflexivity |].
  unfold toUpperCase in *. simpl.
  rewrite lower_upper_char, IH. reflexivity.
Qed.

Lemma lower_char_letter (c t : ascii) :
  lower_char c = t ->
  In t ["y"; "e"; "s"; "o"; "k"]%char ->
  c = t \/ c = upper_char t.
Proof.
  intros H Hin. simpl in Hin.
  destruct Hin as [<- | [<- | [<- | [<- | [<- | []]]]]];
    destruct c as [[] [] [] [] [] [] [] []];
    vm_compute in H; try discriminate H; vm_compute; auto.
Qed.

Lemma map_chars_app (f : ascii -> ascii) (s t : string) :
  map_chars f (s ++ t) = map_chars f s ++ map_chars f t.
Proof.
  induction s as [| c s IH]; [reflexivity |].
  simpl. rewrite IH. reflexivity.
Qed.

Lemma ascii_text_app (s t : string) :
  ascii_text (s ++ t) = ascii_text s && ascii_text t.
Proof.
  induction s as [| c s IH]; [reflexivity |].
  simpl. rewrite IH. apply andb_assoc.
Qed.

Lemma accepted_lower (reply : string) :
  accepted reply = true
  <-> toLowerCase reply = "yes" \/ toLowerCase reply = "y"
      \/ toLowerCase reply = "ok".
Proof.
  unfold accepted. rewrite includes_In. simpl. intuition congruence.
Qed.

(** X13. Of the replies typed in ASCII, a prompt accepts [y], [yes] and [ok]
    in any mix of upper and lower case, fourteen replies in all, and nothing
    else: acceptance of such a reply does not depend on the case of its
    letters, and the reply is not trimmed, so that a blank before or after
    the word makes it a refusal. *)
Theorem accepted_ignores_case (reply : string) :
  ascii_text reply = true ->
  (accepted reply = true
   <-> In reply ["y"; "Y";
                 "yes"; "yeS"; "yEs"; "yES"; "Yes"; "YeS"; "YEs"; "YES";
                 "ok"; "oK"; "Ok"; "OK"])
  /\ accepted (toUpperCase reply) = accepted reply
  /\ accepted (reply ++ " ") = false
  /\ accepted (" " ++ reply) = false.
Proof.
  intros Hascii.
  split; [| split; [| split]].
  - split.
    + rewrite accepted_lower, (toLowerCase_ascii reply Hascii).
      destruct reply as [| c1 [| c2 [| c3 [| c4 r]]]]; simpl;
        intros [H | [H | H]]; try discriminate H; inversion H;
        repeat match goal with
               | E : lower_char ?c = _ |- _ =>
                   apply lower_char_letter in E;
                   [destruct E as [-> | ->] | simpl; auto 10]
               end;
        simpl; auto 20.
    + intros Hin. simpl in Hin.
      repeat (destruct Hin as [<- | Hin]; [reflexivity |]).
      contradiction.
  - unfold accepted. rewrite (toLowerCase_toUpperCase reply Hascii).
    reflexivity.
  - apply not_true_iff_false. rewrite accepted_lower.
    assert (Hall : ascii_text (reply ++ " ") = true)
      by (rewrite ascii_text_app, Hascii; reflexivity).
    rewrite (toLowerCase_ascii _ Hall), map_chars_app.
    destruct reply as [| c1 [| c2 [| c3 [| c4 r]]]]; simpl;
      intros [H | [H | H]]; discriminate H.
  - apply not_true_iff_false. rewrite accepted_lower.
    assert (Hall : ascii_text (" " ++ reply) = true)
      by (simpl; exact Hascii).
    rewrite (toLowerCase_ascii _ Hall). simpl.
    intros [H | [H | H]]; discriminate H.
Qed.

Lemma accepted_ignores_case_witness :
  accepted "YES" = true /\ accepted "yes " = false.
Proof.
  destruct (accepted_ignores_case "YES" eq_refl) as (Hiff & _ & _ & _).
  destruct (accepted_ignores_case "yes" eq_refl) as (_ & _ & Hblank & _).
  split; [| exact Hblank].
  apply Hiff. simpl. auto 20.
Defined.

(** The Kelvin sign counts as a [k]. *)
Lemma accepted_kelvin :
  accepted (String "O" (String (ascii_of_nat 226)
                          (String (ascii_of_nat 132)
                             (String (ascii_of_nat 170) EmptyString))))
  = true.
Proof. reflexivity. Qed.

(** X14. In the silent variant [install] never prompts or prints.  When the
    path holds an installation and no update is asked for it does nothing
    and succeeds; otherwise it is the download into the path of the manager,
    with exactly one request. *)
Theorem install_silent
        (libIndex : list string) (w : World) (m : Manager) (update : JSValue) :
  verbose m = false ->
  (find libIndex w (path m) = true -> truthy update = false ->
   install libIndex w m update = ([], Fulfilled tt))
  /\ (find libIndex w (path m) = false \/ truthy update = true ->
      install libIndex w m update
      = downloadDynamoDB (network w) (path m) false
      /\ filter is_request (fst (install libIndex w m update))
         = [HttpsGet download_host download_path])
  /\ silent (fst (install libIndex w m update)).
Proof.
  intros Hv. unfold install. rewrite Hv.
  assert (Hquiet : silent (fst (downloadDynamoDB (network w) (path m) false))).
  { unfold downloadDynamoDB.
    pose proof (all_run_download (fun e => negb (prints e)) (path m) false
                  (network w) new_download) as H.
    destruct (run_download (path m) false new_download (network w)) as [es d].
    simpl in *. intros e [<- | Hin]; [reflexivity |].
    apply negb_true_iff. apply H; [| exact Hin].
    clear. intros d' ev e. request_cases d' ev; intros Hin;
      repeat match goal with
             | H : _ \/ _ |- _ => destruct H as [H | H]
             end;
      try contradiction; subst e; reflexivity. }
  split; [| split].
  - intros -> ->. reflexivity.
  - intros H.
    assert (E : (if find libIndex w (path m)
                 then if negb (truthy update) then ret tt
                      else downloadDynamoDB (network w) (path m) false
                 else downloadDynamoDB (network w) (path m) false)
                = downloadDynamoDB (network w) (path m) false).
    { destruct H as [-> | ->]; [reflexivity |].
      destruct (find libIndex w (path m)); reflexivity. }
    rewrite E. split; [reflexivity |]. apply download_preparation.
  - destruct (find libIndex w (path m)); [| exact Hquiet].
    destruct (negb (truthy update)); [intros e [] | exact Hquiet].
Qed.

Lemma install_silent_witness :
  install sample_libIndex locked_jar_world sample_manager JSUndefined
  = ([], Fulfilled tt).
Proof.
  exact (proj1 (install_silent sample_libIndex locked_jar_world sample_manager
                  JSUndefined eq_refl) eq_refl eq_refl).
Defined.

(** X15. In the verbose variant [install] on a path that holds an
    installation always asks whether to overwrite it, whatever [update] is,
    and closes the input afterwards.  A reply that is not accepted cancels:
    the call prints the cancellation, issues no request and is fulfilled.  An
    accepted reply is followed by the download. *)
Theorem install_asks_before_overwriting
        (libIndex : list string) (w : World) (m : Manager) (update : JSValue) :
  verbose m = true ->
  find libIndex w (path m) = true ->
  let reply := answer w (overwrite_question m) in
  let download := downloadDynamoDB (network w) (path m) true in
  (accepted reply = false ->
   install libIndex w m update
   = ([Question (overwrite_question m);
       ConsoleLog (Shell.msg_fail "installation canceled"); CloseInput],
      Fulfilled tt))
  /\ (accepted reply = true ->
      install libIndex w m update
      = ((Question (overwrite_question m) :: CloseInput :: fst download)%list,
         snd download))
  /\ install libIndex w m update = install libIndex w m JSUndefined.
Proof.
  intros Hv Hfind reply download.
  unfold install. rewrite Hv, Hfind. fold (overwrite_question m).
  fold reply. fold download.
  split; [| split; [| reflexivity]].
  - intros ->. reflexivity.
  - intros ->. simpl. destruct download as [es r]. reflexivity.
Qed.

Lemma install_asks_before_overwriting_witness :
  install sample_libIndex locked_jar_world
          (mkManager "/srv/ddb" true None) (JSBool true)
  = ([Question (overwrite_question (mkManager "/srv/ddb" true None));
      ConsoleLog (Shell.msg_fail "installation canceled"); CloseInput],
     Fulfilled tt).
Proof.
  exact (proj1 (install_asks_before_overwriting
                  sample_libIndex locked_jar_world
                  (mkManager "/srv/ddb" true None) (JSBool true)
                  eq_refl eq_refl) eq_refl).
Defined.

(** ** Starting *)

Ltac effects_listed :=
  let H := fresh "H" in
  intros H; simpl in H;
  repeat (destruct H as [<- | H]; [reflexivity |]); contradiction.

Lemma generateArgs_preparation (w : World) (m : Manager)
      (o : DynamoDBOptions) :
  all_effects preparation (generateArgs w m o).
Proof.
  rewrite generateArgs_cases. unfold storage_mkdirs, error_log.
  intros e.
  destruct (defined (port o) && negb (Number_isInteger (port o)));
    [destruct (verbose m); effects_listed |].
  destruct (truthy (inMemory o) && truthy (dbPath o));
    [destruct (verbose m); effects_listed |].
  destruct (truthy (inMemory o)); [effects_listed |].
  destruct (dbPath o) as [| | [] | [z | | | |] | [| c s] | items |]; simpl;
    try destruct (z =? 0)%Z; effects_listed.
Qed.

Lemma install_preparation (libIndex : list string) (w : World) (m : Manager)
      (update : JSValue) :
  all_effects preparation (install libIndex w m update).
Proof.
  pose proof (proj1 (download_preparation (network w) (path m) (verbose m)))
    as Hd.
  unfold install.
  destruct (find libIndex w (path m)); [| exact Hd].
  destruct (verbose m); [| destruct (negb (truthy update));
                           [apply all_ret | exact Hd]].
  apply all_bind.
  - apply all_finally; [| intros e; effects_listed].
    destruct (negb (accepted _)); intros e; effects_listed.
  - intros [] _; [exact Hd | apply all_ret].
Qed.

Lemma prepare_preparation (libIndex : list string) (w : World) (m : Manager)
      (args : option StartArgs) :
  all_effects preparation (prepare libIndex w m args).
Proof.
  unfold prepare. apply all_bind.
  - destruct (negb (find libIndex w (path m))); [| apply all_ret].
    destruct (verbose m).
    + apply all_bind; [intros e; effects_listed |].
      intros _ _. apply all_finally; [| intros e; effects_listed].
      apply all_bind; [intros e; effects_listed |].
      intros _ _. destruct (negb (accepted _)); [apply all_ret |].
      apply all_bind; [apply install_preparation | intros; apply all_ret].
    + destruct (match args with
                | Some a => truthy (install_first a)
                | None => false
                end).
      * apply all_bind; [apply install_preparation | intros; apply all_ret].
      * destruct (verbose m); intros e; effects_listed.
  - intros [] _; [| apply all_ret].
    apply all_bind; [apply generateArgs_preparation | intros; apply all_ret].
Qed.

Lemma prepare_built (libIndex : list string) (w : World) (m : Manager)
      (args : option StartArgs) (built : list string) :
  snd (prepare libIndex w m args) = Fulfilled (Some built) ->
  snd (generateArgs w m (options_of args)) = Fulfilled built.
Proof.
  unfold prepare, options_of.
  match goal with
  | |- snd (bind ?x _) = _ -> _ => destruct x as [es [[] | r |]]
  end; simpl; try discriminate.
  destruct (generateArgs w m _) as [es' [a | r |]]; simpl; try discriminate.
  intros [= ->]. reflexivity.
Qed.

Lemma filter_none {A} (f : A -> bool) (l : list A) :
  (forall x, In x l -> f x = false) -> filter f l = [].
Proof.
  induction l as [| x l IH]; intros H; [reflexivity |].
  simpl. rewrite (H x (or_introl eq_refl)). apply IH.
  intros y Hy. apply H. right. exact Hy.
Qed.

Lemma preparation_no_spawn (es : list Effect) :
  (forall e, In e es -> preparation e = true) -> filter is_spawn es = [].
Proof.
  intros H. apply filter_none. intros e Hin. specialize (H e Hin).
  destruct e; try reflexivity. discriminate.
Qed.

(** X16. [start] spawns at most once, and only after everything else: if it
    returns with a stored handle, the manager had none, the argument builder
    accepted the options, the last effect is the one spawn of [java] with
    exactly the built arguments, the handle is the child of that spawn and the
    listeners are fresh.  If it ends in any other way, in particular when the
    argument builder rejects the options, nothing is spawned and the manager
    is unchanged. *)
Theorem start_spawns_last
        (libIndex : list string) (w : World) (m : Manager)
        (args : option StartArgs) :
  (forall m' s,
      snd (start libIndex w m args) = Spawned m' s ->
      dynamodb m = None
      /\ exists built before,
           snd (generateArgs w m (options_of args)) = Fulfilled built
           /\ fst (start libIndex w m args)
              = (before ++ [Spawn "java" built])%list
           /\ filter is_spawn before = []
           /\ m' = mkManager (path m) (verbose m)
                             (Some (spawned w "java" built))
           /\ s = fresh_watch (verbose m))
  /\ (forall result,
         snd (start libIndex w m args) = Ended result ->
         filter is_spawn (fst (start libIndex w m args)) = []
         /\ manager_after m (snd (start libIndex w m args)) = m)
  /\ (forall r,
         snd (generateArgs w m (options_of args)) = Rejected r ->
         exists result, snd (start libIndex w m args) = Ended result).
Proof.
  pose proof (prepare_preparation libIndex w m args) as Hprep.
  pose proof (prepare_built libIndex w m args) as Hbuilt.
  unfold start, all_effects in *.
  destruct (dynamodb m) as [child |].
  - split; [| split].
    + intros m' s. destruct (verbose m); discriminate.
    + intros result _. destruct (verbose m); split; reflexivity.
    + intros r _. destruct (verbose m); eexists; reflexivity.
  - destruct (prepare libIndex w m args) as [es [[built |] | r |]];
      simpl in *.
    + split; [| split].
      * intros m' s [= <- <-]. split; [reflexivity |].
        exists built, (es ++ announce (verbose m))%list.
        split; [apply Hbuilt; reflexivity |].
        split; [unfold announce; rewrite <- app_assoc; reflexivity |].
        split; [| split; reflexivity].
        rewrite filter_app, (preparation_no_spawn es Hprep).
        unfold announce. destruct (verbose m); reflexivity.
      * discriminate.
      * intros r Hr. rewrite (Hbuilt built eq_refl) in Hr. discriminate.
    + split; [discriminate | split].
      * intros _ _. split; [apply preparation_no_spawn, Hprep | reflexivity].
      * intros; eexists; reflexivity.
    + split; [discriminate | split].
      * intros _ _. split; [apply preparation_no_spawn, Hprep | reflexivity].
      * intros; eexists; reflexivity.
    + split; [discriminate | split].
      * intros _ _. split; [apply preparation_no_spawn, Hprep | reflexivity].
      * intros; eexists; reflexivity.
Qed.

(** X17. On a path without an installation and with no handle stored:
    the silent variant without the [install] option is rejected with the
    not-found error at once, with no effect at all; with the [install] option
    a rejected installation rejects [start] with the same reason; and the
    verbose variant, when the reply to its question is not accepted, prints
    the warning, asks, closes the input and is fulfilled although nothing was
    started. *)
Theorem start_without_installation
        (libIndex : list string) (w : World) (m : Manager)
        (args : option StartArgs) :
  dynamodb m = None ->
  find libIndex w (path m) = false ->
  let wanted := match args with
                | Some a => truthy (install_first a)
                | None => false
                end in
  (verbose m = false -> wanted = false ->
   start libIndex w m args
   = ([], Ended (Rejected (Thrown (not_found_error m)))))
  /\ (verbose m = false -> wanted = true ->
      forall r,
        snd (install libIndex w m JSUndefined) = Rejected r ->
        start libIndex w m args
        = (fst (install libIndex w m JSUndefined), Ended (Rejected r)))
  /\ (verbose m = true ->
      accepted (answer w install_question) = false ->
      start libIndex w m args
      = ([ConsoleLog (Shell.msg_warning
                        ("DynamoDB not found at " ++ Shell.underline (path m)));
          Question install_question; CloseInput],
         Ended (Fulfilled tt))).
Proof.
  intros Hnone Hfind wanted.
  unfold start, prepare. rewrite Hnone, Hfind. fold wanted.
  fold install_question. cbn [negb].
  split; [| split].
  - intros -> ->. reflexivity.
  - intros -> -> r Hr.
    destruct (install libIndex w m JSUndefined) as [es [[] | r' |]];
      simpl in *; try discriminate.
    injection Hr as ->. reflexivity.
  - intros -> ->. reflexivity.
Qed.

Lemma start_without_installation_witness :
  start sample_libIndex sample_world sample_manager None
  = ([], Ended (Rejected (Thrown (not_found_error sample_manager)))).
Proof.
  exact (proj1 (start_without_installation
                  sample_libIndex sample_world sample_manager None
                  eq_refl eq_refl) eq_refl eq_refl).
Defined.

(** X18. On an installed path, a manager without a handle whose options the
    argument builder accepts spawns [java] with the built arguments after the
    builder's effects.  If [kill()] then succeeds, [stop] brings the manager
    back to exactly the state it had before [start], so that a further
    [start] does what the first one did. *)
Theorem start_stop_start
        (libIndex : list string) (w : World) (m : Manager)
        (args : option StartArgs) (built : list string) :
  dynamodb m = None ->
  find libIndex w (path m) = true ->
  snd (generateArgs w m (options_of args)) = Fulfilled built ->
  kill_result (spawned w "java" built) = true ->
  let m' := manager_after m (snd (start libIndex w m args)) in
  start libIndex w m args
  = ((fst (generateArgs w m (options_of args)) ++ announce (verbose m)
        ++ [Spawn "java" built])%list,
     Spawned (mkManager (path m) (verbose m) (Some (spawned w "java" built)))
             (fresh_watch (verbose m)))
  /\ snd (stop m') = ReturnsUndefined
  /\ snd (fst (stop m')) = m
  /\ start libIndex w (snd (fst (stop m'))) args = start libIndex w m args.
Proof.
  intros Hnone Hfind Hbuilt Hkill m'.
  assert (Hstart :
    start libIndex w m args
    = ((fst (generateArgs w m (options_of args)) ++ announce (verbose m)
          ++ [Spawn "java" built])%list,
       Spawned (mkManager (path m) (verbose m)
                          (Some (spawned w "java" built)))
               (fresh_watch (verbose m)))).
  { unfold start, prepare. rewrite Hnone, Hfind. fold (options_of args).
    cbn [negb]. unfold ret at 1. cbn [bind].
    destruct (generateArgs w m (options_of args)) as [es [a | r |]];
      simpl in *; try discriminate.
    injection Hbuilt as ->. rewrite app_nil_r. reflexivity. }
  assert (Hback : mkManager (path m) (verbose m) None = m)
    by (destruct m; simpl in *; subst; reflexivity).
  subst m'. rewrite Hstart. cbn [snd manager_after].
  unfold stop at 1 2 3. cbn [dynamodb]. rewrite Hkill.
  cbn [fst snd path verbose]. rewrite Hback, Hstart.
  repeat split; reflexivity.
Qed.

Lemma start_stop_start_witness :
  start sample_libIndex locked_jar_world sample_manager None
  = ([Mkdir "/srv/ddb/DynamoDBLocal_db";
      Spawn "java" ["-Djava.library.path=/srv/ddb/DynamoDBLocal_lib"; "-jar";
                    "/srv/ddb/DynamoDBLocal.jar";
                    "-dbPath"; "/srv/ddb/DynamoDBLocal_db"]],
     Spawned (mkManager "/srv/ddb" false (Some (mkChild (Some 4242%Z) true)))
             (fresh_watch false)).
Proof.
  rewrite (proj1 (start_stop_start
                    sample_libIndex locked_jar_world sample_manager None
                    ["-Djava.library.path=/srv/ddb/DynamoDBLocal_lib"; "-jar";
                     "/srv/ddb/DynamoDBLocal.jar";
                     "-dbPath"; "/srv/ddb/DynamoDBLocal_db"]
                    eq_refl eq_refl eq_refl eq_refl)).
  reflexivity.
Defined.

(** ** The silent variant *)

Lemma quiet_silent {A} (m : M A) : all_effects quiet m -> silent (fst m).
Proof.
  intros H e Hin. specialize (H e Hin). unfold quiet in H.
  apply negb_true_iff. exact H.
Qed.

Lemma download_quiet (events : list RequestEvent) (destination : string) :
  all_effects quiet (downloadDynamoDB events destination false).
Proof.
  unfold downloadDynamoDB.
  pose proof (all_run_download quiet destination false events new_download)
    as H.
  destruct (run_download destination false new_download events) as [es d].
  simpl in *. intros e [<- | Hin]; [reflexivity |].
  apply H; [| exact Hin].
  clear. intros d' ev e. request_cases d' ev; effects_listed.
Qed.

Lemma generateArgs_quiet (w : World) (m : Manager) (o : DynamoDBOptions) :
  verbose m = false -> all_effects quiet (generateArgs w m o).
Proof.
  intros Hv. rewrite generateArgs_cases. unfold storage_mkdirs, error_log.
  rewrite Hv. intros e.
  destruct (defined (port o) && negb (Number_isInteger (port o)));
    [effects_listed |].
  destruct (truthy (inMemory o) && truthy (dbPath o)); [effects_listed |].
  destruct (truthy (inMemory o)); [effects_listed |].
  destruct (dbPath o) as [| | [] | [z | | | |] | [| c s] | items |]; simpl;
    try destruct (z =? 0)%Z; effects_listed.
Qed.

Lemma install_quiet (libIndex : list string) (w : World) (m : Manager)
      (update : JSValue) :
  verbose m = false -> all_effects quiet (install libIndex w m update).
Proof.
  intros Hv. unfold install. rewrite Hv.
  destruct (find libIndex w (path m)); [| apply download_quiet].
  destruct (negb (truthy update)); [apply all_ret | apply download_quiet].
Qed.

Lemma prepare_quiet (libIndex : list string) (w : World) (m : Manager)
      (args : option StartArgs) :
  verbose m = false -> all_effects quiet (prepare libIndex w m args).
Proof.
  intros Hv. unfold prepare. apply all_bind.
  - rewrite Hv.
    destruct (negb (find libIndex w (path m))); [| apply all_ret].
    destruct (match args with
              | Some a => truthy (install_first a)
              | None => false
              end).
    + apply all_bind; [apply install_quiet; exact Hv | intros; apply all_ret].
    + intros e. effects_listed.
  - intros [] _; [| apply all_ret].
    apply all_bind; [apply generateArgs_quiet; exact Hv | intros; apply all_ret].
Qed.

Lemma watch_quiet (o : DynamoDBOptions) (events : list ChildEvent)
      (s : Watch) :
  fst (watch false o s events) = [].
Proof.
  revert s. induction events as [| ev rest IH]; intros s; [reflexivity |].
  simpl.
  assert (Hev : fst (on_child_event false o s ev) = []).
  { destruct ev as [err | | data | data |]; simpl; try reflexivity.
    - destruct (str_includes "CorsParams" data); reflexivity.
    - destruct (timers s); reflexivity. }
  destruct (on_child_event false o s ev) as [es s']. simpl in Hev. subst es.
  specialize (IH s'). destruct (watch false o s' rest) as [es' s''].
  simpl in *. exact IH.
Qed.

(** X19. The silent variant neither prints nor reads: with [verbose] unset,
    no call of [#generateArgs], [uninstall], [install], [start] or [stop], no
    download and no listener of the child writes to the console or standard
    output or opens the prompt.  Its errors reach the caller only through the
    rejected promise. *)
Theorem silent_variant_prints_nothing
        (libIndex : list string) (w : World) (m : Manager) :
  verbose m = false ->
  (forall o, silent (fst (generateArgs w m o)))
  /\ silent (fst (uninstall libIndex w m))
  /\ (forall update, silent (fst (install libIndex w m update)))
  /\ (forall args, silent (fst (start libIndex w m args)))
  /\ silent (fst (fst (stop m)))
  /\ (forall events destination,
         silent (fst (downloadDynamoDB events destination false)))
  /\ (forall o events s, fst (watch false o s events) = []).
Proof.
  intros Hv.
  split; [intros o; apply quiet_silent, generateArgs_quiet, Hv |].
  split.
  { unfold uninstall, throw, new_error, log_info, log_warning, when.
    rewrite Hv.
    destruct (negb (find libIndex w (path m))); [intros e []|].
    destruct (path m =? defaultPath w).
    - destruct (rm w (path m)); intros e H; simpl in H;
        destruct H as [<- | []]; reflexivity.
    - apply quiet_silent. apply all_bind.
      + intros e H. simpl in H.
        repeat (destruct H as [<- | H]; [reflexivity |]). contradiction.
      + intros _ _.
        destruct (rejected_names w (uninstall_files m)); [apply all_ret |].
        destruct (_ || _); [intros e [] | apply all_ret]. }
  split; [intros update; apply quiet_silent, install_quiet, Hv |].
  split.
  { intros args. pose proof (prepare_quiet libIndex w m args Hv) as Hp.
    unfold start. rewrite Hv.
    destruct (dynamodb m); [intros e [] |].
    destruct (prepare libIndex w m args) as [es [[built |] | r |]];
      try (apply (quiet_silent (es, _)); exact Hp).
    - intros e Hin. simpl in Hin.
      apply in_app_or in Hin as [Hin | [<- | []]]; [| reflexivity].
      apply (quiet_silent (es, Fulfilled (Some built)) Hp). exact Hin.
    - apply (quiet_silent (es, Fulfilled None) Hp).
    - apply (quiet_silent (es, Rejected r) Hp).
    - apply (quiet_silent (es, @Pending (option (list string))) Hp). }
  split.
  { unfold stop, new_error. rewrite Hv.
    destruct (dynamodb m) as [child |]; [| intros e []].
    destruct (kill_result child); intros e H; simpl in H;
      destruct H as [<- | []]; reflexivity. }
  split; [intros events destination; apply quiet_silent, download_quiet |].
  intros events s. apply watch_quiet.
Qed.

Lemma silent_variant_prints_nothing_witness :
  silent (fst (start sample_libIndex locked_jar_world sample_manager None)).
Proof.
  destruct (silent_variant_prints_nothing
              sample_libIndex locked_jar_world sample_manager eq_refl)
    as (_ & _ & _ & Hstart & _).
  exact (Hstart None).
Defined.

(** ** More on the argument builder *)

Lemma port_passes_check (o : DynamoDBOptions) :
  defined (port o) && negb (Number_isInteger (port o)) = negb (port_passes o).
Proof.
  unfold port_passes.
  destruct (defined (port o)), (Number_isInteger (port o)); reflexivity.
Qed.

(** X20. In-memory mode touches no directory: with [inMemory] truthy,
    [dbPath] falsy and a port that passes, the builder issues no effect at
    all and returns the base, CORS and port arguments, [-inMemory] and the
    optional flags, with no [-dbPath] pushed. *)
Theorem generateArgs_inMemory
        (w : World) (m : Manager) (o : DynamoDBOptions) :
  truthy (inMemory o) = true ->
  truthy (dbPath o) = false ->
  port_passes o = true ->
  generateArgs w m o
  = ([], Fulfilled (base_args m ++ cors_args o ++ port_args o
                      ++ ["-inMemory"] ++ flag_args o)%list).
Proof.
  intros Hmem Hdb Hport.
  rewrite generateArgs_cases, port_passes_check, Hport.
  unfold storage_args, storage_mkdirs. rewrite Hmem, Hdb. reflexivity.
Qed.

Lemma generateArgs_inMemory_witness :
  generateArgs sample_world sample_manager
    (mkOptions JSUndefined JSUndefined JSUndefined (JSBool true)
               (JSNum (NInt 3000)) (JSBool true))
  = ([], Fulfilled ["-Djava.library.path=/srv/ddb/DynamoDBLocal_lib"; "-jar";
                    "/srv/ddb/DynamoDBLocal.jar"; "-port"; "3000";
                    "-inMemory"; "-sharedDb"]).
Proof.
  rewrite (generateArgs_inMemory sample_world sample_manager
             (mkOptions JSUndefined JSUndefined JSUndefined (JSBool true)
                        (JSNum (NInt 3000)) (JSBool true))
             eq_refl eq_refl eq_refl).
  reflexivity.
Defined.

(** X21. A [dbPath] that is truthy but not a string (a number, [true], an
    array, an object) is not rejected: without [inMemory] the builder then
    pushes no storage option at all, neither the given path nor the default
    one, and creates no directory; with [inMemory] it is rejected with the
    conflict error like a string would be. *)
Theorem generateArgs_dbPath_not_a_string
        (w : World) (m : Manager) (o : DynamoDBOptions) :
  truthy (dbPath o) = true ->
  is_string (dbPath o) = false ->
  port_passes o = true ->
  (truthy (inMemory o) = false ->
   generateArgs w m o
   = ([], Fulfilled (base_args m ++ cors_args o ++ port_args o
                       ++ flag_args o)%list))
  /\ (truthy (inMemory o) = true ->
      generateArgs w m o
      = (error_log (verbose m) conflict_error,
         Rejected (Thrown conflict_error))).
Proof.
  intros Hdb Hstr Hport.
  rewrite generateArgs_cases, port_passes_check, Hport.
  unfold storage_args, storage_mkdirs. rewrite Hdb.
  split; intros ->; [| reflexivity].
  destruct (dbPath o) as [| | [] | [z | | | |] | s | items |];
    try discriminate; simpl in *; try rewrite Hdb; reflexivity.
Qed.

Lemma generateArgs_dbPath_not_a_string_witness :
  generateArgs sample_world sample_manager
    (mkOptions JSUndefined (JSNum (NInt 5)) JSUndefined JSUndefined
               JSUndefined JSUndefined)
  = ([], Fulfilled ["-Djava.library.path=/srv/ddb/DynamoDBLocal_lib"; "-jar";
                    "/srv/ddb/DynamoDBLocal.jar"]).
Proof.
  rewrite (proj1 (generateArgs_dbPath_not_a_string
                    sample_world sample_manager
                    (mkOptions JSUndefined (JSNum (NInt 5)) JSUndefined
                               JSUndefined JSUndefined JSUndefined)
                    eq_refl eq_refl eq_refl)
                 eq_refl).
  reflexivity.
Defined.

(** X22. A falsy [dbPath] (the empty string, [null], [false], [0], [NaN])
    counts as no [dbPath]: the builder does exactly what it does for the same
    options without it. *)
Theorem generateArgs_falsy_dbPath
        (w : World) (m : Manager) (o : DynamoDBOptions) :
  truthy (dbPath o) = false ->
  generateArgs w m o = generateArgs w m (without_dbPath o).
Proof.
  intros Hdb. rewrite !generateArgs_cases.
  unfold storage_args, storage_mkdirs, without_dbPath, port_args, cors_args,
    flag_args, push_cors, push_flags.
  cbn [cors dbPath delayTransientStatuses inMemory port sharedDB].
  rewrite Hdb. cbn [truthy andb].
  rewrite !andb_false_r.
  destruct (dbPath o) as [| | [] | [z | | | |] | [| c s] | items |];
    try discriminate; simpl in Hdb; try rewrite Hdb; reflexivity.
Qed.

Lemma generateArgs_falsy_dbPath_witness :
  generateArgs sample_world sample_manager
    (mkOptions JSUndefined (JSStr "") JSUndefined JSUndefined JSUndefined
               JSUndefined)
  = generateArgs sample_world sample_manager no_options.
Proof.
  exact (generateArgs_falsy_dbPath sample_world sample_manager
           (mkOptions JSUndefined (JSStr "") JSUndefined JSUndefined JSUndefined
                      JSUndefined) eq_refl).
Defined.

(** X23. Every directory the builder tries to create is the one it passes
    on: if a [mkdir] is issued for [p], it is the only effect, the call is
    fulfilled, and [-dbPath] immediately followed by [p] is in the list.  A
    rejected call creates nothing. *)
Theorem generateArgs_mkdir_is_dbPath
        (w : World) (m : Manager) (o : DynamoDBOptions) (p : string) :
  In (Mkdir p) (fst (generateArgs w m o)) ->
  fst (generateArgs w m o) = [Mkdir p]
  /\ exists before after,
       snd (generateArgs w m o)
       = Fulfilled (before ++ "-dbPath" :: p :: after)%list.
Proof.
  rewrite generateArgs_cases.
  destruct (defined (port o) && negb (Number_isInteger (port o)));
    [destruct (verbose m); simpl; intuition discriminate |].
  destruct (truthy (inMemory o) && truthy (dbPath o));
    [destruct (verbose m); simpl; intuition discriminate |].
  unfold storage_args, storage_mkdirs.
  destruct (truthy (inMemory o)); [intros [] |].
  generalize (base_args m) (cors_args o) (port_args o) (flag_args o).
  intros base origins ports flags.
  destruct (dbPath o) as [| | [] | [z | | | |] | [| c s] | items |]; simpl;
    try destruct (z =? 0)%Z; simpl; intros H; try contradiction;
    destruct H as [[= <-] | []]; (split; [reflexivity |]);
    exists (base ++ origins ++ ports)%list;
    eexists; rewrite <- !app_assoc; reflexivity.
Qed.

Lemma generateArgs_mkdir_is_dbPath_witness :
  fst (generateArgs sample_world sample_manager
         (mkOptions JSUndefined (JSStr "data/../db") JSUndefined JSUndefined
                    JSUndefined JSUndefined))
  = [Mkdir "/home/user/db"].
Proof.
  exact (proj1 (generateArgs_mkdir_is_dbPath
                  sample_world sample_manager
                  (mkOptions JSUndefined (JSStr "data/../db") JSUndefined
                             JSUndefined JSUndefined JSUndefined)
                  "/home/user/db" (or_introl eq_refl))).
Defined.

(** ** Progress of a download *)

Lemma run_verbose_stream (destination length : string) (chunks : list Z)
      (p : Promise) (destroyed : bool) (written : Z) :
  run_download destination true
               (mkDownload p destroyed (Streaming length written))
               (map ResponseData chunks)
  = (progress_lines length (running_totals written chunks),
     mkDownload p destroyed
                (Streaming length (fold_left Z.add chunks written))).
Proof.
  revert written. induction chunks as [| n chunks IH]; intros written;
    [reflexivity |].
  simpl. rewrite IH. reflexivity.
Qed.

(** X24. The progress of a verbose download is cumulative: after a response
    with a length whose destination could be created, each chunk of data
    clears the line and reports the total of the bytes received so far,
    against the length of the header; the silent variant keeps no count and
    reports nothing. *)
Theorem download_progress_is_cumulative
        (destination : string) (c : ascii) (length : string)
        (chunks : list Z) :
  let events :=
    GotResponse (Some (String c length)) None :: map ResponseData chunks in
  downloadDynamoDB events destination true
  = ((HttpsGet download_host download_path :: Mkdir destination
        :: Untar destination
        :: progress_lines (String c length) (running_totals 0 chunks))%list,
     Pending)
  /\ downloadDynamoDB events destination false
     = ([HttpsGet download_host download_path; Mkdir destination;
         Untar destination],
        Pending).
Proof.
  intros events. unfold downloadDynamoDB, events.
  cbn [run_download on_request_event new_download dl_stage dl_promise
       dl_destroyed].
  split.
  - rewrite run_verbose_stream. reflexivity.
  - rewrite <- (app_nil_r (map ResponseData chunks)).
    rewrite run_quiet_stream. reflexivity.
Qed.
